(** * Streaming subsystem of Roo-Code-server: event transformer and
      streaming server, embedded in Rocq.

    The TypeScript sources embedded here are
    - the array-returning [EventTransformer] (the variant that maps both
      [say] and [ask] messages),
    - [src/services/streaming/EventTransformer.ts] (the single-event
      variant, module [Legacy]),
    - [StreamingServer] (connection registry, broadcast, command relay,
      port acquisition, heartbeat, configuration update). *)

From stdpp Require Import base option strings list gmap pretty.
From Stdlib Require Import ZArith Lia.
From Equations Require Import Equations.

Local Open Scope Z_scope.
Local Open Scope string_scope.
Local Open Scope list_scope.

(** ** JavaScript values and completions *)

(** Values of type [any]: what [JSON.parse] may return, what a [data]
    payload may hold.  Numbers are kept as their literal. *)
#[warnings="-register-all"]
Inductive JsValue : Type :=
  | JUndefined
  | JNull
  | JBool (b : bool)
  | JNum (literal : string)
  | JStr (s : string)
  | JArr (items : list JsValue)
  | JObj (fields : list (string * JsValue)).

(** A thrown value: an [Error] instance with its [message], or anything
    else ([error instanceof Error] is false). *)
Inductive Exn : Type :=
  | ErrorObject (message : string)
  | ThrownValue (v : JsValue).

(** [error instanceof Error ? error.message : "Unknown error"] *)
Definition error_message (e : Exn) : string :=
  match e with
  | ErrorObject m => m
  | ThrownValue _ => "Unknown error"
  end.

Inductive Completion (A : Type) : Type :=
  | Normal (a : A)
  | Throw (e : Exn).
Arguments Normal {A} a.
Arguments Throw {A} e.

(** The parts of the JavaScript runtime the code reads or writes:
    [Date.now()], [Math.random()] and the console.  The clock and the
    random source are oracles indexed by the number of reads so far. *)
Record Runtime : Type := mkRuntime {
  clock : nat -> Z;
  clock_reads : nat;
  entropy : nat -> string;
  entropy_reads : nat;
  console : list (string * option Exn)
}.

(** Computations over a state [S] that return or throw. *)
Definition M (S A : Type) : Type := S -> Completion A * S.

(** Code that only touches the runtime. *)
Definition JS (A : Type) : Type := M Runtime A.

Definition ret {S A} (a : A) : M S A := fun st => (Normal a, st).
Definition throw {S A} (e : Exn) : M S A := fun st => (Throw e, st).
Definition bind {S A B} (m : M S A) (k : A -> M S B) : M S B :=
  fun st =>
    match m st with
    | (Normal a, st') => k a st'
    | (Throw e, st') => (Throw e, st')
    end.
Definition try_catch {S A} (body : M S A) (handler : Exn -> M S A) : M S A :=
  fun st =>
    match body st with
    | (Normal a, st') => (Normal a, st')
    | (Throw e, st') => handler e st'
    end.
Definition lift {S A} (c : Completion A) : M S A := fun st => (c, st).
Definition gets {S A} (f : S -> A) : M S A := fun st => (Normal (f st), st).
Definition modify {S} (f : S -> S) : M S unit := fun st => (Normal tt, f st).

Declare Scope js_scope.
Delimit Scope js_scope with js.
Notation "'let*' x ':=' m 'in' k" := (bind m (fun x => k))
  (at level 10, x name, m at level 100, k at level 200) : js_scope.
Notation "'run' m 'then' k" := (bind m (fun _ => k))
  (at level 10, m at level 100, k at level 200) : js_scope.

(** [Date.now()] *)
Definition Date_now : JS Z :=
  fun rt =>
    (Normal (clock rt (clock_reads rt)),
     mkRuntime (clock rt) (S (clock_reads rt)) (entropy rt) (entropy_reads rt)
               (console rt)).

(** [Math.random().toString(36).substr(2, 9)] *)
Definition Math_random_suffix : JS string :=
  fun rt =>
    (Normal (entropy rt (entropy_reads rt)),
     mkRuntime (clock rt) (clock_reads rt) (entropy rt) (S (entropy_reads rt))
               (console rt)).

(** [console.error(label, error)] and [console.log(label)] *)
Definition console_write (label : string) (detail : option Exn) : JS unit :=
  fun rt =>
    (Normal tt,
     mkRuntime (clock rt) (clock_reads rt) (entropy rt) (entropy_reads rt)
               (console rt ++ [(label, detail)])).

(** Truthiness of a value. *)
Definition truthy (v : JsValue) : bool :=
  match v with
  | JUndefined | JNull => false
  | JBool b => b
  | JNum l => negb (bool_decide (l = "0") || bool_decide (l = "-0")
                    || bool_decide (l = "NaN"))
  | JStr s => negb (bool_decide (s = ""))
  | JArr _ | JObj _ => true
  end.

(** [v === undefined] *)
Definition is_undefined (v : JsValue) : bool :=
  match v with
  | JUndefined => true
  | _ => false
  end.

(** [s || fallback] for an optional string [s]: the empty string and
    [undefined] are both falsy. *)
Definition or_else (s : option string) (fallback : string) : string :=
  match s with
  | Some t => if bool_decide (t = "") then fallback else t
  | None => fallback
  end.

(** Truthiness of an optional string, as in [if (message.text)]. *)
Definition nonempty (s : option string) : option string :=
  match s with
  | Some t => if bool_decide (t = "") then None else Some t
  | None => None
  end.

(** An optional string as a value: absent is [undefined]. *)
Definition of_opt_string (s : option string) : JsValue :=
  match s with
  | Some t => JStr t
  | None => JUndefined
  end.

(** [`${x}`] for an optional string. *)
Definition interpolate (s : option string) : string :=
  match s with
  | Some t => t
  | None => "undefined"
  end.

(** [`[${category}]`] *)
Definition bracket_tag (category : option string) : string :=
  "[" +:+ interpolate category +:+ "]".

(** [haystack.includes(needle)] *)
Fixpoint includes (haystack needle : string) : bool :=
  String.prefix needle haystack
  || match haystack with
     | EmptyString => false
     | String _ rest => includes rest needle
     end.

(** [switch (x) { case l1: case l2: ... }]: does [x] hit one of the labels. *)
Definition is_case (x : option string) (labels : list string) : bool :=
  match x with
  | Some s => bool_decide (s ∈ labels)
  | None => false
  end.

(** The characters of a string with their index keys, as object spread
    over a string value enumerates them. *)
Fixpoint string_entries (i : nat) (s : string) : list (string * JsValue) :=
  match s with
  | EmptyString => []
  | String c rest =>
      (pretty i, JStr (String c EmptyString)) :: string_entries (S i) rest
  end.

(** Own enumerable properties of a value. *)
Definition own_entries (v : JsValue) : list (string * JsValue) :=
  match v with
  | JObj fields => fields
  | JArr items => imap (fun i x => (pretty i, x)) items
  | JStr s => string_entries 0 s
  | _ => []
  end.

Fixpoint assoc (k : string) (fields : list (string * JsValue)) : option JsValue :=
  match fields with
  | [] => None
  | (k', v) :: rest => if bool_decide (k' = k) then Some v else assoc k rest
  end.

(** [v.k] for a property name [k] that no prototype defines ([tool],
    [content]): a [TypeError] on [null] and [undefined], the own property
    or [undefined] otherwise. *)
Definition get_prop (v : JsValue) (k : string) : Completion JsValue :=
  match v with
  | JUndefined =>
      Throw (ErrorObject
        ("Cannot read properties of undefined (reading '" +:+ k +:+ "')"))
  | JNull =>
      Throw (ErrorObject
        ("Cannot read properties of null (reading '" +:+ k +:+ "')"))
  | _ => Normal (default JUndefined (assoc k (own_entries v)))
  end.

(** [const { k1, k2, ...rest } = v]: the rest object. *)
Definition rest_without (keys : list string) (v : JsValue)
  : Completion (list (string * JsValue)) :=
  match v with
  | JUndefined | JNull =>
      Throw (ErrorObject "Cannot destructure value as it is null or undefined")
  | _ => Normal (filter (fun kv => kv.1 ∉ keys) (own_entries v))
  end.

(** ** Content envelope and stream event *)

Inductive Role : Type := model | user.

Inductive Part : Type :=
  | PText (text : string) (thought : bool)
  | PFunctionCall (name : JsValue) (args : list (string * JsValue))
                  (id : option string)
  | PFunctionResponse (name : JsValue) (response : list (string * JsValue))
                      (id : option string).

(** [Content] of [@google/genai]; [parts] is optional there. *)
Record Content : Type := mkContent {
  role : Role;
  parts : option (list Part)
}.

(** [StreamEvent]; [usage_metadata] is never set by this code. *)
Record StreamEvent : Type := mkStreamEvent {
  event_id : string;
  timestamp : Z;
  task_id : option string;
  content : option Content;
  type : option string;
  data : option JsValue
}.

(** [ClineMessage] of [@roo-code/types], as the transformer reads it.  A
    field that a malformed message lacks is [None]. *)
Record ClineMessage : Type := mkClineMessage {
  ts : option Z;
  msg_type : string;
  ask : option string;
  say : option string;
  text : option string;
  images : option (list string);
  partial : option bool;
  reasoning : option string
}.

(** [message.ts.toString()] *)
Definition ts_toString (message : ClineMessage) : Completion string :=
  match ts message with
  | Some t => Normal (pretty t)
  | None =>
      Throw (ErrorObject
        "Cannot read properties of undefined (reading 'toString')")
  end.

(** [...(message.images && message.images.length > 0 && { images })] *)
Definition images_spread (message : ClineMessage) : list (string * JsValue) :=
  match images message with
  | Some (i :: l) => [("images", JArr (JStr <$> (i :: l)))]
  | _ => []
  end.

(** [`event_${Date.now()}_${Math.random().toString(36).substr(2, 9)}`] *)
Definition generateEventId : JS string :=
  (let* t := Date_now in
   let* r := Math_random_suffix in
   ret ("event_" +:+ pretty t +:+ "_" +:+ r))%js.

(** [for (const x of l) f(x)] *)
Fixpoint for_each {S A} (f : A -> M S unit) (l : list A) : M S unit :=
  match l with
  | [] => ret tt
  | a :: rest => (run f a then for_each f rest)%js
  end.

(** [array.map(f)] for an effectful [f], left to right. *)
Fixpoint js_map {A B} (f : A -> JS B) (l : list A) : JS (list B) :=
  match l with
  | [] => ret []
  | a :: rest =>
      (let* b := f a in
       let* bs := js_map f rest in
       ret (b :: bs))%js
  end.

(** [{ content?: Content[]; data?: any }] *)
Record TransformResult : Type := mkTransformResult {
  tr_content : option (list Content);
  tr_data : option JsValue
}.

(** [{}] *)
Definition empty_result : TransformResult := mkTransformResult None None.

(** [{ content: [{ role, parts: [part] }], data }] *)
Definition one_content (r : Role) (p : Part) (d : option JsValue)
  : TransformResult :=
  mkTransformResult (Some [mkContent r (Some [p])]) d.

(** The receiver of a property read: [message.partial] on an absent
    message is a [TypeError]. *)
Definition receiver {A} (o : option A) (prop : string) : Completion A :=
  match o with
  | Some a => Normal a
  | None =>
      Throw (ErrorObject
        ("Cannot read properties of undefined (reading '" +:+ prop +:+ "')"))
  end.

(** ** The array-returning transformer *)

Module EventTransformer.

Section WithParser.

(** [JSON.parse], the runtime's parser: a value or a [SyntaxError]. *)
Variable JSON_parse : string -> Completion JsValue.

(** The [case] labels of [transformSayMessage], in source order. *)
Definition say_dropped : list string :=
  ["api_req_started"; "api_req_finished"; "api_req_retried";
   "api_req_retry_delayed"; "api_req_deleted"; "shell_integration_warning";
   "checkpoint_saved"; "rooignore_error"; "diff_error"].

Definition say_mapped : list string :=
  ["reasoning"; "text"; "command_output"; "browser_action";
   "browser_action_result"; "mcp_server_request_started";
   "mcp_server_response"; "error"; "completion_result"; "user_feedback";
   "user_feedback_diff"; "codebase_search_result"; "subtask_result"].

Definition say_table : list string := say_dropped ++ say_mapped.

(** [data: { say: say }] *)
Definition say_data (message : ClineMessage) : option JsValue :=
  Some (JObj [("say", of_opt_string (say message))]).

Definition transformSayMessage (message : ClineMessage)
  : Completion TransformResult :=
  let say := say message in
  if is_case say say_dropped then Normal empty_result
  else if is_case say ["reasoning"] then
    match nonempty (text message) with
    | Some t => Normal (one_content model (PText t true) (say_data message))
    | None => Normal empty_result
    end
  else if is_case say ["text"] then
    match nonempty (text message) with
    | Some t => Normal (one_content model (PText t false) (say_data message))
    | None => Normal empty_result
    end
  else if is_case say ["command_output"] then
    match ts_toString message with
    | Throw e => Throw e
    | Normal functionCallId =>
        Normal (one_content user
          (PFunctionResponse (JStr "execute_command")
             [("output", of_opt_string (text message))]
             (Some functionCallId))
          (say_data message))
    end
  else if is_case say ["browser_action"] then
    Normal (one_content model
      (PFunctionCall (JStr "browser_action")
         (("action", JStr (or_else (text message) "Browser action initiated"))
            :: images_spread message)
         None)
      (say_data message))
  else if is_case say ["browser_action_result"] then
    let browserResponse :=
      ("result", JStr (or_else (text message) ""))
        :: match images message with
           | Some (i :: l) => [("screenshots", JArr (JStr <$> (i :: l)))]
           | _ => []
           end in
    Normal (one_content user
      (PFunctionResponse (JStr "browser_action") browserResponse None)
      (say_data message))
  else if is_case say ["mcp_server_request_started"] then
    match ts_toString message with
    | Throw e => Throw e
    | Normal functionCallId =>
        Normal (one_content model
          (PFunctionCall (JStr "mcp_tool")
             [("status", JStr "started");
              ("details",
               JStr (or_else (text message) "MCP server request initiated"))]
             (Some functionCallId))
          (say_data message))
    end
  else if is_case say ["mcp_server_response"] then
    match ts_toString message with
    | Throw e => Throw e
    | Normal functionCallId =>
        Normal (one_content user
          (PFunctionResponse (JStr "mcp_tool")
             [("result", JStr (or_else (text message) ""))]
             (Some functionCallId))
          (say_data message))
    end
  else if is_case say ["error"] then
    Normal (one_content user
      (PText ("Error: " +:+ or_else (text message) "Unknown error") false)
      (say_data message))
  else if is_case say ["completion_result"] then
    Normal (one_content model
      (PText (or_else (text message) (bracket_tag say)) false)
      (say_data message))
  else if is_case say ["user_feedback"; "user_feedback_diff"] then
    match nonempty (text message) with
    | Some t => Normal (one_content user (PText t false) (say_data message))
    | None => Normal empty_result
    end
  else if is_case say ["codebase_search_result"] then
    match ts_toString message with
    | Throw e => Throw e
    | Normal functionCallId =>
        Normal (one_content user
          (PFunctionResponse (JStr "search_codebase")
             [("result", JStr (or_else (text message) ""));
              ("reasoning",
               match nonempty (reasoning message) with
               | Some r => JStr r
               | None => JNull
               end)]
             (Some functionCallId))
          (say_data message))
    end
  else if is_case say ["subtask_result"] then
    Normal (one_content user
      (PFunctionResponse (JStr "complete_subtask")
         [("result", JStr (or_else (text message) ""))] None)
      (say_data message))
  else
    Normal (one_content model
      (PText (or_else (text message) (bracket_tag say)) false)
      (say_data message)).

(** The [case] labels of [transformAskMessage], in source order. *)
Definition ask_table : list string :=
  ["tool"; "followup"; "command"; "resume_task"; "resume_completed_task";
   "browser_action_launch"; "use_mcp_server"; "completion_result";
   "command_output"; "api_req_failed"; "mistake_limit_reached";
   "auto_approval_max_req_reached"].

(** [data: { ask: ask }] *)
Definition ask_data (message : ClineMessage) : option JsValue :=
  Some (JObj [("ask", of_opt_string (ask message))]).

(** [{ content: [{ role: "model", parts: [{ text: message.text || fallback }] }],
      data: { ask } }] *)
Definition ask_text (message : ClineMessage) (fallback : string)
  : TransformResult :=
  one_content model (PText (or_else (text message) fallback) false)
              (ask_data message).

(** The [try] block of the [tool] case: [Some r] when it returns [r],
    [None] when control falls out of it ([message.text] falsy). *)
Definition tool_try (message : ClineMessage) : JS (option TransformResult) :=
  match nonempty (text message) with
  | Some t =>
      (let* toolData := lift (JSON_parse t) in
       let* toolName := lift (get_prop toolData "tool") in
       let* content := lift (get_prop toolData "content") in
       if negb (is_undefined content) then
         let* otherArgs := lift (rest_without ["tool"; "content"] toolData) in
         let* callId := lift (ts_toString message) in
         let* responseId := lift (ts_toString message) in
         ret (Some (mkTransformResult
           (Some [mkContent model
                    (Some [PFunctionCall toolName otherArgs (Some callId)]);
                  mkContent user
                    (Some [PFunctionResponse toolName [("content", content)]
                             (Some responseId)])])
           (ask_data message)))
       else
         let* args := lift (rest_without ["tool"] toolData) in
         let* callId := lift (ts_toString message) in
         ret (Some (mkTransformResult
           (Some [mkContent model
                    (Some [PFunctionCall toolName args (Some callId)])])
           (ask_data message))))%js
  | None => ret None
  end.

Definition transformAskMessage (message : ClineMessage) : JS TransformResult :=
  let ask := ask message in
  if is_case ask ["tool"] then
    (let* returned :=
       try_catch (tool_try message)
         (fun error =>
            run console_write "Error parsing tool message:" (Some error) then
            ret (Some (one_content model
              (PText (or_else (text message) (bracket_tag ask)) false) None))) in
     match returned with
     | Some r => ret r
     | None =>
         ret (one_content model (PText (bracket_tag ask) false)
                          (ask_data message))
     end)%js
  else if is_case ask ["followup"] then
    ret (ask_text message "Follow-up question from agent")
  else if is_case ask ["command"] then
    ret (ask_text message "Permission request to execute command")
  else if is_case ask ["resume_task"] then
    ret (ask_text message "Resume task request")
  else if is_case ask ["resume_completed_task"] then
    ret (ask_text message "Resume completed task request")
  else if is_case ask ["browser_action_launch"] then
    ret (ask_text message "Browser action launch request")
  else if is_case ask ["use_mcp_server"] then
    ret (ask_text message "MCP server usage request")
  else if is_case ask ["completion_result"] then
    ret (ask_text message "Task completion result")
  else if is_case ask ["command_output"] then
    ret (ask_text message "Command execution output")
  else if is_case ask ["api_req_failed"] then
    ret (ask_text message "API request failed - user intervention needed")
  else if is_case ask ["mistake_limit_reached"] then
    ret (ask_text message "Mistake limit reached - user guidance needed")
  else if is_case ask ["auto_approval_max_req_reached"] then
    ret (ask_text message
           "Auto-approval limit reached - manual approval required")
  else
    ret (one_content model
      (PText (or_else (text message) (bracket_tag ask)) false)
      (Some (JObj [("ask", of_opt_string ask);
                   ("message", of_opt_string (text message))]))).

Definition messageToGenAIContent (message : ClineMessage) : JS TransformResult :=
  if bool_decide (msg_type message = "say") then
    lift (transformSayMessage message)
  else if bool_decide (msg_type message = "ask") then
    transformAskMessage message
  else ret empty_result.

(** One element of [content.map(...)]: the fields are evaluated in source
    order, [event_id] before [timestamp]. *)
Definition message_event (taskId : string) (data : option JsValue)
    (content : Content) : JS StreamEvent :=
  (let* id := generateEventId in
   let* now := Date_now in
   ret (mkStreamEvent id now (Some taskId) (Some content) (Some "message") data))%js.

(** [!data] *)
Definition falsy_data (data : option JsValue) : bool :=
  match data with
  | Some v => negb (truthy v)
  | None => true
  end.

(** [!content || content.length === 0] *)
Definition no_content (content : option (list Content)) : bool :=
  match content with
  | Some (_ :: _) => false
  | _ => true
  end.

(** The [try] block of [transformMessageEvent]; [None] is [null]. *)
Definition transformMessageEvent_try (taskId : string)
    (message : option ClineMessage) : JS (option (list StreamEvent)) :=
  (let* m := lift (receiver message "partial") in
   if default false (partial m) then ret None
   else
     let* r := messageToGenAIContent m in
     if no_content (tr_content r) && falsy_data (tr_data r) then ret None
     else
       match tr_content r with
       | Some contents =>
           let* streamEvents :=
             js_map (message_event taskId (tr_data r)) contents in
           ret (Some streamEvents)
       | None => ret None
       end)%js.

(** The event built by the [catch] clause. *)
Definition error_event (taskId : string) (error : Exn) : JS StreamEvent :=
  (let* id := generateEventId in
   let* now := Date_now in
   ret (mkStreamEvent id now (Some taskId) None (Some "error")
          (Some (JObj [("error",
             JStr ("Error transforming message: " +:+ error_message error))]))))%js.

Definition transformMessageEvent (taskId : string)
    (message : option ClineMessage) : JS (option (list StreamEvent)) :=
  try_catch (transformMessageEvent_try taskId message)
    (fun error =>
       run console_write "Error transforming message event:" (Some error) then
       let* ev := error_event taskId error in
       ret (Some [ev]))%js.

End WithParser.

(** [...args] of [transformTaskEvent]: [args[0]] is read through the cast
    [args[0] as string] (absent is [None]); [args[1]] and [args[2]] are
    read as they are, [JUndefined] when absent. *)
Record TaskEventArgs : Type := mkTaskEventArgs {
  arg0 : option string;
  arg1 : JsValue;
  arg2 : JsValue
}.

Section WithEventNames.

(** The members of [RooCodeEventName] that [transformTaskEvent] names. *)
Variables TaskCreated TaskStarted TaskCompleted TaskPaused TaskUnpaused
  TaskAborted TaskModeSwitched TaskTokenUsageUpdated TaskToolFailed : string.

(** [{ type: eventName, task_id: taskId, event_id, timestamp, data? }] *)
Definition task_event (eventName taskId : string) (data : option JsValue)
  : JS StreamEvent :=
  (let* id := generateEventId in
   let* now := Date_now in
   ret (mkStreamEvent id now (Some taskId) None (Some eventName) data))%js.

(** The [try] block of [transformTaskEvent]. *)
Definition transformTaskEvent_try (eventName : string) (args : TaskEventArgs)
  : JS StreamEvent :=
  let taskId := or_else (arg0 args) "unknown" in
  if bool_decide (eventName ∈ [TaskCreated; TaskStarted; TaskCompleted;
                               TaskPaused; TaskUnpaused; TaskAborted;
                               TaskModeSwitched]) then
    task_event eventName taskId None
  else if bool_decide (eventName = TaskTokenUsageUpdated) then
    task_event eventName taskId (Some (JObj [("tokenUsage", arg1 args)]))
  else if bool_decide (eventName = TaskToolFailed) then
    task_event eventName taskId
      (Some (JObj [("tool_name", arg1 args); ("error", arg2 args)]))
  else task_event eventName taskId None.

(** The event built by the [catch] clause: no [task_id]. *)
Definition task_error_event (eventName : string) (error : Exn)
  : JS StreamEvent :=
  (let* id := generateEventId in
   let* now := Date_now in
   ret (mkStreamEvent id now None None (Some "error")
          (Some (JObj [("error",
             JStr ("Error transforming task event " +:+ eventName +:+ ": "
                   +:+ error_message error))]))))%js.

Definition transformTaskEvent (eventName : string) (args : TaskEventArgs)
  : JS StreamEvent :=
  try_catch (transformTaskEvent_try eventName args)
    (fun error =>
       run console_write "Error transforming task event:" (Some error) then
       task_error_event eventName error)%js.

End WithEventNames.

End EventTransformer.

(** ** The single-event transformer, [src/services/streaming/EventTransformer.ts] *)

Module Legacy.

Definition transformSayMessage (message : ClineMessage)
  : Completion (option Content) :=
  let say := say message in
  if is_case say ["reasoning"] then
    match nonempty (text message) with
    | Some t => Normal (Some (mkContent model (Some [PText t true])))
    | None => Normal None
    end
  else if is_case say ["text"] then
    match nonempty (text message) with
    | Some t => Normal (Some (mkContent model (Some [PText t false])))
    | None => Normal None
    end
  else if is_case say ["api_req_started"; "api_req_finished"] then Normal None
  else if is_case say ["command_output"] then
    match ts_toString message with
    | Throw e => Throw e
    | Normal functionCallId =>
        Normal (Some (mkContent user
          (Some [PFunctionResponse (JStr "execute_command")
                   [("output", of_opt_string (text message))]
                   (Some functionCallId)])))
    end
  else if is_case say ["browser_action"] then
    match ts_toString message with
    | Throw e => Throw e
    | Normal functionCallId =>
        Normal (Some (mkContent model
          (Some [PFunctionCall (JStr "browser_action")
                   (("action",
                     JStr (or_else (text message) "Browser action initiated"))
                      :: images_spread message)
                   (Some functionCallId)])))
    end
  else if is_case say ["browser_action_result"] then
    let browserResponse :=
      ("result", JStr (or_else (text message) ""))
        :: match images message with
           | Some (i :: l) => [("screenshots", JArr (JStr <$> (i :: l)))]
           | _ => []
           end in
    Normal (Some (mkContent user
      (Some [PFunctionResponse (JStr "browser_action") browserResponse None])))
  else if is_case say ["mcp_server_request_started"] then
    match ts_toString message with
    | Throw e => Throw e
    | Normal functionCallId =>
        Normal (Some (mkContent model
          (Some [PFunctionCall (JStr "mcp_tool")
                   [("status", JStr "started");
                    ("details",
                     JStr (or_else (text message)
                             "MCP server request initiated"))]
                   (Some functionCallId)])))
    end
  else if is_case say ["mcp_server_response"] then
    match ts_toString message with
    | Throw e => Throw e
    | Normal functionCallId =>
        Normal (Some (mkContent user
          (Some [PFunctionResponse (JStr "mcp_tool")
                   [("result", JStr (or_else (text message) ""))]
                   (Some functionCallId)])))
    end
  else if is_case say ["error"] then
    Normal (Some (mkContent user
      (Some [PText ("Error: " +:+ or_else (text message) "Unknown error")
                   false])))
  else if is_case say
            ["completion_result"; "user_feedback"; "user_feedback_diff"] then
    match nonempty (text message) with
    | Some t => Normal (Some (mkContent user (Some [PText t false])))
    | None => Normal (Some (mkContent user None))
    end
  else if is_case say ["codebase_search_result"] then
    match ts_toString message with
    | Throw e => Throw e
    | Normal functionCallId =>
        Normal (Some (mkContent user
          (Some [PFunctionResponse (JStr "search_codebase")
                   [("result", JStr (or_else (text message) ""));
                    ("reasoning",
                     match nonempty (reasoning message) with
                     | Some r => JStr r
                     | None => JNull
                     end)]
                   (Some functionCallId)])))
    end
  else if is_case say ["subtask_result"] then
    Normal (Some (mkContent user
      (Some [PFunctionResponse (JStr "complete_subtask")
               [("result", JStr (or_else (text message) ""))] None])))
  else
    Normal (Some (mkContent model
      (Some [PText (or_else (text message) (bracket_tag say)) false]))).

Definition messageToGenAIContent (message : option ClineMessage)
  : Completion (option Content) :=
  match receiver message "type" with
  | Throw e => Throw e
  | Normal m =>
      if bool_decide (msg_type m = "say") then transformSayMessage m
      else if bool_decide (msg_type m = "ask") then Normal None
      else Normal None
  end.

(** [!content || !content.parts || content.parts.length === 0] *)
Definition no_parts (content : option Content) : bool :=
  match content with
  | Some c =>
      match parts c with
      | Some (_ :: _) => false
      | _ => true
      end
  | None => true
  end.

(** The [try] block of [transformMessageEvent]; [None] is [null]. *)
Definition transformMessageEvent_try (taskId : string)
    (message : option ClineMessage) : JS (option StreamEvent) :=
  (let* content := lift (messageToGenAIContent message) in
   if no_parts content then ret None
   else
     let* id := generateEventId in
     let* now := Date_now in
     ret (Some (mkStreamEvent id now (Some taskId) content (Some "message")
                  None)))%js.

Definition transformMessageEvent (taskId : string)
    (message : option ClineMessage) : JS (option StreamEvent) :=
  try_catch (transformMessageEvent_try taskId message)
    (fun error =>
       run console_write "Error transforming message event:" (Some error) then
       let* ev := EventTransformer.error_event taskId error in
       ret (Some ev))%js.

End Legacy.

(** ** The streaming server *)

Module StreamingServer.

Record PortRange : Type := mkPortRange { min : Z; max : Z }.

Inductive LoggingLevel : Type := LevelError | LevelWarn | LevelInfo | LevelDebug.

Record StreamingServerConfig : Type := mkConfig {
  enabled : bool;
  port : Z;
  portRange : option PortRange;
  logging : bool;
  loggingLevel : LoggingLevel;
  connectionTimeout : Z;
  heartbeatInterval : Z
}.

Definition DEFAULT_CONFIG : StreamingServerConfig :=
  mkConfig true 3001 (Some (mkPortRange 3001 3100)) false LevelInfo 60000 30000.

(** [Partial<StreamingServerConfig>]: a field is given or not.  Only
    [portRange] may be given as [undefined]. *)
Record PartialConfig : Type := mkPartialConfig {
  given_enabled : option bool;
  given_port : option Z;
  given_portRange : option (option PortRange);
  given_logging : option bool;
  given_loggingLevel : option LoggingLevel;
  given_connectionTimeout : option Z;
  given_heartbeatInterval : option Z
}.

(** [{ ...base, ...overrides }] *)
Definition spread (base : StreamingServerConfig) (overrides : PartialConfig)
  : StreamingServerConfig :=
  mkConfig (default (enabled base) (given_enabled overrides))
           (default (port base) (given_port overrides))
           (default (portRange base) (given_portRange overrides))
           (default (logging base) (given_logging overrides))
           (default (loggingLevel base) (given_loggingLevel overrides))
           (default (connectionTimeout base) (given_connectionTimeout overrides))
           (default (heartbeatInterval base) (given_heartbeatInterval overrides)).

(** What is written to a socket: [JSON.stringify] of a stream event, of an
    acknowledgement or of an error object.  Frames are kept structured. *)
Inductive Frame : Type :=
  | EventFrame (event : StreamEvent)
  | AckFrame (commandName : string) (timestamp : Z)
  | ErrorFrame (message : string) (timestamp : Z).

(** A [WebSocket] of the [ws] library, as this code uses it: its ready
    state, whether [send] throws (and what), and the frames written. *)
Inductive ReadyState : Type := CONNECTING | OPEN | CLOSING | CLOSED.

Global Instance ReadyState_eq_dec : EqDecision ReadyState.
Proof. solve_decision. Defined.

Record WebSocket : Type := mkWebSocket {
  readyState : ReadyState;
  send_throws : option Exn;
  written : list Frame
}.

(** [StreamClientConnection]; [websocket] is a reference into the socket
    store. *)
Record StreamClientConnection : Type := mkConnection {
  id : string;
  connectedAt : Z;
  websocket : option nat
}.

(** [WebSocketTaskCommand] *)
Record WebSocketTaskCommand : Type := mkTaskCommand {
  commandName : string;
  command_data : JsValue
}.

(** What the event loop may run while a promise is pending: the [close]
    and [error] callbacks that [setupWebSocket] registers on a socket. *)
Inductive LoopEvent : Type :=
  | SocketClose (connectionId : string)
  | SocketError (connectionId : string) (error : Exn).

(** [TaskCommandHandler]: the promise it returns settles (resolved, or
    rejected with a value) after the loop has run [meanwhile]. *)
Record Settled : Type := mkSettled {
  meanwhile : list LoopEvent;
  outcome : Completion unit
}.
Definition TaskCommandHandler : Type := string -> JsValue -> Settled.

(** The outcome of [server.listen(port)]: the [listening] event, or the
    [error] event with the error's [code]. *)
Inductive ListenResult : Type :=
  | Listening
  | ListenError (code : string) (error : Exn).

(** What the server emits as an [EventEmitter]. *)
Inductive Emission : Type :=
  | EmitStarted
  | EmitStopped
  | EmitEventBroadcast (event : StreamEvent).

(** The server object ([this_*]) together with the part of the process it
    acts on: the HTTP listener, the interval timers, the sockets, the
    emitted events and the runtime.  [wss_on_server] says whether the
    listeners that [new WebSocketServer({ server })] put on the http server
    are on it; [uncaught] collects the exceptions that left a callback of
    the event loop uncaught. *)
Record State : Type := mkState {
  this_config : StreamingServerConfig;
  this_connections : gmap string StreamClientConnection;
  this_heartbeatInterval : option nat;
  this_taskCommandHandler : option TaskCommandHandler;
  listen_env : Z -> ListenResult;
  listen_calls : list Z;
  bound_port : option Z;
  wss_on_server : bool;
  uncaught : list Exn;
  intervals : gset nat;
  next_interval : nat;
  sockets : nat -> WebSocket;
  emitted : list Emission;
  runtime : Runtime
}.

Definition SM (A : Type) : Type := M State A.

Definition set_config (c : StreamingServerConfig) (s : State) : State :=
  mkState c (this_connections s) (this_heartbeatInterval s)
          (this_taskCommandHandler s) (listen_env s) (listen_calls s)
          (bound_port s) (wss_on_server s) (uncaught s)
          (intervals s) (next_interval s) (sockets s)
          (emitted s) (runtime s).

Definition set_connections (m : gmap string StreamClientConnection) (s : State)
  : State :=
  mkState (this_config s) m (this_heartbeatInterval s)
          (this_taskCommandHandler s) (listen_env s) (listen_calls s)
          (bound_port s) (wss_on_server s) (uncaught s)
          (intervals s) (next_interval s) (sockets s)
          (emitted s) (runtime s).

Definition set_handler (h : option TaskCommandHandler) (s : State) : State :=
  mkState (this_config s) (this_connections s) (this_heartbeatInterval s)
          h (listen_env s) (listen_calls s)
          (bound_port s) (wss_on_server s) (uncaught s)
          (intervals s) (next_interval s) (sockets s)
          (emitted s) (runtime s).

Definition set_listener (calls : list Z) (bound : option Z) (s : State) : State :=
  mkState (this_config s) (this_connections s) (this_heartbeatInterval s)
          (this_taskCommandHandler s) (listen_env s) calls
          bound (wss_on_server s) (uncaught s)
          (intervals s) (next_interval s) (sockets s)
          (emitted s) (runtime s).

Definition set_timers (handle : option nat) (active : gset nat) (next : nat)
    (s : State) : State :=
  mkState (this_config s) (this_connections s) handle
          (this_taskCommandHandler s) (listen_env s) (listen_calls s)
          (bound_port s) (wss_on_server s) (uncaught s) active next (sockets s)
          (emitted s) (runtime s).

Definition set_sockets (f : nat -> WebSocket) (s : State) : State :=
  mkState (this_config s) (this_connections s) (this_heartbeatInterval s)
          (this_taskCommandHandler s) (listen_env s) (listen_calls s)
          (bound_port s) (wss_on_server s) (uncaught s)
          (intervals s) (next_interval s) f
          (emitted s) (runtime s).

Definition set_emitted (l : list Emission) (s : State) : State :=
  mkState (this_config s) (this_connections s) (this_heartbeatInterval s)
          (this_taskCommandHandler s) (listen_env s) (listen_calls s)
          (bound_port s) (wss_on_server s) (uncaught s)
          (intervals s) (next_interval s) (sockets s)
          l (runtime s).

Definition set_runtime (rt : Runtime) (s : State) : State :=
  mkState (this_config s) (this_connections s) (this_heartbeatInterval s)
          (this_taskCommandHandler s) (listen_env s) (listen_calls s)
          (bound_port s) (wss_on_server s) (uncaught s)
          (intervals s) (next_interval s) (sockets s)
          (emitted s) rt.

Definition set_wss_on_server (attached : bool) (s : State) : State :=
  mkState (this_config s) (this_connections s) (this_heartbeatInterval s)
          (this_taskCommandHandler s) (listen_env s) (listen_calls s)
          (bound_port s) attached (uncaught s)
          (intervals s) (next_interval s) (sockets s)
          (emitted s) (runtime s).

Definition set_uncaught (l : list Exn) (s : State) : State :=
  mkState (this_config s) (this_connections s) (this_heartbeatInterval s)
          (this_taskCommandHandler s) (listen_env s) (listen_calls s)
          (bound_port s) (wss_on_server s) l
          (intervals s) (next_interval s) (sockets s)
          (emitted s) (runtime s).

(** Run runtime-only code inside the server. *)
Definition in_runtime {A} (m : JS A) : SM A :=
  fun s => let '(c, rt) := m (runtime s) in (c, set_runtime rt s).

(** [console.log] / [console.error] *)
Definition log (label : string) (detail : option Exn) : SM unit :=
  in_runtime (console_write label detail).

(** [this.emit(name, ...)] *)
Definition emit (e : Emission) : SM unit :=
  modify (fun s => set_emitted (emitted s ++ [e]) s).

(** [this.connections.delete(connectionId)] *)
Definition connections_delete (connectionId : string) : SM unit :=
  modify (fun s => set_connections (delete connectionId (this_connections s)) s).

(** Replace the socket behind a reference. *)
Definition store (ws : nat) (w : WebSocket) (f : nat -> WebSocket)
  : nat -> WebSocket :=
  fun r => if bool_decide (r = ws) then w else f r.

(** [ws.send(data)] on a socket: throws what the socket's transport
    throws, or appends the frame to what was written. *)
Definition ws_send (ws : nat) (frame : Frame) : SM unit :=
  fun s =>
    let w := sockets s ws in
    match send_throws w with
    | Some e => (Throw e, s)
    | None =>
        (Normal tt,
         set_sockets
           (store ws (mkWebSocket (readyState w) None (written w ++ [frame]))
                  (sockets s)) s)
    end.

(** [ws.close()]: starts the closing handshake unless already closed. *)
Definition ws_close (ws : nat) : SM unit :=
  modify (fun s =>
    let w := sockets s ws in
    set_sockets
      (store ws
         (mkWebSocket (if bool_decide (readyState w = CLOSED) then CLOSED
                       else CLOSING)
                      (send_throws w) (written w))
         (sockets s)) s).

Definition sendToWebSocketClient (ws : nat) (frame : Frame) : SM unit :=
  fun s =>
    if bool_decide (readyState (sockets s ws) = OPEN) then ws_send ws frame s
    else (Normal tt, s).

(** [`conn_${Date.now()}_${Math.random().toString(36).substr(2, 9)}`] *)
Definition generateConnectionId : JS string :=
  (let* t := Date_now in
   let* r := Math_random_suffix in
   ret ("conn_" +:+ pretty t +:+ "_" +:+ r))%js.

(** One turn of the loop in [broadcastEvent]. *)
Definition broadcast_to (event : StreamEvent)
    (entry : string * StreamClientConnection) : SM unit :=
  let '(connectionId, connection) := entry in
  try_catch
    (match websocket connection with
     | Some ws => sendToWebSocketClient ws (EventFrame event)
     | None => ret tt
     end)
    (fun error =>
       run log ("[Streaming Server] Failed to send event to "
                +:+ connectionId +:+ ":") (Some error) then
       connections_delete connectionId)%js.

(** [Array.from(this.connections.entries())] is a snapshot taken before
    the loop; the loop deletes from the live map. *)
Definition broadcastEvent (event : StreamEvent) : SM unit :=
  (let* entries := gets (fun s => map_to_list (this_connections s)) in
   run for_each (broadcast_to event) entries then
   emit (EmitEventBroadcast event))%js.

Definition sendAckToClient (connectionId : string) (commandName : string)
  : SM unit :=
  (let* connection := gets (fun s => this_connections s !! connectionId) in
   match connection ≫= websocket with
   | Some ws =>
       let* now := in_runtime Date_now in
       sendToWebSocketClient ws (AckFrame commandName now)
   | None => ret tt
   end)%js.

Definition sendErrorToClient (connectionId : string) (error : string)
  : SM unit :=
  (let* connection := gets (fun s => this_connections s !! connectionId) in
   match connection ≫= websocket with
   | Some ws =>
       let* now := in_runtime Date_now in
       sendToWebSocketClient ws (ErrorFrame error now)
   | None => ret tt
   end)%js.

(** The [close] and [error] callbacks registered by [setupWebSocket]. *)
Definition on_loop_event (ev : LoopEvent) : SM unit :=
  match ev with
  | SocketClose connectionId =>
      (run connections_delete connectionId then
       log ("[Streaming Server] WebSocket client disconnected: "
            +:+ connectionId) None)%js
  | SocketError connectionId error =>
      (run log ("[Streaming Server] WebSocket error for "
                +:+ connectionId +:+ ":") (Some error) then
       connections_delete connectionId)%js
  end.

(** [await this.taskCommandHandler(commandName, data)]: the loop runs the
    callbacks that became due, then the promise's outcome is delivered. *)
Definition await (p : Settled) : SM unit :=
  (run for_each on_loop_event (meanwhile p) then lift (outcome p))%js.

(** [handleTaskCommand]; a thrown completion is the rejection of the
    promise this [async] method returns. *)
Definition handleTaskCommand (connectionId : string)
    (message : WebSocketTaskCommand) : SM unit :=
  (let* handler := gets this_taskCommandHandler in
   match handler with
   | None =>
       run log ("[Streaming Server] Task command handler not set, cannot process command: "
                +:+ commandName message) None then
       sendErrorToClient connectionId "Task command handler not available"
   | Some taskCommandHandler =>
       try_catch
         (run log ("[Streaming Server] Processing task command from "
                   +:+ connectionId +:+ ": " +:+ commandName message) None then
          run await (taskCommandHandler (commandName message)
                       (command_data message)) then
          sendAckToClient connectionId (commandName message))
         (fun error =>
            run log ("[Streaming Server] Error processing task command "
                     +:+ commandName message +:+ ":") (Some error) then
            sendErrorToClient connectionId
              ("Failed to process command: " +:+ error_message error))
   end)%js.

(** The [connection] callback registered by [setupWebSocket]. *)
Definition on_connection (ws : nat) : SM unit :=
  (let* connectionId := in_runtime generateConnectionId in
   let* now := in_runtime Date_now in
   run modify (fun s =>
     set_connections
       (<[connectionId := mkConnection connectionId now (Some ws)]>
          (this_connections s)) s) then
   log ("[Streaming Server] WebSocket client connected: " +:+ connectionId)
       None)%js.

(** The callback that [setupHeartbeat] hands to [setInterval]. *)
Definition heartbeat_callback : SM unit :=
  (let* event_id := in_runtime generateEventId in
   let* timestamp := in_runtime Date_now in
   let* data_timestamp := in_runtime Date_now in
   broadcastEvent
     (mkStreamEvent event_id timestamp None None (Some "heartbeat")
        (Some (JObj [("timestamp", JNum (pretty data_timestamp))]))))%js.

(** [this.heartbeatInterval = setInterval(callback, this.config.heartbeatInterval)] *)
Definition setupHeartbeat : SM unit :=
  modify (fun s =>
    set_timers (Some (next_interval s)) ({[next_interval s]} ∪ intervals s)
               (S (next_interval s)) s).

(** The loop fires interval [handle]: the heartbeat callback runs if that
    interval is still set. *)
Definition interval_fires (handle : nat) : SM unit :=
  fun s =>
    if bool_decide (handle ∈ intervals s) then heartbeat_callback s
    else (Normal tt, s).

(** [new StreamingServer(config)] in a process whose ports answer as
    [listen], with runtime [rt] and socket store [socks].
    [new WebSocketServer({ server: this.server })] puts its listeners on
    the http server here, before any caller can register one. *)
Definition constructor (config : PartialConfig) (listen : Z -> ListenResult)
    (socks : nat -> WebSocket) (rt : Runtime) : State :=
  (setupHeartbeat
     (mkState (spread DEFAULT_CONFIG config) ∅ None None listen [] None true []
              ∅ 0 socks [] rt)).2.

Definition setTaskCommandHandler (handler : TaskCommandHandler) : SM unit :=
  modify (set_handler (Some handler)).

(** [updateConfig] *)
Definition updateConfig (newConfig : PartialConfig) : SM unit :=
  (run modify (fun s => set_config (spread (this_config s) newConfig) s) then
   log "[Streaming Server] Configuration updated:" None)%js.

(** [server.listen(port)]: the call is recorded; the listener is bound
    when the port answers with [listening].  The http server then emits
    [listening] or [error] to its listeners, see [tryPort]. *)
Definition server_listen (portToTry : Z) (s : State) : ListenResult * State :=
  let result := listen_env s portToTry in
  (result,
   set_listener (listen_calls s ++ [portToTry])
     (match result with
      | Listening => Some portToTry
      | ListenError _ _ => bound_port s
      end) s).

(** [onListening] inside [tryPort] *)
Definition onListening (portToTry : Z) : SM unit :=
  (run modify (fun s =>
     set_config (mkConfig (enabled (this_config s)) portToTry
                          (portRange (this_config s)) (logging (this_config s))
                          (loggingLevel (this_config s))
                          (connectionTimeout (this_config s))
                          (heartbeatInterval (this_config s))) s) then
   run log ("[Streaming Server] Server started on port " +:+ pretty portToTry)
           None then
   run log ("[Streaming Server] WebSocket endpoint: ws://localhost:"
            +:+ pretty portToTry) None then
   run log ("[Streaming Server] Status endpoint: http://localhost:"
            +:+ pretty portToTry +:+ "/api/status") None then
   emit EmitStarted)%js.

(** Ports still to try above [portToTry]. *)
Definition attempts_left (portRange : option PortRange) (portToTry : Z) : nat :=
  match portRange with
  | Some r => Z.to_nat (max r - portToTry)
  | None => 0
  end.

(** The promise that [start] returns, as it is once the event loop has
    delivered the outcome of [server.listen]. *)
Inductive Promise : Type :=
  | Fulfilled
  | Rejected (reason : Exn)
  | Pending.

(** [tryPort] inside [start], with the delivery of the event that
    [server.listen] leads to.

    An emitter calls the listeners of an event in the order in which they
    were registered, and a listener that throws ends the emit.  On the
    http server the first listener of [listening] and of [error] is the
    one of the [WebSocketServer], registered in the constructor; it emits
    the same event on the [WebSocketServer].  This class registers no
    listener there: for [listening] that does nothing, and [onListening]
    runs next; for [error] the emit without a listener throws the error,
    so [onError] is not called, the promise is neither resolved nor
    rejected, and the error is an uncaught exception of the process.
    Once [wss.close()] in [stop] has taken the listeners of the
    [WebSocketServer] off the http server, [error] reaches [onError],
    whose body is the remaining branches.

    The [once] handlers that an earlier [tryPort] left on the http server
    when its event did not reach them are not tracked. *)
Equations? tryPort (portRange : option PortRange) (portToTry : Z) (s : State)
  : Promise * State by wf (attempts_left portRange portToTry) lt :=
tryPort portRange portToTry s with server_listen portToTry s => {
  | (Listening, s1) := (Fulfilled, (onListening portToTry s1).2);
  | (ListenError code error, s1) with wss_on_server s1 => {
    | true := (Pending, set_uncaught (uncaught s1 ++ [error]) s1);
    | false with bool_decide (code = "EADDRINUSE") => {
      | false := (Rejected error, s1);
      | true with portRange => {
        | None :=
            (Rejected (ErrorObject ("No available ports found. Last attempted: "
                                    +:+ pretty portToTry)), s1);
        | Some r with decide (portToTry < max r) => {
          | left _ :=
              tryPort (Some r) (portToTry + 1)
                ((log ("[Streaming Server] Port " +:+ pretty portToTry
                       +:+ " not available, trying port "
                       +:+ pretty (portToTry + 1)) None s1).2);
          | right _ :=
              (Rejected (ErrorObject ("No available ports found. Last attempted: "
                                      +:+ pretty portToTry)), s1) } } } } }.
Proof. simpl. lia. Qed.

(** [start]: [server.listen] on a server that is already listening
    throws inside the promise executor, which rejects the promise. *)
Definition start (s : State) : Promise * State :=
  match bound_port s with
  | Some _ => (Rejected (ErrorObject "Listen method has been called more than once without closing."), s)
  | None => tryPort (portRange (this_config s)) (port (this_config s)) s
  end.

(** A call of [start()]: the caller gets the promise at once; the state
    is the one the loop leaves when the outcome of [listen] has been
    delivered. *)
Definition call_start : SM unit :=
  fun s => (Normal tt, (start s).2).

(** One turn of the loop in [stop]. *)
Definition close_connection (entry : string * StreamClientConnection)
  : SM unit :=
  match websocket entry.2 with
  | Some ws => ws_close ws
  | None => ret tt
  end.

(** [stop]: [this.wss.close(...)] takes the listeners of the
    [WebSocketServer] off the http server, then [this.server.close(...)]
    releases the port. *)
Definition stop : SM unit :=
  (let* handle := gets this_heartbeatInterval in
   run match handle with
       | Some h => modify (fun s =>
           set_timers (this_heartbeatInterval s) (intervals s ∖ {[h]})
                      (next_interval s) s)
       | None => ret tt
       end then
   let* entries := gets (fun s => map_to_list (this_connections s)) in
   run for_each close_connection entries then
   run modify (set_connections ∅) then
   run modify (set_wss_on_server false) then
   run modify (fun s => set_listener (listen_calls s) None s) then
   run log "[Streaming Server] Server stopped" None then
   emit EmitStopped)%js.

(** What can happen to a server: calls of its public methods and
    callbacks run by the event loop. *)
Inductive Action : Type :=
  | CallStart
  | CallStop
  | CallUpdateConfig (newConfig : PartialConfig)
  | CallSetTaskCommandHandler (handler : TaskCommandHandler)
  | CallBroadcastEvent (event : StreamEvent)
  | IntervalFires (handle : nat)
  | ClientConnects (ws : nat)
  | ClientCommand (connectionId : string) (message : WebSocketTaskCommand)
  | Loop (ev : LoopEvent).

Definition perform (a : Action) : SM unit :=
  match a with
  | CallStart => call_start
  | CallStop => stop
  | CallUpdateConfig newConfig => updateConfig newConfig
  | CallSetTaskCommandHandler handler => setTaskCommandHandler handler
  | CallBroadcastEvent event => broadcastEvent event
  | IntervalFires handle => interval_fires handle
  | ClientConnects ws => on_connection ws
  | ClientCommand connectionId message => handleTaskCommand connectionId message
  | Loop ev => on_loop_event ev
  end.

(** The state after a sequence of actions; a [start] that does not
    resolve and a rejected command leave the state they reached. *)
Definition run_actions (actions : list Action) (s : State) : State :=
  foldl (fun st a => (perform a st).2) s actions.

(** [getConnections]: the registered connections without their sockets. *)
Definition getConnections (s : State) : list StreamClientConnection :=
  (fun conn => mkConnection (id conn) (connectedAt conn) None)
    <$> (map_to_list (this_connections s)).*2.

End StreamingServer.

(** ** The host side of task commands, [src/extension/api.ts] *)

Module Api.

Section WithHost.

(** The members of [TaskCommandName]. *)
Variables StartNewTask CancelTask CloseTask : string.

(** [`${v}`] for a value of type [any]: the string, or what the
    conversion throws. *)
Variable template : JsValue -> Completion string.

(** [this.startNewTask(data)], [this.cancelTask(data)] and the two editor
    commands of [CloseTask], each as the promise that is awaited. *)
Variables startNewTask cancelTask : JsValue -> StreamingServer.Settled.
Variables saveFiles closeWindow : StreamingServer.Settled.

(** [await a; await b]: [b] is not started when [a] rejects. *)
Definition and_then (a b : StreamingServer.Settled) : StreamingServer.Settled :=
  match StreamingServer.outcome a with
  | Normal _ =>
      StreamingServer.mkSettled
        (StreamingServer.meanwhile a ++ StreamingServer.meanwhile b)
        (StreamingServer.outcome b)
  | Throw e => a
  end.

(** A rejection before anything is awaited. *)
Definition rejected (e : Exn) : StreamingServer.Settled :=
  StreamingServer.mkSettled [] (Throw e).

(** [handleWebSocketTaskCommand]: the arguments of [this.log] are
    evaluated whether or not logging is enabled. *)
Definition handleWebSocketTaskCommand : StreamingServer.TaskCommandHandler :=
  fun commandName data =>
    if bool_decide (commandName = StartNewTask) then
      match get_prop data "text" with
      | Throw e => rejected e
      | Normal text =>
          match template text with
          | Throw e => rejected e
          | Normal _ =>
              match get_prop data "configuration" with
              | Throw e => rejected e
              | Normal _ => startNewTask data
              end
          end
      end
    else if bool_decide (commandName = CancelTask) then
      match template data with
      | Throw e => rejected e
      | Normal _ => cancelTask data
      end
    else if bool_decide (commandName = CloseTask) then
      match template data with
      | Throw e => rejected e
      | Normal _ => and_then saveFiles closeWindow
      end
    else rejected (ErrorObject ("Unknown task command: " +:+ commandName)).

End WithHost.

End Api.

(** * Vocabulary of the properties, and data to evaluate on *)

Import StreamingServer.

(** A runtime to evaluate on: a ticking clock and numbered random suffixes. *)
Definition rt0 : Runtime :=
  mkRuntime (fun n => 1700000000000 + Z.of_nat n) 0
            (fun n => "k3x9" +:+ pretty n) 0 [].

(** A parser that knows two payloads; everything else is a [SyntaxError]. *)
Definition toy_parse (s : string) : Completion JsValue :=
  if bool_decide (s = "{tool,path,content}") then
    Normal (JObj [("tool", JStr "newFileCreated"); ("path", JStr "a.txt");
                  ("content", JStr "hello")])
  else if bool_decide (s = "null") then Normal JNull
  else Throw (ErrorObject "Unexpected token in JSON").

(** The parts of every content of a list of events, in order. *)
Definition event_parts (evs : list StreamEvent) : list Part :=
  evs ≫= (fun ev =>
    match content ev with
    | Some c => default [] (parts c)
    | None => []
    end).

Definition text_parts (evs : list StreamEvent) : list string :=
  event_parts evs ≫= (fun p =>
    match p with
    | PText t _ => [t]
    | _ => []
    end).

(** The correlation ids of the function-call and function-response parts. *)
Definition correlation_ids (evs : list StreamEvent) : list (option string) :=
  event_parts evs ≫= (fun p =>
    match p with
    | PFunctionCall _ _ i => [i]
    | PFunctionResponse _ _ i => [i]
    | PText _ _ => []
    end).

Definition with_partial (b : option bool) (m : ClineMessage) : ClineMessage :=
  mkClineMessage (ts m) (msg_type m) (ask m) (say m) (text m) (images m) b
                 (reasoning m).

(** A partial [text] message, as streamed while the model is still writing. *)
Definition partial_text_message : ClineMessage :=
  mkClineMessage (Some 1700000000123) "say" None (Some "text")
                 (Some "Let me look at") None (Some true) None.

(** A finalized message of a category that [transformSayMessage] has no
    [case] for, carrying text. *)
Definition condense_message : ClineMessage :=
  mkClineMessage (Some 1700000000456) "say" None (Some "condense_context")
                 (Some "Context condensed") None None None.

(** A [tool] request carrying inline result content. *)
Definition tool_message : ClineMessage :=
  mkClineMessage (Some 1700000000789) "ask" (Some "tool") None
                 (Some "{tool,path,content}") None None None.

(** Would a broadcast write to connection [c] throw, and would it reach
    socket [r], in state [s]. *)
Definition throws_on (s : State) (c : StreamClientConnection) : bool :=
  match websocket c with
  | Some ws =>
      bool_decide (readyState (sockets s ws) = OPEN)
      && bool_decide (is_Some (send_throws (sockets s ws)))
  | None => false
  end.

Definition delivers_to (s : State) (r : nat) (c : StreamClientConnection)
  : bool :=
  match websocket c with
  | Some ws =>
      bool_decide (ws = r)
      && bool_decide (readyState (sockets s ws) = OPEN)
      && bool_decide (send_throws (sockets s ws) = None)
  | None => false
  end.

Fixpoint count_where {A} (f : A -> bool) (l : list A) : nat :=
  match l with
  | [] => 0
  | a :: rest => (if f a then 1 else 0) + count_where f rest
  end.

(** Two states whose sockets have the same ready states and the same
    [send] behaviour. *)
Definition same_wiring (s s' : State) : Prop :=
  forall r, readyState (sockets s' r) = readyState (sockets s r)
            /\ send_throws (sockets s' r) = send_throws (sockets s r).

(** Everything but the registry, the sockets and the console. *)
Definition same_frame (s s' : State) : Prop :=
  this_config s' = this_config s
  /\ this_heartbeatInterval s' = this_heartbeatInterval s
  /\ this_taskCommandHandler s' = this_taskCommandHandler s
  /\ listen_env s' = listen_env s
  /\ listen_calls s' = listen_calls s
  /\ bound_port s' = bound_port s
  /\ intervals s' = intervals s
  /\ next_interval s' = next_interval s
  /\ emitted s' = emitted s.

(** Is the connection's socket in the [OPEN] state; does its [send] throw. *)
Definition is_open (s : State) (c : StreamClientConnection) : bool :=
  match websocket c with
  | Some ws => bool_decide (readyState (sockets s ws) = OPEN)
  | None => false
  end.

Definition write_throws (s : State) (c : StreamClientConnection) : bool :=
  match websocket c with
  | Some ws => bool_decide (is_Some (send_throws (sockets s ws)))
  | None => false
  end.

(** Sockets, states and an event to evaluate on. *)
Definition demo_sockets : nat -> WebSocket :=
  fun r =>
    match r with
    | 0%nat => mkWebSocket OPEN (Some (ErrorObject "write EPIPE")) []
    | 1%nat => mkWebSocket OPEN None []
    | 2%nat => mkWebSocket CLOSING None []
    | _ => mkWebSocket CLOSED None []
    end.

Definition free_ports : Z -> ListenResult := fun _ => Listening.

Definition demo_event : StreamEvent :=
  mkStreamEvent "event_1700000000000_abc" 1700000000000 (Some "task-1") None
                (Some "taskStarted") None.

(** A fresh server with two connections registered by hand. *)
Definition with_registry (m : gmap string StreamClientConnection) : State :=
  set_connections m
    (constructor (mkPartialConfig None None None None None None None)
       free_ports demo_sockets rt0).

Definition conn_K : StreamClientConnection := mkConnection "conn_K" 1 (Some 0%nat).
Definition conn_A : StreamClientConnection := mkConnection "conn_A" 2 (Some 1%nat).
Definition conn_B : StreamClientConnection := mkConnection "conn_B" 3 (Some 2%nat).

Definition state_K_A : State :=
  with_registry (<["conn_K" := conn_K]> (<["conn_A" := conn_A]> ∅)).
Definition state_K_B : State :=
  with_registry (<["conn_K" := conn_K]> (<["conn_B" := conn_B]> ∅)).




(** A handler that resolves after the other client has disconnected, one
    that resolves after the commanding client itself has disconnected. *)
Definition resolves_after (closed : string) : TaskCommandHandler :=
  fun _ _ => mkSettled [SocketClose closed] (Normal tt).

Definition start_task : WebSocketTaskCommand :=
  mkTaskCommand "StartNewTask" (JObj [("text", JStr "fix the build")]).

(** Does [listen] on port [q] fail with [EADDRINUSE]. *)
Definition in_use (listen : Z -> ListenResult) (q : Z) : bool :=
  match listen q with
  | ListenError code _ => bool_decide (code = "EADDRINUSE")
  | Listening => false
  end.

(** [s'] is [s] after [n] failed attempts on the ports from [from] on:
    only the record of [listen] calls and the console have changed. *)
Definition scanned (s s' : State) (from : Z) (n : nat) : Prop :=
  this_config s' = this_config s
  /\ listen_env s' = listen_env s
  /\ bound_port s' = bound_port s
  /\ emitted s' = emitted s
  /\ wss_on_server s' = wss_on_server s
  /\ uncaught s' = uncaught s
  /\ listen_calls s' = listen_calls s ++ seqZ from (Z.of_nat n).

(** Port tables: every port below [n] in use and the rest free; every
    port in use; every port below [n] in use and the rest refused. *)
Definition busy_below (n : Z) : Z -> ListenResult :=
  fun q =>
    if (q <? n)%Z then ListenError "EADDRINUSE" (ErrorObject "listen EADDRINUSE")
    else Listening.

Definition all_busy : Z -> ListenResult :=
  fun _ => ListenError "EADDRINUSE" (ErrorObject "listen EADDRINUSE").

Definition denied_from (n : Z) : Z -> ListenResult :=
  fun q =>
    if (q <? n)%Z then ListenError "EADDRINUSE" (ErrorObject "listen EADDRINUSE")
    else ListenError "EACCES" (ErrorObject "listen EACCES: permission denied").

(** A server built with the default configuration: port 3001, range
    3001 to 3100. *)
Definition fresh_server (listen : Z -> ListenResult) : State :=
  constructor (mkPartialConfig None None None None None None None)
              listen demo_sockets rt0.

(** A computation that leaves the interval timers and the server's
    handle on its own timer alone. *)
Definition keeps_timers {A} (m : SM A) : Prop :=
  forall s, intervals (m s).2 = intervals s
            /\ this_heartbeatInterval (m s).2 = this_heartbeatInterval s.

(** Is the action a call of [stop]; does a run contain one. *)
Definition is_stop (a : Action) : bool :=
  match a with
  | CallStop => true
  | _ => false
  end.

Definition stopped (actions : list Action) : bool := existsb is_stop actions.

(** The heartbeat events among what a server has emitted. *)
Definition heartbeats (l : list Emission) : list StreamEvent :=
  l ≫= (fun e =>
    match e with
    | EmitEventBroadcast ev =>
        if bool_decide (type ev = Some "heartbeat") then [ev] else []
    | _ => []
    end).

(** Does the role of a content fit its single part: internal reasoning
    and function calls are the model's, function responses the user's. *)
Definition role_fits (c : Content) : bool :=
  match parts c, role c with
  | Some [PText _ true], model => true
  | Some [PText _ false], _ => true
  | Some [PFunctionCall _ _ _], model => true
  | Some [PFunctionResponse _ _ _], user => true
  | _, _ => false
  end.

(** An event of type ["message"] for task [taskId] around content [c]
    with payload [d]. *)
Definition wraps (taskId : string) (d : option JsValue) (c : Content)
    (ev : StreamEvent) : Prop :=
  content ev = Some c /\ type ev = Some "message"
  /\ task_id ev = Some taskId /\ data ev = d.

(** The runtime after [n] events were stamped: two clock reads and one
    read of the random source each, nothing on the console. *)
Definition stamped (n : nat) (rt rt' : Runtime) : Prop :=
  clock rt' = clock rt /\ entropy rt' = entropy rt
  /\ clock_reads rt' = (clock_reads rt + 2 * n)%nat
  /\ entropy_reads rt' = (entropy_reads rt + n)%nat
  /\ console rt' = console rt.

(** Two runtimes that differ at most in what was logged. *)
Definition only_logged (rt rt' : Runtime) : Prop :=
  clock rt' = clock rt /\ entropy rt' = entropy rt
  /\ clock_reads rt' = clock_reads rt
  /\ entropy_reads rt' = entropy_reads rt.

(** The same message with another (or no) timestamp. *)
Definition with_ts (t : option Z) (m : ClineMessage) : ClineMessage :=
  mkClineMessage t (msg_type m) (ask m) (say m) (text m) (images m)
                 (partial m) (reasoning m).

(** The [say] categories whose function response or call carries the
    message timestamp as correlation id in the array-returning variant. *)
Definition say_correlated : list string :=
  ["command_output"; "mcp_server_request_started"; "mcp_server_response";
   "codebase_search_result"].

(** The [say] categories that the two variants of the transformer map
    differently. *)
Definition variant_specific : list string :=
  ["completion_result"; "browser_action"; "api_req_retried";
   "api_req_retry_delayed"; "api_req_deleted"; "shell_integration_warning";
   "checkpoint_saved"; "rooignore_error"; "diff_error"].

(** An event without its [data] payload. *)
Definition without_data (ev : StreamEvent) : StreamEvent :=
  mkStreamEvent (event_id ev) (timestamp ev) (task_id ev) (content ev)
                (type ev) None.

(** A socket after [close()]. *)
Definition closed (w : WebSocket) : WebSocket :=
  mkWebSocket (if bool_decide (readyState w = CLOSED) then CLOSED else CLOSING)
              (send_throws w) (written w).

(** The sockets that a list of registry entries refers to. *)
Definition handles (entries : list (string * StreamClientConnection))
  : list nat :=
  omap (fun e => websocket e.2) entries.

(** A computation after which the state is related to the one before. *)
Definition respects {A} (R : State -> State -> Prop) (m : SM A) : Prop :=
  forall s, R s (m s).2.

(** The registry after is part of the registry before. *)
Definition registry_shrinks (s s' : State) : Prop :=
  this_connections s' ⊆ this_connections s.

(** Every entry is stored under its own id and has a socket. *)
Definition well_keyed (m : gmap string StreamClientConnection) : Prop :=
  map_Forall (fun k c => id c = k /\ is_Some (websocket c)) m.

(** Is the action a client connecting. *)
Definition is_connect (a : Action) : bool :=
  match a with
  | ClientConnects _ => true
  | _ => false
  end.


(** What a command reply may do to the sockets: nothing, or append one
    frame to the originating connection's open socket. *)
Definition reply_effect (connectionId : string) (s : State)
    (res : Completion unit) (s' : State) : Prop :=
  sockets s' = sockets s
  \/ exists c ws frame,
       this_connections s !! connectionId = Some c
       /\ websocket c = Some ws
       /\ readyState (sockets s ws) = OPEN
       /\ res = Normal tt
       /\ sockets s'
          = store ws (mkWebSocket (readyState (sockets s ws)) None
                                  (written (sockets s ws) ++ [frame]))
                  (sockets s).

(** More messages to evaluate on: a follow-up question, a [tool] request
    whose text is not JSON, a command output without timestamp, a message
    of a kind that is neither [say] nor [ask], and a plain [text]
    message. *)
Definition followup_message : ClineMessage :=
  mkClineMessage (Some 1700000001000) "ask" (Some "followup") None
                 (Some "Which branch?") None None None.

Definition malformed_tool_message : ClineMessage :=
  mkClineMessage (Some 1700000001100) "ask" (Some "tool") None
                 (Some "{tool:") None None None.

Definition untimed_output_message : ClineMessage :=
  mkClineMessage None "say" None (Some "command_output")
                 (Some "ok") None None None.

Definition status_message : ClineMessage :=
  mkClineMessage (Some 1700000001200) "status" None None
                 (Some "idle") None None None.

Definition text_message : ClineMessage :=
  mkClineMessage (Some 1700000001300) "say" None (Some "text")
                 (Some "Done.") None None None.

(** The host's command handler over the names of [TaskCommandName], with
    operations that resolve at once. *)
Definition demo_template (v : JsValue) : Completion string :=
  match v with
  | JStr s => Normal s
  | JUndefined => Normal "undefined"
  | JNull => Normal "null"
  | _ => Normal "[object Object]"
  end.

Definition demo_host : TaskCommandHandler :=
  Api.handleWebSocketTaskCommand "StartNewTask" "CancelTask" "CloseTask"
    demo_template
    (fun _ => mkSettled [] (Normal tt)) (fun _ => mkSettled [] (Normal tt))
    (mkSettled [] (Normal tt)) (mkSettled [] (Normal tt)).

(** The events that the [tool] request above is transformed into. *)
Definition tool_events : list StreamEvent :=
  match (EventTransformer.transformMessageEvent toy_parse "task-1"
           (Some tool_message) rt0).1 with
  | Normal (Some evs) => evs
  | _ => []
  end.

(** A command that [TaskCommandName] does not have. *)
Definition reboot_command : WebSocketTaskCommand :=
  mkTaskCommand "Reboot" JNull.

(** * Properties *)

Lemma is_case_false_sub (x : option string) (small big : list string) :
  is_case x big = false -> small ⊆ big -> is_case x small = false.
Proof.
  destruct x as [c|]; simpl; [|done].
  intros Hbig Hsub. apply bool_decide_eq_false in Hbig.
  apply bool_decide_eq_false. intros Hin. apply Hbig, Hsub, Hin.
Qed.

Lemma or_else_nonempty (s : option string) (fallback : string) :
  or_else s fallback = default fallback (nonempty s).
Proof. destruct s as [t|]; simpl; [|done]. by case_bool_decide. Qed.

(** The [try] block really can throw: an absent message, and a
    [command_output] message without a timestamp. *)
Example try_throws_on_absent_message :
  (EventTransformer.transformMessageEvent_try toy_parse "task-1" None rt0).1
  = Throw (ErrorObject "Cannot read properties of undefined (reading 'partial')").
Proof. reflexivity. Qed.

Example try_throws_on_missing_ts :
  (EventTransformer.transformMessageEvent_try toy_parse "task-1"
     (Some (mkClineMessage None "say" None (Some "command_output")
              (Some "ls") None None None)) rt0).1
  = Throw (ErrorObject "Cannot read properties of undefined (reading 'toString')").
Proof. reflexivity. Qed.

(** ** Transformer *)

(** C1. [transformMessageEvent] never completes abruptly, whatever the task
    id, the message (absent and malformed ones included) and the runtime:
    it returns what its [try] block returned, or, when that block threw
    [e], exactly one event of type ["error"] whose [data] carries the
    description of [e].  This holds for both variants of the transformer. *)
Theorem transformMessageEvent_never_throws
    (JSON_parse : string -> Completion JsValue) (taskId : string)
    (message : option ClineMessage) (rt : Runtime) :
  (exists r rt',
     EventTransformer.transformMessageEvent JSON_parse taskId message rt
       = (Normal r, rt')
     /\ (EventTransformer.transformMessageEvent_try JSON_parse taskId message rt
           = (Normal r, rt')
         \/ exists e rt1 ev,
             EventTransformer.transformMessageEvent_try JSON_parse taskId
               message rt = (Throw e, rt1)
             /\ r = Some [ev]
             /\ type ev = Some "error"
             /\ task_id ev = Some taskId
             /\ content ev = None
             /\ data ev = Some (JObj [("error",
                   JStr ("Error transforming message: " +:+ error_message e))])))
  /\ (exists r rt',
     Legacy.transformMessageEvent taskId message rt = (Normal r, rt')
     /\ (Legacy.transformMessageEvent_try taskId message rt = (Normal r, rt')
         \/ exists e rt1 ev,
             Legacy.transformMessageEvent_try taskId message rt = (Throw e, rt1)
             /\ r = Some ev
             /\ type ev = Some "error"
             /\ task_id ev = Some taskId
             /\ content ev = None
             /\ data ev = Some (JObj [("error",
                   JStr ("Error transforming message: " +:+ error_message e))]))).
Proof.
  split.
  - unfold EventTransformer.transformMessageEvent, try_catch.
    destruct (EventTransformer.transformMessageEvent_try _ _ _ _)
      as [[r|e] rt1] eqn:Htry.
    + exists r, rt1. split; [reflexivity | by left].
    + eexists _, _. split; [reflexivity|].
      right. eexists e, rt1, _. repeat split; reflexivity.
  - unfold Legacy.transformMessageEvent, try_catch.
    destruct (Legacy.transformMessageEvent_try _ _ _)
      as [[r|e] rt1] eqn:Htry.
    + exists r, rt1. split; [reflexivity | by left].
    + eexists _, _. split; [reflexivity|].
      right. eexists e, rt1, _. repeat split; reflexivity.
Qed.

(** C2, as stated, fails on the single-event variant: it never reads the
    [partial] flag, so a partial [text] message yields a ["message"] event. *)
Lemma partial_message_legacy_counterexample :
  ~ (forall (taskId : string) (m : ClineMessage) (rt : Runtime),
       partial m = Some true ->
       (Legacy.transformMessageEvent taskId (Some m) rt).1 = Normal None).
Proof.
  intros H.
  specialize (H "task-1" partial_text_message rt0 eq_refl).
  vm_compute in H. discriminate H.
Qed.

(** C2 (amended). In the array-returning variant a message whose [partial]
    flag is set yields [null] and touches neither the clock, the random
    source nor the console; the single-event variant does not consult the
    flag: it returns what it returns for the same message without it. *)
Theorem partial_message_yields_nothing
    (JSON_parse : string -> Completion JsValue) (taskId : string)
    (m : ClineMessage) (rt : Runtime) :
  partial m = Some true ->
  EventTransformer.transformMessageEvent JSON_parse taskId (Some m) rt
    = (Normal None, rt)
  /\ forall b : option bool,
      Legacy.transformMessageEvent taskId (Some (with_partial b m)) rt
      = Legacy.transformMessageEvent taskId (Some m) rt.
Proof.
  intros Hpartial. split.
  - unfold EventTransformer.transformMessageEvent, try_catch,
      EventTransformer.transformMessageEvent_try, bind, lift.
    simpl. rewrite Hpartial. reflexivity.
  - intros b. reflexivity.
Qed.

Lemma partial_message_yields_nothing_witness :
  EventTransformer.transformMessageEvent toy_parse "task-1"
    (Some partial_text_message) rt0 = (Normal None, rt0)
  /\ forall b : option bool,
      Legacy.transformMessageEvent "task-1"
        (Some (with_partial b partial_text_message)) rt0
      = Legacy.transformMessageEvent "task-1" (Some partial_text_message) rt0.
Proof.
  apply (partial_message_yields_nothing toy_parse "task-1"
           partial_text_message rt0).
  reflexivity.
Defined.

(** C6, as stated, fails: for a category outside the tables the text part
    is the message text alone whenever there is one; the bracketed tag is
    not part of it. *)
Lemma unlisted_category_tag_counterexample :
  ~ (forall (JSON_parse : string -> Completion JsValue) (taskId : string)
            (m : ClineMessage) (rt : Runtime),
       default false (partial m) = false ->
       msg_type m = "say" ->
       is_case (say m) EventTransformer.say_table = false ->
       exists evs t,
         (EventTransformer.transformMessageEvent JSON_parse taskId (Some m) rt).1
           = Normal (Some evs)
         /\ text_parts evs = [t]
         /\ includes t (bracket_tag (say m)) = true).
Proof.
  intros H.
  destruct (H toy_parse "task-1" condense_message rt0 eq_refl eq_refl eq_refl)
    as (evs & t & Hres & Htext & Htag).
  vm_compute in Hres. injection Hres as <-.
  vm_compute in Htext. injection Htext as <-.
  vm_compute in Htag. discriminate Htag.
Qed.

Local Ltac skip_cases H :=
  repeat (rewrite (is_case_false_sub _ _ _ H);
          [| apply (bool_decide_unpack _); vm_compute; exact I]).

(** C6 (amended). For a finalized message: a [say] category of the dropped
    set yields [null]; a [say] category with no [case] in
    [transformSayMessage], and an [ask] category with no [case] in
    [transformAskMessage], yield exactly one event whose content is one
    [model] text part: the message text when it is non-empty, and the
    bracketed category name otherwise. *)
Theorem dropped_and_unlisted_categories
    (JSON_parse : string -> Completion JsValue) (taskId : string)
    (m : ClineMessage) (rt : Runtime) :
  default false (partial m) = false ->
  (msg_type m = "say" ->
   is_case (say m) EventTransformer.say_dropped = true ->
   EventTransformer.transformMessageEvent JSON_parse taskId (Some m) rt
     = (Normal None, rt))
  /\ (msg_type m = "say" ->
      is_case (say m) EventTransformer.say_table = false ->
      exists ev rt',
        EventTransformer.transformMessageEvent JSON_parse taskId (Some m) rt
          = (Normal (Some [ev]), rt')
        /\ type ev = Some "message"
        /\ content ev = Some (mkContent model
             (Some [PText (default (bracket_tag (say m)) (nonempty (text m)))
                          false])))
  /\ (msg_type m = "ask" ->
      is_case (ask m) EventTransformer.ask_table = false ->
      exists ev rt',
        EventTransformer.transformMessageEvent JSON_parse taskId (Some m) rt
          = (Normal (Some [ev]), rt')
        /\ type ev = Some "message"
        /\ content ev = Some (mkContent model
             (Some [PText (default (bracket_tag (ask m)) (nonempty (text m)))
                          false]))).
Proof.
  intros Hfinal.
  unfold EventTransformer.transformMessageEvent, try_catch,
    EventTransformer.transformMessageEvent_try, bind, lift.
  simpl. rewrite Hfinal.
  unfold EventTransformer.messageToGenAIContent.
  repeat split.
  - intros -> Hdrop. simpl.
    unfold EventTransformer.transformSayMessage, lift. rewrite Hdrop.
    reflexivity.
  - intros -> Hout. simpl.
    unfold EventTransformer.transformSayMessage, lift.
    skip_cases Hout.
    rewrite or_else_nonempty. simpl. eexists _, _. repeat split.
  - intros -> Hout. simpl.
    unfold EventTransformer.transformAskMessage.
    skip_cases Hout.
    rewrite or_else_nonempty. simpl. eexists _, _. repeat split.
Qed.

Lemma dropped_and_unlisted_categories_witness :
  exists ev rt',
    EventTransformer.transformMessageEvent toy_parse "task-1"
      (Some condense_message) rt0 = (Normal (Some [ev]), rt')
    /\ type ev = Some "message"
    /\ content ev = Some (mkContent model (Some [PText "Context condensed" false])).
Proof.
  exact (proj1 (proj2 (dropped_and_unlisted_categories toy_parse "task-1"
           condense_message rt0 eq_refl)) eq_refl eq_refl).
Defined.

Example tool_message_events :
  (EventTransformer.transformMessageEvent toy_parse "task-1"
     (Some tool_message) rt0).1
  = Normal (Some
      [mkStreamEvent "event_1700000000000_k3x90" 1700000000001 (Some "task-1")
         (Some (mkContent model
            (Some [PFunctionCall (JStr "newFileCreated")
                     [("path", JStr "a.txt")] (Some "1700000000789")])))
         (Some "message") (Some (JObj [("ask", JStr "tool")]));
       mkStreamEvent "event_1700000000002_k3x91" 1700000000003 (Some "task-1")
         (Some (mkContent user
            (Some [PFunctionResponse (JStr "newFileCreated")
                     [("content", JStr "hello")] (Some "1700000000789")])))
         (Some "message") (Some (JObj [("ask", JStr "tool")]))]).
Proof. reflexivity. Qed.

(** C7. A finalized [ask] message of category [tool] whose text parses to
    an object with a [content] property yields two events: a [functionCall]
    part and a [functionResponse] part, both with the correlation id
    [ts.toString()]; the ids are the same under any other runtime (clock,
    random source), so transforming the same message again yields them again. *)
Theorem tool_pair_shares_correlation_id
    (JSON_parse : string -> Completion JsValue) (taskId : string)
    (m : ClineMessage) (rt rt2 : Runtime)
    (t : Z) (payload : string) (fields : list (string * JsValue))
    (inline : JsValue) :
  default false (partial m) = false ->
  msg_type m = "ask" ->
  ask m = Some "tool" ->
  nonempty (text m) = Some payload ->
  JSON_parse payload = Normal (JObj fields) ->
  assoc "content" fields = Some inline ->
  is_undefined inline = false ->
  ts m = Some t ->
  exists call response rt' evs2,
    EventTransformer.transformMessageEvent JSON_parse taskId (Some m) rt
      = (Normal (Some [call; response]), rt')
    /\ content call = Some (mkContent model
         (Some [PFunctionCall (default JUndefined (assoc "tool" fields))
                  (filter (fun kv => kv.1 ∉ ["tool"; "content"]) fields)
                  (Some (pretty t))]))
    /\ content response = Some (mkContent user
         (Some [PFunctionResponse (default JUndefined (assoc "tool" fields))
                  [("content", inline)] (Some (pretty t))]))
    /\ correlation_ids [call; response] = [Some (pretty t); Some (pretty t)]
    /\ (EventTransformer.transformMessageEvent JSON_parse taskId (Some m) rt2).1
         = Normal (Some evs2)
    /\ correlation_ids evs2 = correlation_ids [call; response].
Proof.
  intros Hfinal Htype Hask Htext Hparse Hcontent Hdefined Hts.
  assert (Hgen : forall rt1, exists call response rt',
    EventTransformer.transformMessageEvent JSON_parse taskId (Some m) rt1
      = (Normal (Some [call; response]), rt')
    /\ content call = Some (mkContent model
         (Some [PFunctionCall (default JUndefined (assoc "tool" fields))
                  (filter (fun kv => kv.1 ∉ ["tool"; "content"]) fields)
                  (Some (pretty t))]))
    /\ content response = Some (mkContent user
         (Some [PFunctionResponse (default JUndefined (assoc "tool" fields))
                  [("content", inline)] (Some (pretty t))]))).
  { intros rt1.
    unfold EventTransformer.transformMessageEvent, try_catch,
      EventTransformer.transformMessageEvent_try, bind, lift.
    simpl. rewrite Hfinal.
    unfold EventTransformer.messageToGenAIContent. rewrite Htype. simpl.
    unfold EventTransformer.transformAskMessage. rewrite Hask. simpl.
    unfold EventTransformer.tool_try, try_catch, bind, lift, ts_toString.
    rewrite Htext, Hparse. simpl. rewrite Hcontent. simpl.
    rewrite Hdefined, Hts. simpl.
    eexists _, _, _. repeat split. }
  destruct (Hgen rt) as (call & response & rt' & Hrun & Hcall & Hresp).
  destruct (Hgen rt2) as (call2 & response2 & rt2' & Hrun2 & Hcall2 & Hresp2).
  assert (Hids : forall c r,
    content c = Some (mkContent model
         (Some [PFunctionCall (default JUndefined (assoc "tool" fields))
                  (filter (fun kv => kv.1 ∉ ["tool"; "content"]) fields)
                  (Some (pretty t))])) ->
    content r = Some (mkContent user
         (Some [PFunctionResponse (default JUndefined (assoc "tool" fields))
                  [("content", inline)] (Some (pretty t))])) ->
    correlation_ids [c; r] = [Some (pretty t); Some (pretty t)]).
  { intros c r Hc Hr. unfold correlation_ids, event_parts. simpl.
    rewrite Hc, Hr. reflexivity. }
  exists call, response, rt', [call2; response2].
  repeat split; try assumption.
  - by apply Hids.
  - by rewrite Hrun2.
  - rewrite !Hids by assumption. reflexivity.
Qed.

Lemma tool_pair_shares_correlation_id_witness :
  exists call response rt' evs2,
    EventTransformer.transformMessageEvent toy_parse "task-1"
      (Some tool_message) rt0 = (Normal (Some [call; response]), rt')
    /\ content call = Some (mkContent model
         (Some [PFunctionCall (JStr "newFileCreated") [("path", JStr "a.txt")]
                  (Some "1700000000789")]))
    /\ content response = Some (mkContent user
         (Some [PFunctionResponse (JStr "newFileCreated")
                  [("content", JStr "hello")] (Some "1700000000789")]))
    /\ correlation_ids [call; response]
         = [Some "1700000000789"; Some "1700000000789"]
    /\ (EventTransformer.transformMessageEvent toy_parse "task-1"
          (Some tool_message)
          (mkRuntime (fun _ => 42) 7 (fun _ => "zzzzzzzzz") 3 [])).1
         = Normal (Some evs2)
    /\ correlation_ids evs2 = correlation_ids [call; response].
Proof.
  exact (tool_pair_shares_correlation_id toy_parse "task-1" tool_message rt0
           (mkRuntime (fun _ => 42) 7 (fun _ => "zzzzzzzzz") 3 [])
           1700000000789 "{tool,path,content}"
           [("tool", JStr "newFileCreated"); ("path", JStr "a.txt");
            ("content", JStr "hello")]
           (JStr "hello")
           eq_refl eq_refl eq_refl eq_refl eq_refl eq_refl eq_refl eq_refl).
Defined.

(** ** Streaming server: broadcast *)

Lemma same_frame_refl s : same_frame s s.
Proof. by repeat split. Qed.

Lemma same_frame_trans s1 s2 s3 :
  same_frame s1 s2 -> same_frame s2 s3 -> same_frame s1 s3.
Proof.
  unfold same_frame. intros (?&?&?&?&?&?&?&?&?) (?&?&?&?&?&?&?&?&?).
  repeat split; congruence.
Qed.

Lemma same_wiring_refl s : same_wiring s s.
Proof. by intros r. Qed.

Lemma same_wiring_trans s1 s2 s3 :
  same_wiring s1 s2 -> same_wiring s2 s3 -> same_wiring s1 s3.
Proof.
  intros H12 H23 r. destruct (H12 r), (H23 r). split; congruence.
Qed.

Lemma throws_on_wiring s s' c : same_wiring s s' -> throws_on s' c = throws_on s c.
Proof.
  intros Hw. unfold throws_on. destruct (websocket c) as [ws|]; [|done].
  destruct (Hw ws) as [-> ->]. done.
Qed.

Lemma delivers_to_wiring s s' r c :
  same_wiring s s' -> delivers_to s' r c = delivers_to s r c.
Proof.
  intros Hw. unfold delivers_to. destruct (websocket c) as [ws|]; [|done].
  destruct (Hw ws) as [-> ->]. done.
Qed.

(** One turn of the broadcast loop, by cases. *)
Lemma broadcast_to_unfold event k c s :
  broadcast_to event (k, c) s =
  match websocket c with
  | Some ws =>
      if bool_decide (readyState (sockets s ws) = OPEN) then
        match send_throws (sockets s ws) with
        | Some e =>
            (Normal tt,
             set_connections (delete k (this_connections s))
               (set_runtime
                  (console_write ("[Streaming Server] Failed to send event to "
                                  +:+ k +:+ ":") (Some e) (runtime s)).2 s))
        | None =>
            (Normal tt,
             set_sockets
               (store ws (mkWebSocket (readyState (sockets s ws)) None
                            (written (sockets s ws) ++ [EventFrame event]))
                      (sockets s)) s)
        end
      else (Normal tt, s)
  | None => (Normal tt, s)
  end.
Proof.
  unfold broadcast_to, try_catch, sendToWebSocketClient, ws_send.
  destruct (websocket c) as [ws|]; [|done].
  case_bool_decide; [|done].
  destruct (send_throws (sockets s ws)); done.
Qed.

Lemma count_where_ext {A} (f g : A -> bool) (l : list A) :
  (forall a, f a = g a) -> count_where f l = count_where g l.
Proof. intros Hfg. induction l as [|a l IH]; simpl; [done|]. by rewrite Hfg, IH. Qed.

Lemma existsb_ext {A} (f g : A -> bool) (l : list A) :
  (forall a, f a = g a) -> existsb f l = existsb g l.
Proof. intros Hfg. induction l as [|a l IH]; simpl; [done|]. by rewrite Hfg, IH. Qed.

(** The effect of one turn on the registry, the sockets and the rest. *)
Lemma broadcast_to_spec event k c s r1 s1 :
  broadcast_to event (k, c) s = (r1, s1) ->
  r1 = Normal tt
  /\ same_wiring s s1
  /\ same_frame s s1
  /\ (forall r, written (sockets s1 r)
        = written (sockets s r)
          ++ (if delivers_to s r c then [EventFrame event] else []))
  /\ this_connections s1
     = if throws_on s c then delete k (this_connections s)
       else this_connections s.
Proof.
  rewrite broadcast_to_unfold. unfold throws_on, delivers_to.
  destruct (websocket c) as [ws|].
  2:{ intros [= <- <-]. repeat split; try done.
      intros r. by rewrite app_nil_r. }
  case_bool_decide as Hopen.
  2:{ intros [= <- <-]. repeat split; try done. intros r.
      rewrite andb_false_r. simpl. by rewrite app_nil_r. }
  destruct (send_throws (sockets s ws)) as [e|] eqn:Hsend; intros [= <- <-].
  - repeat split; try done.
    intros r. rewrite andb_false_r. by rewrite app_nil_r.
  - split; [done|]. split.
    { intros r. simpl. unfold store. case_bool_decide; subst; simpl; done. }
    split; [by repeat split|]. split; [|done].
    intros r. simpl. unfold store.
    rewrite (bool_decide_ext (ws = r) (r = ws)) by (split; congruence).
    case_bool_decide; subst; simpl; [done|]. by rewrite app_nil_r.
Qed.

(** The whole loop: every socket receives one frame per snapshot entry
    that delivers to it; an entry is removed iff its write throws. *)
Lemma broadcast_loop_spec event l s r2 s2 :
  for_each (broadcast_to event) l s = (r2, s2) ->
  r2 = Normal tt
  /\ same_wiring s s2
  /\ same_frame s s2
  /\ (forall r, written (sockets s2 r)
        = written (sockets s r)
          ++ replicate (count_where (fun e => delivers_to s r e.2) l)
                       (EventFrame event))
  /\ (forall k, this_connections s2 !! k
        = if existsb (fun e => bool_decide (e.1 = k) && throws_on s e.2) l
          then None else this_connections s !! k).
Proof.
  revert s. induction l as [|[k c] l IH]; intros s; cbn [for_each].
  { intros [= <- <-]. repeat split; try done.
    intros r. simpl. by rewrite app_nil_r. }
  unfold bind at 1.
  destruct (broadcast_to event (k, c) s) as [r1 s1] eqn:Hstep.
  apply broadcast_to_spec in Hstep as (-> & Hw1 & Hf1 & Hwr1 & Hc1).
  intros Hrest.
  apply IH in Hrest as (-> & Hw2 & Hf2 & Hwr2 & Hc2).
  split; [done|]. split; [by eapply same_wiring_trans|].
  split; [by eapply same_frame_trans|]. split.
  - intros r. rewrite Hwr2, Hwr1, <- app_assoc. f_equal.
    cbn [count_where snd]. rewrite replicate_add.
    rewrite (count_where_ext _ (fun e => delivers_to s r e.2)).
    + by destruct (delivers_to s r c).
    + intros e. by apply delivers_to_wiring.
  - intros k'. rewrite Hc2. cbn [existsb fst snd].
    rewrite (existsb_ext _ (fun e => bool_decide (e.1 = k') && throws_on s e.2)).
    2:{ intros e. by rewrite (throws_on_wiring s s1). }
    destruct (existsb _ l); [by rewrite orb_true_r|].
    rewrite orb_false_r, Hc1.
    destruct (throws_on s c); [|by rewrite andb_false_r].
    rewrite andb_true_r. case_bool_decide; subst.
    + by rewrite lookup_delete_eq.
    + by rewrite lookup_delete_ne.
Qed.

Lemma count_where_none {A} (f : A -> bool) (l : list A) :
  (forall a, a ∈ l -> f a = false) -> count_where f l = 0%nat.
Proof.
  induction l as [|a l IH]; intros Hall; simpl; [done|].
  rewrite (Hall a) by left. rewrite IH; [done|].
  intros b Hb. apply Hall. by right.
Qed.

Lemma count_where_unique {A} (f : A -> bool) (l : list A) (x : A) :
  NoDup l -> x ∈ l -> f x = true ->
  (forall a, a ∈ l -> f a = true -> a = x) ->
  count_where f l = 1%nat.
Proof.
  induction l as [|a l IH]; intros Hnodup Hin Hfx Honly.
  { by apply elem_of_nil in Hin. }
  apply NoDup_cons in Hnodup as [Hnotin Hnodup].
  apply elem_of_cons in Hin as [<-|Hin]; simpl.
  - rewrite Hfx. rewrite count_where_none; [done|].
    intros b Hb. destruct (f b) eqn:Hfb; [|done].
    assert (b = x) as -> by (apply Honly; [by right|done]). done.
  - destruct (f a) eqn:Hfa.
    + assert (a = x) as -> by (apply Honly; [by left|done]). done.
    + apply IH; try done. intros b Hb. apply Honly. by right.
Qed.

(** Which registry keys the loop removes, read off the map. *)
Lemma removed_by_loop s (m : gmap string StreamClientConnection) (k : string) :
  existsb (fun e => bool_decide (e.1 = k) && throws_on s e.2) (map_to_list m)
  = match m !! k with
    | Some c => throws_on s c
    | None => false
    end.
Proof.
  apply eq_true_iff_eq. rewrite existsb_exists. split.
  - intros [[k' c] [Hin Hf]]. simpl in Hf.
    apply andb_true_iff in Hf as [Hk Ht].
    apply bool_decide_eq_true in Hk as ->.
    apply list_elem_of_In, elem_of_map_to_list in Hin. by rewrite Hin.
  - destruct (m !! k) as [c|] eqn:Hk; [|done]. intros Ht.
    exists (k, c). split.
    + by apply list_elem_of_In, elem_of_map_to_list.
    + simpl. by rewrite bool_decide_true.
Qed.

(** [broadcastEvent] never throws; it writes one frame per registered
    connection that delivers, removes exactly the connections whose write
    throws, and emits [eventBroadcast]. *)
Lemma broadcastEvent_spec event s :
  exists s',
    broadcastEvent event s = (Normal tt, s')
    /\ same_wiring s s'
    /\ (forall r, written (sockets s' r)
          = written (sockets s r)
            ++ replicate (count_where (fun e => delivers_to s r e.2)
                            (map_to_list (this_connections s)))
                         (EventFrame event))
    /\ (forall k, this_connections s' !! k
          = match this_connections s !! k with
            | Some c => if throws_on s c then None else Some c
            | None => None
            end)
    /\ emitted s' = emitted s ++ [EmitEventBroadcast event]
    /\ this_config s' = this_config s
    /\ this_heartbeatInterval s' = this_heartbeatInterval s
    /\ this_taskCommandHandler s' = this_taskCommandHandler s
    /\ intervals s' = intervals s
    /\ next_interval s' = next_interval s
    /\ bound_port s' = bound_port s
    /\ listen_env s' = listen_env s
    /\ listen_calls s' = listen_calls s.
Proof.
  unfold broadcastEvent, gets, emit, modify. unfold bind at 1. unfold bind at 1.
  destruct (for_each _ _ s) as [r2 s2] eqn:Hloop.
  apply broadcast_loop_spec in Hloop as (-> & Hw & Hf & Hwr & Hc).
  destruct Hf as (?&?&?&?&?&?&?&?&Hem).
  eexists. split; [reflexivity|]. simpl.
  split; [exact Hw|]. split; [exact Hwr|]. split.
  - intros k. rewrite Hc, removed_by_loop.
    destruct (this_connections s !! k) as [c|]; [|done].
    by destruct (throws_on s c).
  - rewrite Hem. by repeat split.
Qed.

Lemma throws_on_split s c : throws_on s c = is_open s c && write_throws s c.
Proof. unfold throws_on, is_open, write_throws. by destruct (websocket c). Qed.

Lemma delivers_to_split s r c :
  delivers_to s r c
  = bool_decide (websocket c = Some r) && is_open s c && negb (write_throws s c).
Proof.
  unfold delivers_to, is_open, write_throws.
  destruct (websocket c) as [ws|]; [|done].
  rewrite (bool_decide_ext (Some ws = Some r) (ws = r)) by (split; congruence).
  destruct (send_throws (sockets s ws)) as [e|].
  - rewrite (bool_decide_true (is_Some (Some e))) by done.
    rewrite (bool_decide_false (Some e = None)) by done.
    by rewrite !andb_false_r.
  - rewrite (bool_decide_false (is_Some None)) by (by intros [? ?]).
    rewrite (bool_decide_true (None = None)) by done.
    by rewrite !andb_true_r.
Qed.

Lemma NoDup_omap_inj {A B} (f : A -> option B) (l : list A) (x y : A) (v : B) :
  NoDup (omap f l) -> NoDup l -> x ∈ l -> y ∈ l ->
  f x = Some v -> f y = Some v -> x = y.
Proof.
  induction l as [|a l IH]; intros Hnd Hl Hx Hy Hfx Hfy.
  { by apply elem_of_nil in Hx. }
  apply NoDup_cons in Hl as [Hal Hl].
  assert (Hmem : forall z, z ∈ l -> f z = Some v -> v ∈ omap f l).
  { intros z Hz Hfz. apply list_elem_of_omap. by exists z. }
  apply elem_of_cons in Hx as [->|Hx]; apply elem_of_cons in Hy as [->|Hy];
    try done; simpl in Hnd.
  - rewrite Hfx in Hnd. apply NoDup_cons in Hnd as [Hv _].
    destruct Hv. by apply (Hmem y).
  - rewrite Hfy in Hnd. apply NoDup_cons in Hnd as [Hv _].
    destruct Hv. by apply (Hmem x).
  - apply IH; try done. destruct (f a); [|done].
    by apply NoDup_cons in Hnd as [_ ?].
Qed.

(** C4, as stated, fails: with [conn_K] the only connection whose write
    throws and [conn_B] registered on a socket that is [CLOSING], one
    [broadcastEvent] removes [conn_K] but writes no frame to [conn_B]. *)
Lemma broadcast_one_frame_each_counterexample :
  ~ (forall (s : State) (event : StreamEvent) (K : string)
            (cK : StreamClientConnection),
       this_connections s !! K = Some cK ->
       write_throws s cK = true ->
       map_Forall (fun k c => k ≠ K -> write_throws s c = false)
                  (this_connections s) ->
       this_connections (broadcastEvent event s).2
         = delete K (this_connections s)
       /\ map_Forall (fun k c => k ≠ K -> forall ws, websocket c = Some ws ->
            written (sockets (broadcastEvent event s).2 ws)
            = written (sockets s ws) ++ [EventFrame event])
          (this_connections s)).
Proof.
  intros H.
  destruct (H state_K_B demo_event "conn_K" conn_K) as [_ Hframes].
  - reflexivity.
  - reflexivity.
  - apply (bool_decide_unpack _). vm_compute. exact I.
  - specialize (Hframes "conn_B" conn_B eq_refl ltac:(done) 2%nat eq_refl).
    vm_compute in Hframes. discriminate Hframes.
Qed.

(** C4 (amended). In a registry whose connections all have an [OPEN]
    socket of their own, where the write to [K] throws and no other write
    does, one [broadcastEvent] returns normally, leaves exactly the registry
    without [K] (one connection fewer), writes exactly one frame, the
    event, to the socket of every other connection, and none to [K]'s. *)
Theorem broadcast_removes_throwing_connection
    (s : State) (event : StreamEvent) (K : string)
    (cK : StreamClientConnection) :
  map_Forall (fun _ c => is_open s c = true) (this_connections s) ->
  NoDup (omap (fun e => websocket e.2) (map_to_list (this_connections s))) ->
  this_connections s !! K = Some cK ->
  write_throws s cK = true ->
  map_Forall (fun k c => k ≠ K -> write_throws s c = false)
             (this_connections s) ->
  exists s',
    broadcastEvent event s = (Normal tt, s')
    /\ this_connections s' = delete K (this_connections s)
    /\ size (this_connections s') = pred (size (this_connections s))
    /\ map_Forall (fun k c => k ≠ K ->
         this_connections s' !! k = Some c
         /\ forall ws, websocket c = Some ws ->
              written (sockets s' ws)
              = written (sockets s ws) ++ [EventFrame event])
       (this_connections s)
    /\ (forall ws, websocket cK = Some ws ->
          written (sockets s' ws) = written (sockets s ws))
    /\ emitted s' = emitted s ++ [EmitEventBroadcast event].
Proof.
  intros Hopen Hdistinct HK HKthrows Hothers.
  destruct (broadcastEvent_spec event s)
    as (s' & Hrun & Hw & Hwr & Hc & Hem & _).
  assert (Hreg : this_connections s' = delete K (this_connections s)).
  { apply map_eq. intros k. rewrite Hc.
    destruct (decide (k = K)) as [->|Hne].
    - rewrite HK, lookup_delete_eq, throws_on_split.
      by rewrite (Hopen K cK HK), HKthrows.
    - rewrite lookup_delete_ne by done.
      destruct (this_connections s !! k) as [c|] eqn:Hk; [|done].
      by rewrite throws_on_split, (Hothers k c Hk Hne), andb_false_r. }
  exists s'. split; [done|]. split; [done|]. split.
  { rewrite Hreg. by apply map_size_delete_Some. }
  split; [|split; [|done]].
  - intros k c Hk Hne. split.
    { rewrite Hreg. by rewrite lookup_delete_ne. }
    intros ws Hws. rewrite Hwr. f_equal.
    rewrite (count_where_unique _ _ (k, c)); [done| | | |].
    + apply NoDup_map_to_list.
    + by apply elem_of_map_to_list.
    + simpl. rewrite delivers_to_split, (Hopen k c Hk), (Hothers k c Hk Hne).
      by rewrite bool_decide_true.
    + intros [k' c'] Hin Hdel. simpl in Hdel.
      rewrite delivers_to_split in Hdel.
      apply andb_true_iff in Hdel as [Hdel _].
      apply andb_true_iff in Hdel as [Hdel _].
      apply bool_decide_eq_true in Hdel.
      eapply (NoDup_omap_inj (fun e => websocket e.2)); eauto.
      * apply NoDup_map_to_list.
      * by apply elem_of_map_to_list.
  - intros ws Hws. rewrite Hwr.
    rewrite count_where_none; [by rewrite app_nil_r|].
    intros [k' c'] Hin. simpl. apply elem_of_map_to_list in Hin.
    rewrite delivers_to_split.
    destruct (decide (k' = K)) as [->|Hne].
    + rewrite HK in Hin. injection Hin as <-.
      by rewrite HKthrows, andb_false_r.
    + rewrite bool_decide_false; [done|]. intros Hws'.
      apply Hne.
      assert ((k', c') = (K, cK)) as [= -> ->]; [|done].
      eapply (NoDup_omap_inj (fun e => websocket e.2)); eauto.
      * apply NoDup_map_to_list.
      * by apply elem_of_map_to_list.
      * by apply elem_of_map_to_list.
Qed.

(** The two-connection registry with a throwing [conn_K] and a [CLOSING]
    [conn_B], broadcast once: [conn_K] is gone, [conn_B] stays and has
    received nothing. *)
Example broadcast_to_K_and_B :
  let after := (broadcastEvent demo_event state_K_B).2 in
  this_connections after !! "conn_K" = None
  /\ this_connections after !! "conn_B" = Some conn_B
  /\ written (sockets after 2%nat) = []
  /\ emitted after = [EmitEventBroadcast demo_event].
Proof. repeat split. Qed.

Lemma broadcast_removes_throwing_connection_witness :
  exists s',
    broadcastEvent demo_event state_K_A = (Normal tt, s')
    /\ this_connections s' = delete "conn_K" (this_connections state_K_A)
    /\ size (this_connections s') = pred (size (this_connections state_K_A))
    /\ map_Forall (fun k c => k ≠ "conn_K" ->
         this_connections s' !! k = Some c
         /\ forall ws, websocket c = Some ws ->
              written (sockets s' ws)
              = written (sockets state_K_A ws) ++ [EventFrame demo_event])
       (this_connections state_K_A)
    /\ (forall ws, websocket conn_K = Some ws ->
          written (sockets s' ws) = written (sockets state_K_A ws))
    /\ emitted s' = emitted state_K_A ++ [EmitEventBroadcast demo_event].
Proof.
  apply (broadcast_removes_throwing_connection state_K_A demo_event
           "conn_K" conn_K).
  - apply (bool_decide_unpack _). vm_compute. exact I.
  - apply (bool_decide_unpack _). vm_compute. exact I.
  - reflexivity.
  - reflexivity.
  - apply (bool_decide_unpack _). vm_compute. exact I.
Defined.

(** C10. A registered connection whose socket is not [OPEN] gets no frame
    from [broadcastEvent] and stays registered; a connection that
    [broadcastEvent] does remove had an [OPEN] socket whose [send] threw. *)
Theorem broadcast_skips_connection_not_open
    (s : State) (event : StreamEvent) (k : string)
    (c : StreamClientConnection) (ws : nat) :
  this_connections s !! k = Some c ->
  websocket c = Some ws ->
  readyState (sockets s ws) ≠ OPEN ->
  exists s',
    broadcastEvent event s = (Normal tt, s')
    /\ this_connections s' !! k = Some c
    /\ sockets s' ws = sockets s ws
    /\ (forall k' c',
          this_connections s !! k' = Some c' ->
          this_connections s' !! k' = None ->
          exists ws' e,
            websocket c' = Some ws'
            /\ readyState (sockets s ws') = OPEN
            /\ send_throws (sockets s ws') = Some e).
Proof.
  intros Hk Hws Hclosed.
  destruct (broadcastEvent_spec event s)
    as (s' & Hrun & Hw & Hwr & Hc & _).
  exists s'. split; [done|].
  assert (Hnot : is_open s c = false).
  { unfold is_open. rewrite Hws. by apply bool_decide_eq_false. }
  split; [|split].
  - by rewrite Hc, Hk, throws_on_split, Hnot.
  - destruct (Hw ws) as [Hrs Hst].
    specialize (Hwr ws). rewrite count_where_none in Hwr.
    + rewrite app_nil_r in Hwr.
      destruct (sockets s' ws), (sockets s ws). simpl in *. congruence.
    + intros [k' c'] _. simpl. unfold delivers_to.
      destruct (websocket c') as [ws'|]; [|done].
      destruct (decide (ws' = ws)) as [->|Hne].
      * rewrite (bool_decide_false (readyState _ = OPEN)) by done.
        by rewrite andb_false_r.
      * by rewrite bool_decide_false.
  - intros k' c' Hk' Hgone. rewrite Hc, Hk' in Hgone.
    unfold throws_on in Hgone.
    destruct (websocket c') as [ws'|]; [|done].
    destruct (bool_decide (readyState (sockets s ws') = OPEN)) eqn:Ho;
      [|done].
    destruct (send_throws (sockets s ws')) as [e|] eqn:He.
    + exists ws', e. by apply bool_decide_eq_true in Ho.
    + rewrite (bool_decide_false (is_Some None)) in Hgone by (by intros [? ?]).
      done.
Qed.

Lemma broadcast_skips_connection_not_open_witness :
  exists s',
    broadcastEvent demo_event state_K_B = (Normal tt, s')
    /\ this_connections s' !! "conn_B" = Some conn_B
    /\ sockets s' 2%nat = sockets state_K_B 2%nat
    /\ (forall k' c',
          this_connections state_K_B !! k' = Some c' ->
          this_connections s' !! k' = None ->
          exists ws' e,
            websocket c' = Some ws'
            /\ readyState (sockets state_K_B ws') = OPEN
            /\ send_throws (sockets state_K_B ws') = Some e).
Proof.
  apply (broadcast_skips_connection_not_open state_K_B demo_event
           "conn_B" conn_B 2%nat).
  - reflexivity.
  - reflexivity.
  - vm_compute. discriminate.
Defined.

(** ** Streaming server: task commands *)

Lemma log_spec label detail s :
  exists rt',
    log label detail s = (Normal tt, set_runtime rt' s)
    /\ clock rt' = clock (runtime s)
    /\ clock_reads rt' = clock_reads (runtime s).
Proof. eexists. split; [reflexivity|]. done. Qed.


(** A reply to a registered connection with an [OPEN] socket whose [send]
    does not throw: exactly that frame is appended to that socket. *)
Lemma reply_spec (build : Z -> Frame) (sender : string -> SM unit)
    connectionId c ws s :
  (forall st, sender connectionId st
     = (let* connection := gets (fun s => this_connections s !! connectionId) in
        match connection ≫= websocket with
        | Some ws =>
            let* now := in_runtime Date_now in
            sendToWebSocketClient ws (build now)
        | None => ret tt
        end)%js st) ->
  this_connections s !! connectionId = Some c ->
  websocket c = Some ws ->
  readyState (sockets s ws) = OPEN ->
  send_throws (sockets s ws) = None ->
  exists s',
    sender connectionId s = (Normal tt, s')
    /\ written (sockets s' ws)
       = written (sockets s ws)
         ++ [build (clock (runtime s) (clock_reads (runtime s)))]
    /\ (forall r, r ≠ ws -> sockets s' r = sockets s r).
Proof.
  intros Hsender Hk Hws Hopen Hsend. rewrite Hsender.
  unfold bind, gets, in_runtime, Date_now, sendToWebSocketClient, ws_send.
  rewrite Hk. simpl. rewrite Hws. simpl.
  rewrite Hopen, Hsend. rewrite bool_decide_true by done.
  eexists. split; [reflexivity|]. simpl. unfold store. split.
  - by rewrite bool_decide_true.
  - intros r Hr. by rewrite bool_decide_false.
Qed.


Lemma sendErrorToClient_spec error connectionId c ws s :
  this_connections s !! connectionId = Some c ->
  websocket c = Some ws ->
  readyState (sockets s ws) = OPEN ->
  send_throws (sockets s ws) = None ->
  exists s',
    sendErrorToClient connectionId error s = (Normal tt, s')
    /\ written (sockets s' ws)
       = written (sockets s ws)
         ++ [ErrorFrame error (clock (runtime s) (clock_reads (runtime s)))]
    /\ (forall r, r ≠ ws -> sockets s' r = sockets s r).
Proof.
  apply (reply_spec (ErrorFrame error)
           (fun i => sendErrorToClient i error)).
  reflexivity.
Qed.




(** When [send] throws on the originating connection's socket, the
    exception leaves [handleTaskCommand]: the acknowledgement throws inside
    the [try], and so does the error frame sent from the [catch]. *)
Example task_command_rejects_when_send_throws :
  (handleTaskCommand "conn_K" start_task
     (set_handler (Some (resolves_after "conn_A")) state_K_A)).1
  = Throw (ErrorObject "write EPIPE").
Proof. reflexivity. Qed.

(** A command from a connection whose socket is already [CLOSING] gets
    no reply either, and the handling path resolves. *)
Example task_command_no_reply_on_closing_socket :
  let after :=
    handleTaskCommand "conn_B" start_task
      (set_handler (Some (resolves_after "conn_K")) state_K_B) in
  after.1 = Normal tt
  /\ written (sockets after.2 2%nat) = []
  /\ written (sockets after.2 0%nat) = [].
Proof. repeat split. Qed.

(** ** Streaming server: port acquisition *)

(** [tryPort], one attempt unfolded. *)
Lemma tryPort_unfold (range : option PortRange) (portToTry : Z) (s : State) :
  tryPort range portToTry s =
  match server_listen portToTry s with
  | (Listening, s1) => (Fulfilled, (onListening portToTry s1).2)
  | (ListenError code error, s1) =>
      if wss_on_server s1 then
        (Pending, set_uncaught (uncaught s1 ++ [error]) s1)
      else if bool_decide (code = "EADDRINUSE") then
        match range with
        | Some r =>
            if decide (portToTry < max r) then
              tryPort (Some r) (portToTry + 1)
                ((log ("[Streaming Server] Port " +:+ pretty portToTry
                       +:+ " not available, trying port "
                       +:+ pretty (portToTry + 1)) None s1).2)
            else
              (Rejected (ErrorObject ("No available ports found. Last attempted: "
                                      +:+ pretty portToTry)), s1)
        | None =>
            (Rejected (ErrorObject ("No available ports found. Last attempted: "
                                    +:+ pretty portToTry)), s1)
        end
      else (Rejected error, s1)
  end.
Proof.
  simp tryPort.
  destruct (server_listen portToTry s) as [[|code error] s1]; simpl; [done|].
  destruct (wss_on_server s1); simpl; [done|].
  destruct (bool_decide (code = "EADDRINUSE")); simpl; [|done].
  destruct range as [r|]; simpl; [|done].
  destruct (decide (portToTry < max r)); simpl; done.
Qed.

(** One call of [start] on a server that is not listening and whose
    [WebSocketServer] is on the http server: one [listen], and [onError]
    is never reached. *)
Lemma start_once (s : State) :
  wss_on_server s = true ->
  bound_port s = None ->
  exists p s',
    start s = (p, s')
    /\ listen_calls s' = listen_calls s ++ [port (this_config s)]
    /\ this_config s' = this_config s
    /\ this_connections s' = this_connections s
    /\ sockets s' = sockets s
    /\ wss_on_server s' = true
    /\ match listen_env s (port (this_config s)) with
       | Listening =>
           p = Fulfilled
           /\ bound_port s' = Some (port (this_config s))
           /\ emitted s' = emitted s ++ [EmitStarted]
           /\ uncaught s' = uncaught s
       | ListenError _ error =>
           p = Pending
           /\ bound_port s' = None
           /\ emitted s' = emitted s
           /\ uncaught s' = uncaught s ++ [error]
           /\ runtime s' = runtime s
       end.
Proof.
  intros Hwss Hunbound. unfold start. rewrite Hunbound, tryPort_unfold.
  unfold server_listen.
  destruct (listen_env s (port (this_config s))) as [|code error].
  - eexists _, _. split; [reflexivity|]. simpl.
    repeat split; try done. by destruct (this_config s).
  - simpl. rewrite Hwss. eexists _, _. split; [reflexivity|]. simpl.
    by rewrite Hunbound.
Qed.

(** C3 (the code misses it).  On a server as the constructor leaves it
    (the [WebSocketServer] on the http server, no [listen] yet) [start]
    does not acquire a port when the configured one is unavailable.
    Whatever the error code, whatever the port range and whatever the other
    ports would answer, [listen] is called once, on the configured port;
    the [error] event is thrown by the listener of the [WebSocketServer]
    before it reaches [onError], so the error ends as an uncaught
    exception, the promise is neither resolved nor rejected, no listener is
    bound, nothing is logged or emitted and the configuration is as
    before. *)
Theorem start_stalls_on_listen_error (s : State) (code : string) (error : Exn) :
  wss_on_server s = true ->
  bound_port s = None ->
  listen_calls s = [] ->
  listen_env s (port (this_config s)) = ListenError code error ->
  exists s',
    start s = (Pending, s')
    /\ listen_calls s' = [port (this_config s)]
    /\ uncaught s' = uncaught s ++ [error]
    /\ bound_port s' = None
    /\ emitted s' = emitted s
    /\ this_config s' = this_config s
    /\ runtime s' = runtime s.
Proof.
  intros Hwss Hunbound Hcalls Herr.
  destruct (start_once s Hwss Hunbound)
    as (p & s' & Hrun & Hl & Hcfg & _ & _ & _ & Hout).
  rewrite Herr in Hout. destruct Hout as (-> & Hb & Hem & Hun & Hrt).
  exists s'. rewrite Hcalls in Hl. done.
Qed.

Lemma start_stalls_on_listen_error_witness :
  (exists s',
     start (fresh_server (busy_below 3003)) = (Pending, s')
     /\ listen_calls s' = [3001]
     /\ uncaught s' = [ErrorObject "listen EADDRINUSE"]
     /\ bound_port s' = None
     /\ emitted s' = []
     /\ this_config s' = DEFAULT_CONFIG
     /\ runtime s' = rt0)
  /\ (exists s',
     start (fresh_server all_busy) = (Pending, s')
     /\ listen_calls s' = [3001]
     /\ uncaught s' = [ErrorObject "listen EADDRINUSE"]
     /\ bound_port s' = None
     /\ emitted s' = []
     /\ this_config s' = DEFAULT_CONFIG
     /\ runtime s' = rt0)
  /\ (exists s',
     start (fresh_server (denied_from 3001)) = (Pending, s')
     /\ listen_calls s' = [3001]
     /\ uncaught s' = [ErrorObject "listen EACCES: permission denied"]
     /\ bound_port s' = None
     /\ emitted s' = []
     /\ this_config s' = DEFAULT_CONFIG
     /\ runtime s' = rt0).
Proof.
  split; [|split].
  - exact (start_stalls_on_listen_error (fresh_server (busy_below 3003))
             "EADDRINUSE" (ErrorObject "listen EADDRINUSE")
             eq_refl eq_refl eq_refl eq_refl).
  - exact (start_stalls_on_listen_error (fresh_server all_busy)
             "EADDRINUSE" (ErrorObject "listen EADDRINUSE")
             eq_refl eq_refl eq_refl eq_refl).
  - exact (start_stalls_on_listen_error (fresh_server (denied_from 3001))
             "EACCES" (ErrorObject "listen EACCES: permission denied")
             eq_refl eq_refl eq_refl eq_refl).
Defined.

(** *** What [onError] does when the event reaches it *)

Lemma tryPort_skips (r : PortRange) (n : nat) (p : Z) (s : State) :
  wss_on_server s = false ->
  (forall q, p <= q < p + Z.of_nat n -> in_use (listen_env s) q = true) ->
  p + Z.of_nat n <= max r ->
  exists s_n,
    tryPort (Some r) p s = tryPort (Some r) (p + Z.of_nat n) s_n
    /\ scanned s s_n p n.
Proof.
  revert p s. induction n as [|n IH]; intros p s Hwss Hbusy Hmax.
  { exists s. rewrite Z.add_0_r. split; [done|].
    repeat split; try done. simpl. by rewrite app_nil_r. }
  rewrite tryPort_unfold. unfold server_listen.
  pose proof (Hbusy p ltac:(lia)) as Hp. unfold in_use in Hp.
  destruct (listen_env s p) as [|code error] eqn:Hlisten; [done|].
  cbn [wss_on_server set_listener]. rewrite Hwss.
  rewrite Hp. destruct (decide (p < max r)) as [_|Hge]; [|lia].
  match goal with
  | |- context [tryPort (Some r) (p + 1) ?s1] =>
      destruct (IH (p + 1) s1) as (s_n & Hrun & Hscan)
  end.
  { done. }
  { intros q Hq. simpl. apply Hbusy. lia. }
  { lia. }
  exists s_n. split.
  - rewrite Hrun. f_equal. lia.
  - destruct Hscan as (Hcfg & Henv & Hbound & Hem & Hw & Hun & Hcalls).
    simpl in *. repeat split; try done.
    rewrite Hcalls, <- app_assoc. f_equal.
    rewrite (seqZ_cons p) by lia. simpl. f_equal. f_equal; lia.
Qed.

(** With the listeners of the [WebSocketServer] off the http server, the
    [error] event reaches [onError], and [start] does what its retry is
    written for.  On a server that never called [listen], with a range of
    port numbers that [listen] accepts configured and the preferred port
    inside it, [start]
    - binds the first port at or above the preferred one whose [listen]
      succeeds, when every port before it is in use: it resolves, records
      that port in the configuration and emits [started];
    - rejects with the "No available ports found" error naming the range
      maximum, with no listener bound, when every port of the range is in
      use;
    - rejects with the error itself at the first [listen] error whose code
      is not [EADDRINUSE], with no listener bound and no further attempt.
    In each case the ports tried are exactly the consecutive ports from the
    preferred one up to the deciding one. *)
Lemma onError_port_acquisition (s : State) (r : PortRange) :
  wss_on_server s = false ->
  bound_port s = None ->
  listen_calls s = [] ->
  portRange (this_config s) = Some r ->
  0 <= min r ->
  max r < 65536 ->
  min r <= port (this_config s) <= max r ->
  (forall p,
     port (this_config s) <= p <= max r ->
     (forall q, port (this_config s) <= q < p ->
                in_use (listen_env s) q = true) ->
     listen_env s p = Listening ->
     exists s',
       start s = (Fulfilled, s')
       /\ bound_port s' = Some p
       /\ port (this_config s') = p
       /\ emitted s' = emitted s ++ [EmitStarted]
       /\ listen_calls s'
          = listen_calls s
            ++ seqZ (port (this_config s)) (p - port (this_config s) + 1))
  /\ ((forall q, min r <= q <= max r -> in_use (listen_env s) q = true) ->
      exists s',
        start s
        = (Rejected (ErrorObject ("No available ports found. Last attempted: "
                                  +:+ pretty (max r))), s')
        /\ bound_port s' = None
        /\ emitted s' = emitted s
        /\ listen_calls s'
           = listen_calls s
             ++ seqZ (port (this_config s))
                     (max r - port (this_config s) + 1))
  /\ (forall p code error,
        port (this_config s) <= p <= max r ->
        (forall q, port (this_config s) <= q < p ->
                   in_use (listen_env s) q = true) ->
        listen_env s p = ListenError code error ->
        code ≠ "EADDRINUSE" ->
        exists s',
          start s = (Rejected error, s')
          /\ bound_port s' = None
          /\ emitted s' = emitted s
          /\ listen_calls s'
             = listen_calls s
               ++ seqZ (port (this_config s)) (p - port (this_config s) + 1)).
Proof.
  intros Hwss Hunbound _ Hrange _ _ Hpref.
  assert (Hscan : forall p,
    port (this_config s) <= p <= max r ->
    (forall q, port (this_config s) <= q < p ->
               in_use (listen_env s) q = true) ->
    exists s_n,
      start s = tryPort (Some r) p s_n
      /\ this_config s_n = this_config s
      /\ listen_env s_n = listen_env s
      /\ bound_port s_n = None
      /\ emitted s_n = emitted s
      /\ wss_on_server s_n = false
      /\ listen_calls s_n ++ [p]
         = listen_calls s
           ++ seqZ (port (this_config s)) (p - port (this_config s) + 1)).
  { intros p Hp Hbusy.
    destruct (tryPort_skips r (Z.to_nat (p - port (this_config s)))
                (port (this_config s)) s) as (s_n & Hrun & Hs);
      [done | intros q Hq; apply Hbusy; lia | lia |].
    destruct Hs as (Hcfg & Henv & Hbound & Hem & Hw & Hun & Hcalls).
    exists s_n. unfold start. rewrite Hunbound, Hrange, Hrun.
    split; [f_equal; lia|]. repeat split; try congruence.
    rewrite Hcalls, <- app_assoc. f_equal.
    rewrite Z2Nat.id by lia.
    rewrite (seqZ_app _ (p - port (this_config s)) 1) by lia.
    f_equal. rewrite (seqZ_cons _ 1), seqZ_nil by lia. f_equal. lia. }
  split; [|split].
  - intros p Hp Hbusy Hfree.
    destruct (Hscan p Hp Hbusy)
      as (s_n & -> & Hcfg & Henv & Hbound & Hem & Hw & Hcalls).
    rewrite tryPort_unfold. unfold server_listen. rewrite Henv, Hfree.
    eexists. split; [reflexivity|]. simpl. rewrite Hem. done.
  - intros Hall.
    destruct (Hscan (max r) ltac:(lia))
      as (s_n & -> & Hcfg & Henv & Hbound & Hem & Hw & Hcalls).
    { intros q Hq. apply Hall. lia. }
    rewrite tryPort_unfold. unfold server_listen. rewrite Henv.
    pose proof (Hall (max r) ltac:(lia)) as Hmax. unfold in_use in Hmax.
    destruct (listen_env s (max r)) as [|code error]; [done|].
    cbn [wss_on_server set_listener]. rewrite Hw.
    rewrite Hmax. destruct (decide (max r < max r)); [lia|].
    eexists. split; [reflexivity|]. simpl. done.
  - intros p code error Hp Hbusy Herr Hcode.
    destruct (Hscan p Hp Hbusy)
      as (s_n & -> & Hcfg & Henv & Hbound & Hem & Hw & Hcalls).
    rewrite tryPort_unfold. unfold server_listen. rewrite Henv, Herr.
    cbn [wss_on_server set_listener]. rewrite Hw.
    rewrite bool_decide_false by done.
    eexists. split; [reflexivity|]. simpl. done.
Qed.

(** ** Streaming server: configuration update *)


(** A port override on a listening server changes the configured port
    only: the listener stays on the port it was bound to. *)
Example updateConfig_does_not_rebind :
  let listening := (start (fresh_server free_ports)).2 in
  let updated :=
    (updateConfig (mkPartialConfig None (Some 4000) None None None None None)
       listening).2 in
  bound_port listening = Some 3001
  /\ port (this_config updated) = 4000
  /\ bound_port updated = Some 3001
  /\ listen_calls updated = [3001].
Proof. repeat split. Qed.

(** ** Streaming server: heartbeat timer *)

Lemma keeps_ret {A} (a : A) : keeps_timers (ret a).
Proof. by intros s. Qed.

Lemma keeps_lift {A} (c : Completion A) : keeps_timers (lift c).
Proof. by intros s. Qed.

Lemma keeps_gets {A} (f : State -> A) : keeps_timers (gets f).
Proof. by intros s. Qed.

Lemma keeps_bind {A B} (m : SM A) (k : A -> SM B) :
  keeps_timers m -> (forall a, keeps_timers (k a)) -> keeps_timers (bind m k).
Proof.
  intros Hm Hk s. unfold bind. specialize (Hm s).
  destruct (m s) as [[a|e] s1]; simpl in *; [|done].
  destruct (Hk a s1) as [-> ->]. done.
Qed.

Lemma keeps_try_catch {A} (body : SM A) (handler : Exn -> SM A) :
  keeps_timers body -> (forall e, keeps_timers (handler e)) ->
  keeps_timers (try_catch body handler).
Proof.
  intros Hm Hk s. unfold try_catch. specialize (Hm s).
  destruct (body s) as [[a|e] s1]; simpl in *; [done|].
  destruct (Hk e s1) as [-> ->]. done.
Qed.

Lemma keeps_for_each {A} (f : A -> SM unit) (l : list A) :
  (forall a, keeps_timers (f a)) -> keeps_timers (for_each f l).
Proof.
  intros Hf. induction l as [|a l IH]; simpl.
  - apply keeps_ret.
  - apply keeps_bind; [apply Hf | intros _; apply IH].
Qed.

Lemma keeps_modify (f : State -> State) :
  (forall s, intervals (f s) = intervals s
             /\ this_heartbeatInterval (f s) = this_heartbeatInterval s) ->
  keeps_timers (modify f).
Proof. intros Hf s. apply Hf. Qed.

Lemma keeps_in_runtime {A} (m : JS A) : keeps_timers (in_runtime m).
Proof. intros s. unfold in_runtime. by destruct (m (runtime s)). Qed.

Lemma keeps_log label detail : keeps_timers (log label detail).
Proof. apply keeps_in_runtime. Qed.

Lemma keeps_emit e : keeps_timers (emit e).
Proof. by apply keeps_modify. Qed.

Lemma keeps_connections_delete k : keeps_timers (connections_delete k).
Proof. by apply keeps_modify. Qed.

Lemma keeps_sendToWebSocketClient ws frame :
  keeps_timers (sendToWebSocketClient ws frame).
Proof.
  intros s. unfold sendToWebSocketClient, ws_send.
  case_bool_decide; [|done]. by destruct (send_throws (sockets s ws)).
Qed.

Lemma keeps_ws_close ws : keeps_timers (ws_close ws).
Proof. by apply keeps_modify. Qed.

Local Ltac keeps_using known :=
  repeat first
    [ progress intros
    | known
    | apply keeps_bind | apply keeps_try_catch | apply keeps_for_each
    | apply keeps_ret | apply keeps_lift | apply keeps_gets
    | apply keeps_in_runtime | apply keeps_log | apply keeps_emit
    | apply keeps_connections_delete | apply keeps_sendToWebSocketClient
    | apply keeps_ws_close
    | apply keeps_modify; intros; split; reflexivity
    | match goal with
      | |- keeps_timers (match ?x with _ => _ end) => destruct x
      | |- keeps_timers (let '(_, _) := ?x in _) => destruct x
      end ].

Local Ltac keeps := keeps_using fail.

Lemma keeps_broadcastEvent event : keeps_timers (broadcastEvent event).
Proof. unfold broadcastEvent, broadcast_to. keeps. Qed.

Lemma keeps_sendAckToClient k name : keeps_timers (sendAckToClient k name).
Proof. unfold sendAckToClient. keeps. Qed.

Lemma keeps_sendErrorToClient k msg : keeps_timers (sendErrorToClient k msg).
Proof. unfold sendErrorToClient. keeps. Qed.

Lemma keeps_on_loop_event ev : keeps_timers (on_loop_event ev).
Proof. unfold on_loop_event. keeps. Qed.

Lemma keeps_handleTaskCommand k message :
  keeps_timers (handleTaskCommand k message).
Proof.
  unfold handleTaskCommand, await.
  keeps_using ltac:(first [apply keeps_sendAckToClient
                          | apply keeps_sendErrorToClient
                          | apply keeps_on_loop_event]).
Qed.

Lemma keeps_on_connection ws : keeps_timers (on_connection ws).
Proof. unfold on_connection. keeps. Qed.

Lemma keeps_heartbeat_callback : keeps_timers heartbeat_callback.
Proof.
  unfold heartbeat_callback. keeps_using ltac:(apply keeps_broadcastEvent).
Qed.

Lemma keeps_interval_fires h : keeps_timers (interval_fires h).
Proof.
  intros s. unfold interval_fires. case_bool_decide; [|done].
  apply keeps_heartbeat_callback.
Qed.

Lemma keeps_updateConfig newConfig : keeps_timers (updateConfig newConfig).
Proof. unfold updateConfig. keeps. Qed.

Lemma keeps_setTaskCommandHandler h : keeps_timers (setTaskCommandHandler h).
Proof. unfold setTaskCommandHandler. keeps. Qed.

Lemma keeps_onListening p : keeps_timers (onListening p).
Proof. unfold onListening. keeps. Qed.

(** [tryPort] never touches a timer, however many ports it tries. *)
Lemma tryPort_timers range p s :
  intervals (tryPort range p s).2 = intervals s
  /\ this_heartbeatInterval (tryPort range p s).2 = this_heartbeatInterval s.
Proof.
  remember (attempts_left range p) as n eqn:Hn.
  revert p Hn s. induction n as [n IH] using lt_wf_ind. intros p Hn s.
  rewrite tryPort_unfold. unfold server_listen.
  destruct (listen_env s p) as [|code error].
  { apply (keeps_onListening p (set_listener _ _ s)). }
  cbn [wss_on_server set_listener].
  destruct (wss_on_server s); [done|].
  destruct (bool_decide (code = "EADDRINUSE")); [|done].
  destruct range as [r|]; [|done].
  destruct (decide (p < max r)) as [Hlt|]; [|done].
  match goal with
  | |- context [tryPort (Some r) (p + 1) ?s1] =>
      destruct (IH (attempts_left (Some r) (p + 1))
                  ltac:(subst n; simpl; lia) (p + 1) eq_refl s1) as [-> ->]
  end.
  done.
Qed.

Lemma keeps_call_start : keeps_timers call_start.
Proof.
  intros s. unfold call_start, start. cbn [snd].
  destruct (bound_port s); [done|].
  apply tryPort_timers.
Qed.

(** [stop] clears the server's own interval and keeps its handle. *)
Lemma stop_clears_timer s :
  intervals (stop s).2
  = match this_heartbeatInterval s with
    | Some h => intervals s ∖ {[h]}
    | None => intervals s
    end
  /\ this_heartbeatInterval (stop s).2 = this_heartbeatInterval s.
Proof.
  pose (rest :=
    (let* entries := gets (fun s => map_to_list (this_connections s)) in
     run for_each close_connection entries then
     run modify (set_connections ∅) then
     run modify (set_wss_on_server false) then
     run modify (fun s => set_listener (listen_calls s) None s) then
     run log "[Streaming Server] Server stopped" None then
     emit EmitStopped)%js : SM unit).
  assert (Hrest : keeps_timers rest).
  { unfold rest, close_connection. keeps. }
  assert (Hstop : stop s
    = rest (match this_heartbeatInterval s with
            | Some h => set_timers (Some h)
                          (intervals s ∖ {[h]}) (next_interval s) s
            | None => s
            end)).
  { unfold stop, rest. unfold bind at 1 2. unfold gets at 1.
    destruct (this_heartbeatInterval s) eqn:Hh; [|reflexivity].
    unfold modify at 1. by rewrite Hh. }
  rewrite Hstop.
  match goal with
  | |- context [rest ?s1] => destruct (Hrest s1) as [-> ->]
  end.
  destruct (this_heartbeatInterval s) eqn:Hh; simpl; [|by rewrite Hh].
  done.
Qed.

(** What one action does to the timers: only [stop] clears one. *)
Lemma perform_timers (a : Action) (s : State) :
  this_heartbeatInterval (perform a s).2 = this_heartbeatInterval s
  /\ intervals (perform a s).2
     = match a, this_heartbeatInterval s with
       | CallStop, Some h => intervals s ∖ {[h]}
       | _, _ => intervals s
       end.
Proof.
  assert (Hkeep : forall m : SM unit, keeps_timers m ->
    this_heartbeatInterval (m s).2 = this_heartbeatInterval s
    /\ intervals (m s).2 = intervals s).
  { intros m Hm. destruct (Hm s). done. }
  destruct a; cbn [perform].
  - apply Hkeep, keeps_call_start.
  - destruct (stop_clears_timer s) as [Hi Ht]. split; [done|].
    rewrite Hi. by destruct (this_heartbeatInterval s).
  - apply Hkeep, keeps_updateConfig.
  - apply Hkeep, keeps_setTaskCommandHandler.
  - apply Hkeep, keeps_broadcastEvent.
  - apply Hkeep, keeps_interval_fires.
  - apply Hkeep, keeps_on_connection.
  - apply Hkeep, keeps_handleTaskCommand.
  - apply Hkeep, keeps_on_loop_event.
Qed.

(** From construction on, the server's interval is armed until the first
    [stop], and nothing arms it again. *)
Lemma timer_armed_until_stop config listen socks rt (actions : list Action) :
  let s := run_actions actions (constructor config listen socks rt) in
  this_heartbeatInterval s = Some 0%nat
  /\ intervals s = if stopped actions then ∅ else {[0%nat]}.
Proof.
  induction actions as [|a actions IH] using rev_ind; simpl.
  { split; [done|]. unfold constructor, setupHeartbeat, modify. simpl.
    set_solver. }
  unfold run_actions in *. rewrite foldl_snoc. simpl in IH.
  destruct IH as [Ht Hi].
  destruct (perform_timers a
              (foldl (fun st a => (perform a st).2)
                     (constructor config listen socks rt) actions))
    as [Ht' Hi'].
  rewrite Ht', Hi', Ht, Hi. split; [done|].
  unfold stopped. rewrite existsb_app. simpl. rewrite orb_false_r.
  destruct (existsb is_stop actions); destruct a; simpl; set_solver.
Qed.

(** The heartbeat callback broadcasts one event of type ["heartbeat"]
    without a task id. *)
Lemma heartbeat_callback_spec (s : State) :
  exists s' hb,
    heartbeat_callback s = (Normal tt, s')
    /\ emitted s' = emitted s ++ [EmitEventBroadcast hb]
    /\ type hb = Some "heartbeat"
    /\ task_id hb = None
    /\ content hb = None.
Proof.
  unfold heartbeat_callback, bind, in_runtime, generateEventId, Date_now,
    Math_random_suffix, ret. simpl.
  match goal with
  | |- context [broadcastEvent ?ev ?s1] =>
      destruct (broadcastEvent_spec ev s1) as (s' & -> & _ & _ & _ & Hem & _);
      exists s', ev
  end.
  split; [done|]. split; [exact Hem|]. done.
Qed.

(** C8, as stated, fails: the constructor arms the heartbeat interval, so
    a server on which [start] was never called broadcasts a heartbeat as
    soon as the interval fires. *)
Lemma heartbeat_before_start_counterexample :
  ~ (forall (config : PartialConfig) (listen : Z -> ListenResult)
            (socks : nat -> WebSocket) (rt : Runtime) (actions : list Action),
       EmitStarted ∉ emitted (run_actions actions
                                (constructor config listen socks rt)) ->
       heartbeats (emitted (run_actions actions
                              (constructor config listen socks rt))) = []).
Proof.
  intros H.
  specialize (H (mkPartialConfig None None None None None None None)
                free_ports demo_sockets rt0 [IntervalFires 0%nat]).
  vm_compute in H.
  assert (Hnil : forall A (x : A), [x] = [] -> False) by (intros; discriminate).
  eapply Hnil, H.
  intros Hin. apply list_elem_of_singleton in Hin. discriminate Hin.
Qed.

(** C8 (amended). The heartbeat interval is armed by the constructor, not
    by [start], and is cleared by [stop]; nothing arms it again.  After any
    sequence of actions on a constructed server: while no [stop] has been
    called, the interval firing broadcasts one ["heartbeat"] event,
    whether or not [start] was called or succeeded; once [stop] has been
    called no interval firing broadcasts anything, even after a later
    [start]; no other interval handle belongs to the server. *)
Theorem heartbeat_timer_lifetime
    (config : PartialConfig) (listen : Z -> ListenResult)
    (socks : nat -> WebSocket) (rt : Runtime) (actions : list Action) :
  this_heartbeatInterval
    (run_actions actions (constructor config listen socks rt)) = Some 0%nat
  /\ (stopped actions = false ->
      exists s' hb,
        interval_fires 0 (run_actions actions
                            (constructor config listen socks rt))
          = (Normal tt, s')
        /\ emitted s'
           = emitted (run_actions actions (constructor config listen socks rt))
             ++ [EmitEventBroadcast hb]
        /\ type hb = Some "heartbeat"
        /\ task_id hb = None)
  /\ (stopped actions = true ->
      forall h,
        interval_fires h (run_actions actions
                            (constructor config listen socks rt))
        = (Normal tt,
           run_actions actions (constructor config listen socks rt)))
  /\ (forall h, h ≠ 0%nat ->
        interval_fires h (run_actions actions
                            (constructor config listen socks rt))
        = (Normal tt,
           run_actions actions (constructor config listen socks rt))).
Proof.
  destruct (timer_armed_until_stop config listen socks rt actions)
    as [Ht Hi].
  split; [exact Ht|]. unfold interval_fires. rewrite Hi.
  split; [|split].
  - intros ->. rewrite bool_decide_true by set_solver.
    destruct (heartbeat_callback_spec
                (run_actions actions (constructor config listen socks rt)))
      as (s' & hb & Hrun & Hem & Hty & Htask & _).
    by exists s', hb.
  - intros -> h. by rewrite bool_decide_false by set_solver.
  - intros h Hh. destruct (stopped actions);
      by rewrite bool_decide_false by set_solver.
Qed.

Lemma heartbeat_timer_lifetime_witness :
  (exists s' hb,
     interval_fires 0 (run_actions [] (fresh_server all_busy)) = (Normal tt, s')
     /\ emitted s'
        = emitted (run_actions [] (fresh_server all_busy))
          ++ [EmitEventBroadcast hb]
     /\ type hb = Some "heartbeat"
     /\ task_id hb = None)
  /\ (forall h,
     interval_fires h (run_actions [CallStart; CallStop; CallStart]
                         (fresh_server free_ports))
     = (Normal tt,
        run_actions [CallStart; CallStop; CallStart] (fresh_server free_ports))).
Proof.
  split.
  - exact (proj1 (proj2 (heartbeat_timer_lifetime
             (mkPartialConfig None None None None None None None)
             all_busy demo_sockets rt0 [])) eq_refl).
  - exact (proj1 (proj2 (proj2 (heartbeat_timer_lifetime
             (mkPartialConfig None None None None None None None)
             free_ports demo_sockets rt0 [CallStart; CallStop; CallStart])))
             eq_refl).
Defined.

(** ** Transformer: shape of the output *)

(** [content.map(...)] wraps each content, in order, and stamps it. *)
Lemma js_map_message_event taskId d (contents : list Content) (rt : Runtime) :
  exists evs rt',
    js_map (EventTransformer.message_event taskId d) contents rt
      = (Normal evs, rt')
    /\ Forall2 (wraps taskId d) contents evs
    /\ stamped (length contents) rt rt'.
Proof.
  revert rt. induction contents as [|c contents IH]; intros rt.
  { exists [], rt. split; [done|]. split; [constructor|].
    unfold stamped. simpl. repeat split; lia. }
  cbn [js_map]. unfold bind at 1.
  unfold EventTransformer.message_event at 1, generateEventId, bind, Date_now,
    Math_random_suffix, ret. cbn [fst snd].
  match goal with
  | |- context [js_map _ contents ?rt1] =>
      destruct (IH rt1) as (evs & rt' & -> & Hwraps & Hst)
  end.
  eexists _, rt'. split; [reflexivity|]. split.
  - constructor; [by repeat split | done].
  - destruct Hst as (Hc & He & Hcr & Her & Hco). simpl in *.
    unfold stamped. repeat split; try done; lia.
Qed.

(** What [transformSayMessage] can return: nothing, or one content whose
    role fits its part, with the category as payload. *)
Lemma transformSayMessage_shape (m : ClineMessage) (r : TransformResult) :
  EventTransformer.transformSayMessage m = Normal r ->
  r = empty_result
  \/ exists c, r = mkTransformResult (Some [c]) (EventTransformer.say_data m)
               /\ role_fits c = true.
Proof.
  unfold EventTransformer.transformSayMessage, one_content.
  intros H.
  repeat match type of H with
  | (if ?b then _ else _) = _ => destruct b
  | match ?x with _ => _ end = _ => destruct x
  end;
  first [ discriminate H
        | injection H as <-;
          first [by left | right; eexists; split; [reflexivity|done]] ].
Qed.

Local Ltac shape_done :=
  eexists _, _, _; (split; [reflexivity|]); simpl;
  repeat split; try lia; try (by repeat constructor).

(** What [transformAskMessage] can return: it never throws, never reads
    the clock or the random source, and always returns one or two
    contents whose roles fit their parts. *)
Lemma transformAskMessage_shape
    (JSON_parse : string -> Completion JsValue) (m : ClineMessage)
    (rt : Runtime) :
  exists r rt' contents,
    EventTransformer.transformAskMessage JSON_parse m rt = (Normal r, rt')
    /\ only_logged rt rt'
    /\ tr_content r = Some contents
    /\ (1 <= length contents <= 2)%nat
    /\ Forall (fun c => role_fits c = true) contents.
Proof.
  unfold EventTransformer.transformAskMessage.
  destruct (is_case (ask m) ["tool"]).
  - unfold bind, try_catch, EventTransformer.tool_try.
    destruct (nonempty (text m)) as [t|]; [|shape_done].
    unfold bind, lift, ret, console_write.
    destruct (JSON_parse t) as [v|e]; [|shape_done].
    destruct (get_prop v "tool") as [toolName|e]; [|shape_done].
    destruct (get_prop v "content") as [inline|e]; [|shape_done].
    destruct (is_undefined inline); simpl;
      match goal with
      | |- context [rest_without ?keys v] => destruct (rest_without keys v)
      end;
      destruct (ts_toString m); shape_done.
  - repeat match goal with
    | |- context [if ?b then _ else _] => destruct b
    end; shape_done.
Qed.

(** The three ways the [try] block of [transformMessageEvent] ends: it
    throws; it returns [null] without touching the runtime; or it returns
    one event per content that [messageToGenAIContent] produced, one or two
    of them, each stamped after whatever was logged. *)
Lemma transformMessageEvent_try_outcome
    (JSON_parse : string -> Completion JsValue) (taskId : string)
    (message : option ClineMessage) (rt : Runtime)
    (res : Completion (option (list StreamEvent))) (rt' : Runtime) :
  EventTransformer.transformMessageEvent_try JSON_parse taskId message rt
    = (res, rt') ->
  (exists e, res = Throw e)
  \/ (res = Normal None /\ rt' = rt)
  \/ exists m r contents evs rt1,
       message = Some m
       /\ EventTransformer.messageToGenAIContent JSON_parse m rt
          = (Normal r, rt1)
       /\ tr_content r = Some contents
       /\ res = Normal (Some evs)
       /\ (1 <= length contents <= 2)%nat
       /\ Forall (fun c => role_fits c = true) contents
       /\ Forall2 (wraps taskId (tr_data r)) contents evs
       /\ only_logged rt rt1
       /\ stamped (length contents) rt1 rt'.
Proof.
  unfold EventTransformer.transformMessageEvent_try.
  unfold bind at 1. unfold lift at 1.
  destruct message as [m|]; simpl receiver; cbv beta iota;
    [|intros [= <- <-]; left; by eexists].
  destruct (default false (partial m));
    [intros [= <- <-]; right; by left|].
  unfold bind at 1.
  destruct (EventTransformer.messageToGenAIContent JSON_parse m rt)
    as [c0 rt1] eqn:Hdispatch.
  assert (Hshape :
    (exists e, c0 = Throw e)
    \/ (c0 = Normal empty_result /\ rt1 = rt)
    \/ exists r contents,
         c0 = Normal r /\ tr_content r = Some contents
         /\ (1 <= length contents <= 2)%nat
         /\ Forall (fun c => role_fits c = true) contents
         /\ only_logged rt rt1).
  { revert Hdispatch. unfold EventTransformer.messageToGenAIContent.
    destruct (bool_decide (msg_type m = "say")).
    { unfold lift.
      destruct (EventTransformer.transformSayMessage m) as [r|e] eqn:Hsay;
        intros [= <- <-]; [|left; by eexists].
      apply transformSayMessage_shape in Hsay as [->|(c & -> & Hfits)].
      { right. by left. }
      right. right. eexists _, [c]. split; [done|]. split; [done|].
      split; [simpl; lia|]. split; [by constructor | by repeat split]. }
    destruct (bool_decide (msg_type m = "ask"));
      [|intros [= <- <-]; right; by left].
    destruct (transformAskMessage_shape JSON_parse m rt)
      as (r & rt2 & contents & -> & Hlog & Hcontent & Hlen & Hfits).
    intros [= <- <-]. right. right. by exists r, contents. }
  destruct Hshape as [(e & ->) | [(-> & ->) | (r & contents & -> & Hcontent
                                               & Hlen & Hfits & Hlog)]].
  - intros [= <- <-]. left. by eexists.
  - intros [= <- <-]. right. by left.
  - rewrite Hcontent.
    destruct contents as [|c contents]; [simpl in Hlen; lia|].
    cbn -[js_map EventTransformer.message_event]. unfold bind at 1.
    destruct (js_map_message_event taskId (tr_data r) (c :: contents) rt1)
      as (evs & rt2 & -> & Hwraps & Hst).
    intros [= <- <-]. right. right.
    by exists m, r, (c :: contents), evs, rt1.
Qed.

Lemma wraps_message_events taskId d (contents : list Content)
    (evs : list StreamEvent) :
  Forall2 (wraps taskId d) contents evs ->
  Forall (fun ev => type ev = Some "message" /\ task_id ev = Some taskId) evs.
Proof.
  induction 1 as [|c ev cs evs' Hw _ IH]; constructor; [|done].
  by destruct Hw as (_ & ? & ? & _).
Qed.

Lemma wraps_fitting_contents taskId d (contents : list Content)
    (evs : list StreamEvent) :
  Forall2 (wraps taskId d) contents evs ->
  Forall (fun c => role_fits c = true) contents ->
  Forall (fun ev => exists c, content ev = Some c /\ role_fits c = true) evs.
Proof.
  induction 1 as [|c ev cs evs' Hw _ IH]; intros Hfits; constructor.
  - apply Forall_cons in Hfits as [Hc _]. destruct Hw as (? & _).
    by exists c.
  - apply IH. by apply Forall_cons in Hfits as [_ ?].
Qed.

(** X1. Whatever the message, the array-returning [transformMessageEvent]
    returns [null] or one or two events, all for the given task.  Either
    they are all ["message"] events around a content with exactly one part
    whose role fits it (reasoning and function calls by the model, function
    responses by the user), or there is a single ["error"] event without
    content.  A [null] result leaves the runtime as it was. *)
Theorem transformMessageEvent_envelope
    (JSON_parse : string -> Completion JsValue) (taskId : string)
    (message : option ClineMessage) (rt : Runtime) :
  exists r rt',
    EventTransformer.transformMessageEvent JSON_parse taskId message rt
      = (Normal r, rt')
    /\ match r with
       | None => rt' = rt
       | Some evs =>
           (1 <= length evs <= 2)%nat
           /\ Forall (fun ev => task_id ev = Some taskId) evs
           /\ (Forall (fun ev =>
                  type ev = Some "message"
                  /\ exists c, content ev = Some c /\ role_fits c = true) evs
               \/ exists ev, evs = [ev] /\ type ev = Some "error"
                             /\ content ev = None)
       end.
Proof.
  unfold EventTransformer.transformMessageEvent, try_catch.
  destruct (EventTransformer.transformMessageEvent_try JSON_parse taskId
              message rt) as [res rt1] eqn:Htry.
  apply transformMessageEvent_try_outcome in Htry
    as [(e & ->) | [(-> & ->) | (m & r0 & contents & evs & rt2 & _ & _ & _
                                 & -> & Hlen & Hfits & Hwraps & _ & _)]].
  - eexists _, _. split; [reflexivity|]. simpl.
    split; [lia|]. split; [by constructor|]. right. by eexists.
  - by exists None, rt.
  - exists (Some evs), rt1. split; [done|].
    rewrite <- (Forall2_length _ _ _ Hwraps). split; [done|].
    pose proof (wraps_message_events _ _ _ _ Hwraps) as Hmsg.
    pose proof (wraps_fitting_contents _ _ _ _ Hwraps Hfits) as Hfit.
    split.
    + eapply Forall_impl; [exact Hmsg|]. by intros ev [_ ?].
    + left. apply Forall_and. split; [|done].
      eapply Forall_impl; [exact Hmsg|]. by intros ev [? _].
Qed.

(** X2. A finalized [ask] message is never dropped and never turned into
    an error event by the array-returning variant, whatever its category,
    text, timestamp and whatever [JSON.parse] does: the result is one or two
    ["message"] events for the task. *)
Theorem ask_message_always_yields_events
    (JSON_parse : string -> Completion JsValue) (taskId : string)
    (m : ClineMessage) (rt : Runtime) :
  default false (partial m) = false ->
  msg_type m = "ask" ->
  exists ev evs rt',
    EventTransformer.transformMessageEvent JSON_parse taskId (Some m) rt
      = (Normal (Some (ev :: evs)), rt')
    /\ (length evs <= 1)%nat
    /\ Forall (fun ev => type ev = Some "message" /\ task_id ev = Some taskId)
              (ev :: evs).
Proof.
  intros Hfinal Hask.
  unfold EventTransformer.transformMessageEvent, try_catch,
    EventTransformer.transformMessageEvent_try.
  unfold bind at 1. unfold lift at 1. simpl receiver. cbv beta iota.
  rewrite Hfinal.
  assert (Hdispatch : EventTransformer.messageToGenAIContent JSON_parse m
                      = EventTransformer.transformAskMessage JSON_parse m).
  { unfold EventTransformer.messageToGenAIContent. by rewrite Hask. }
  unfold bind at 1. rewrite Hdispatch.
  destruct (transformAskMessage_shape JSON_parse m rt)
    as (r & rt1 & contents & -> & _ & Hcontent & Hlen & _).
  rewrite Hcontent.
  destruct contents as [|c contents]; [simpl in Hlen; lia|].
  cbn -[js_map EventTransformer.message_event]. unfold bind at 1.
  destruct (js_map_message_event taskId (tr_data r) (c :: contents) rt1)
    as (evs & rt' & -> & Hwraps & _).
  pose proof (Forall2_length _ _ _ Hwraps) as Hsame.
  pose proof (wraps_message_events _ _ _ _ Hwraps) as Hmsg.
  destruct evs as [|ev evs]; [done|].
  exists ev, evs, rt'. split; [done|]. split; [|done].
  simpl in Hlen, Hsame. lia.
Qed.

Lemma ask_message_always_yields_events_witness :
  exists ev evs rt',
    EventTransformer.transformMessageEvent toy_parse "task-1"
      (Some followup_message) rt0 = (Normal (Some (ev :: evs)), rt')
    /\ (length evs <= 1)%nat
    /\ Forall (fun ev => type ev = Some "message" /\ task_id ev = Some "task-1")
              (ev :: evs).
Proof.
  exact (ask_message_always_yields_events toy_parse "task-1" followup_message
           rt0 eq_refl eq_refl).
Defined.

(** ** Transformer: the [tool] request *)

Lemma assoc_filter_excluded (k : string) (keys : list string)
    (l : list (string * JsValue)) :
  k ∈ keys -> assoc k (filter (fun kv => kv.1 ∉ keys) l) = None.
Proof.
  intros Hk. induction l as [|[k' v] l IH]; [done|].
  rewrite filter_cons. case_decide as Hkeep; [|done].
  simpl. rewrite bool_decide_false; [done|]. by intros ->.
Qed.

Lemma rest_without_excludes (k : string) (keys : list string) (v : JsValue)
    (rest : list (string * JsValue)) :
  rest_without keys v = Normal rest -> k ∈ keys -> assoc k rest = None.
Proof.
  intros Hrest Hk.
  destruct v; simpl in Hrest; try discriminate Hrest;
    injection Hrest as <-; by apply assoc_filter_excluded.
Qed.

(** The parts of a list of contents, in order. *)
Lemma event_parts_wraps taskId d (contents : list Content)
    (evs : list StreamEvent) :
  Forall2 (wraps taskId d) contents evs ->
  event_parts evs = contents ≫= (fun c => default [] (parts c)).
Proof.
  induction 1 as [|c ev cs evs' Hw _ IH]; [done|].
  destruct Hw as (Hc & _). unfold event_parts in *.
  rewrite !bind_cons, Hc, IH. done.
Qed.

(** The [try] block of the [tool] case leaves the runtime alone. *)
Lemma tool_try_runtime (JSON_parse : string -> Completion JsValue)
    (m : ClineMessage) (rt : Runtime) :
  (EventTransformer.tool_try JSON_parse m rt).2 = rt.
Proof.
  unfold EventTransformer.tool_try.
  destruct (nonempty (text m)) as [t|]; [|done].
  unfold bind, lift, ret.
  destruct (JSON_parse t) as [v|]; [|done].
  destruct (get_prop v "tool"); [|done].
  destruct (get_prop v "content") as [inline|]; [|done].
  destruct (is_undefined inline); simpl;
    match goal with
    | |- context [rest_without ?keys v] => destruct (rest_without keys v)
    end; try done; by destruct (ts_toString m).
Qed.

(** When the [try] block returns, the call it built has the tool name and
    the inline content taken out of its arguments, and a response, if there
    is one, answers that call. *)
Lemma tool_try_returns (JSON_parse : string -> Completion JsValue)
    (m : ClineMessage) (rt rt' : Runtime) (r : TransformResult) :
  EventTransformer.tool_try JSON_parse m rt = (Normal (Some r), rt') ->
  exists name args i,
    assoc "tool" args = None
    /\ (tr_content r
        = Some [mkContent model (Some [PFunctionCall name args i])]
        \/ exists inline,
             assoc "content" args = None
             /\ tr_content r
                = Some [mkContent model (Some [PFunctionCall name args i]);
                        mkContent user
                          (Some [PFunctionResponse name [("content", inline)]
                                   i])]).
Proof.
  unfold EventTransformer.tool_try.
  destruct (nonempty (text m)) as [t|]; [|done].
  unfold bind, lift, ret.
  destruct (JSON_parse t) as [v|]; [|done].
  destruct (get_prop v "tool") as [name|]; [|done].
  destruct (get_prop v "content") as [inline|]; [|done].
  destruct (is_undefined inline); simpl.
  - destruct (rest_without ["tool"] v) as [args|] eqn:Hrest; [|done].
    destruct (ts_toString m) as [i|]; [|done].
    intros [= <- <-]. exists name, args, (Some i). split.
    + eapply rest_without_excludes; [exact Hrest | set_solver].
    + by left.
  - destruct (rest_without ["tool"; "content"] v) as [args|] eqn:Hrest;
      [|done].
    destruct (ts_toString m) as [i|]; [|done].
    intros [= <- <-]. exists name, args, (Some i). split.
    + eapply rest_without_excludes; [exact Hrest | set_solver].
    + right. exists inline. split; [|done].
      eapply rest_without_excludes; [exact Hrest | set_solver].
Qed.

(** [transformAskMessage] on a [tool] request, by what the [try] block did. *)
Lemma transformAskMessage_tool (JSON_parse : string -> Completion JsValue)
    (m : ClineMessage) (rt : Runtime) :
  ask m = Some "tool" ->
  EventTransformer.transformAskMessage JSON_parse m rt
  = match (EventTransformer.tool_try JSON_parse m rt).1 with
    | Normal (Some r) => (Normal r, rt)
    | Normal None =>
        (Normal (one_content model (PText "[tool]" false)
                   (EventTransformer.ask_data m)), rt)
    | Throw e =>
        (Normal (one_content model
                   (PText (or_else (text m) "[tool]") false) None),
         (console_write "Error parsing tool message:" (Some e) rt).2)
    end.
Proof.
  intros Hask. unfold EventTransformer.transformAskMessage. rewrite Hask.
  change (is_case (Some "tool") ["tool"]) with true. cbv iota.
  unfold bind at 1. unfold try_catch.
  pose proof (tool_try_runtime JSON_parse m rt) as Hrt.
  destruct (EventTransformer.tool_try JSON_parse m rt) as [[[r|]|e] rt1];
    simpl in Hrt; subst rt1; reflexivity.
Qed.

(** An [ask] message's events, from what [transformAskMessage] returned. *)
Lemma transformMessageEvent_ask (JSON_parse : string -> Completion JsValue)
    (taskId : string) (m : ClineMessage) (rt rt1 : Runtime)
    (r : TransformResult) (c : Content) (contents : list Content) :
  default false (partial m) = false ->
  msg_type m = "ask" ->
  EventTransformer.transformAskMessage JSON_parse m rt = (Normal r, rt1) ->
  tr_content r = Some (c :: contents) ->
  exists evs rt',
    EventTransformer.transformMessageEvent JSON_parse taskId (Some m) rt
      = (Normal (Some evs), rt')
    /\ Forall2 (wraps taskId (tr_data r)) (c :: contents) evs
    /\ stamped (length (c :: contents)) rt1 rt'.
Proof.
  intros Hfinal Hask Hrun Hcontent.
  unfold EventTransformer.transformMessageEvent, try_catch,
    EventTransformer.transformMessageEvent_try.
  unfold bind at 1. unfold lift at 1. simpl receiver. cbv beta iota.
  rewrite Hfinal.
  assert (Hdispatch : EventTransformer.messageToGenAIContent JSON_parse m
                      = EventTransformer.transformAskMessage JSON_parse m).
  { unfold EventTransformer.messageToGenAIContent. by rewrite Hask. }
  unfold bind at 1. rewrite Hdispatch, Hrun, Hcontent.
  cbn -[js_map EventTransformer.message_event]. unfold bind at 1.
  destruct (js_map_message_event taskId (tr_data r) (c :: contents) rt1)
    as (evs & rt' & -> & Hwraps & Hst).
  by exists evs, rt'.
Qed.

Lemma tool_try_fails (JSON_parse : string -> Completion JsValue)
    (m : ClineMessage) (rt : Runtime) (payload : string) :
  nonempty (text m) = Some payload ->
  (exists e, JSON_parse payload = Throw e)
  \/ JSON_parse payload = Normal JNull
  \/ ts m = None ->
  exists e, (EventTransformer.tool_try JSON_parse m rt).1 = Throw e.
Proof.
  intros Htext Hbad. unfold EventTransformer.tool_try. rewrite Htext.
  unfold bind, lift, ret.
  destruct Hbad as [(e & ->) | [-> | Hts]]; [by eexists | by eexists |].
  destruct (JSON_parse payload) as [v|]; [|by eexists].
  destruct (get_prop v "tool"); [|by eexists].
  destruct (get_prop v "content") as [inline|]; [|by eexists].
  unfold ts_toString. rewrite Hts.
  destruct (is_undefined inline); simpl;
    match goal with
    | |- context [rest_without ?keys v] => destruct (rest_without keys v)
    end; by eexists.
Qed.

(** X3. A finalized [tool] request whose text cannot be used (it does not
    parse, it parses to [null], or the message has no timestamp to take
    the correlation id from) is not lost and is not an error event: the
    result is one ["message"] event whose single text part is the raw
    text, without [data], and the failure is logged once. *)
Theorem tool_request_falls_back_to_text
    (JSON_parse : string -> Completion JsValue) (taskId : string)
    (m : ClineMessage) (rt : Runtime) (payload : string) :
  default false (partial m) = false ->
  msg_type m = "ask" ->
  ask m = Some "tool" ->
  nonempty (text m) = Some payload ->
  (exists e, JSON_parse payload = Throw e)
  \/ JSON_parse payload = Normal JNull
  \/ ts m = None ->
  exists ev rt' e,
    EventTransformer.transformMessageEvent JSON_parse taskId (Some m) rt
      = (Normal (Some [ev]), rt')
    /\ type ev = Some "message"
    /\ content ev = Some (mkContent model (Some [PText payload false]))
    /\ data ev = None
    /\ console rt' = console rt ++ [("Error parsing tool message:", Some e)].
Proof.
  intros Hfinal Htype Hask Htext Hbad.
  destruct (tool_try_fails JSON_parse m rt payload Htext Hbad) as [e He].
  pose proof (transformAskMessage_tool JSON_parse m rt Hask) as Hrun.
  rewrite He in Hrun.
  destruct (transformMessageEvent_ask JSON_parse taskId m rt _ _ _ []
              Hfinal Htype Hrun eq_refl)
    as (evs & rt' & Hevs & Hwraps & Hst).
  inversion Hwraps as [|c ev cs evs' Hw Hnil]; subst.
  inversion Hnil; subst.
  exists ev, rt', e. split; [done|].
  destruct Hw as (Hc & Hty & _ & Hd).
  destruct Hst as (_ & _ & _ & _ & Hconsole).
  rewrite or_else_nonempty, Htext in Hc. simpl in *.
  by rewrite Hconsole.
Qed.

Lemma tool_request_falls_back_to_text_witness :
  exists ev rt' e,
    EventTransformer.transformMessageEvent toy_parse "task-1"
      (Some malformed_tool_message) rt0 = (Normal (Some [ev]), rt')
    /\ type ev = Some "message"
    /\ content ev = Some (mkContent model (Some [PText "{tool:" false]))
    /\ data ev = None
    /\ console rt' = console rt0 ++ [("Error parsing tool message:", Some e)].
Proof.
  apply (tool_request_falls_back_to_text toy_parse "task-1"
           malformed_tool_message rt0 "{tool:" eq_refl eq_refl eq_refl eq_refl).
  left. eexists. reflexivity.
Defined.

(** X4. In the events of a [tool] request, the arguments of a function
    call never repeat the tool name ([tool] is taken out), and when a
    function response is present it answers that call: same name, same
    correlation id, the inline [content] as its only field, and [content]
    taken out of the call's arguments too. *)
Theorem tool_call_arguments
    (JSON_parse : string -> Completion JsValue) (taskId : string)
    (m : ClineMessage) (rt rt' : Runtime) (evs : list StreamEvent) :
  msg_type m = "ask" ->
  ask m = Some "tool" ->
  EventTransformer.transformMessageEvent JSON_parse taskId (Some m) rt
    = (Normal (Some evs), rt') ->
  forall name args i,
    PFunctionCall name args i ∈ event_parts evs ->
    assoc "tool" args = None
    /\ forall name' response i',
         PFunctionResponse name' response i' ∈ event_parts evs ->
         name' = name /\ i' = i /\ assoc "content" args = None
         /\ exists inline, response = [("content", inline)].
Proof.
  intros Htype Hask Hrun name args i Hcall.
  revert Hrun. unfold EventTransformer.transformMessageEvent, try_catch.
  destruct (EventTransformer.transformMessageEvent_try JSON_parse taskId
              (Some m) rt) as [res rt1] eqn:Htry.
  apply transformMessageEvent_try_outcome in Htry
    as [(e & ->) | [(-> & ->) | (m0 & r & contents & evs0 & rt2 & [= <-]
                                 & Hdispatch & Hcontent & -> & _ & _
                                 & Hwraps & _ & _)]].
  - unfold bind, console_write, EventTransformer.error_event, bind,
      generateEventId, bind, Date_now, Math_random_suffix, ret. simpl.
    intros [= <- <-]. by apply elem_of_nil in Hcall.
  - done.
  - intros [= <- <-].
    rewrite (event_parts_wraps _ _ _ _ Hwraps) in Hcall |- *.
    unfold EventTransformer.messageToGenAIContent in Hdispatch.
    rewrite Htype in Hdispatch.
    change (bool_decide ("ask" = "say")) with false in Hdispatch.
    change (bool_decide ("ask" = "ask")) with true in Hdispatch.
    cbv iota in Hdispatch.
    rewrite (transformAskMessage_tool JSON_parse m rt Hask) in Hdispatch.
    destruct (EventTransformer.tool_try JSON_parse m rt)
      as [[[r0|]|e] rt3] eqn:Htool; simpl in Hdispatch;
      injection Hdispatch as <- <-.
    + apply tool_try_returns in Htool
        as (name0 & args0 & i0 & Htoolkey & [Hone | (inline & Hkey & Htwo)]).
      * rewrite Hone in Hcontent. injection Hcontent as <-.
        simpl in Hcall |- *.
        apply list_elem_of_singleton in Hcall as [= -> -> ->].
        split; [done|]. intros name' response i' Hresp.
        by apply list_elem_of_singleton in Hresp.
      * rewrite Htwo in Hcontent. injection Hcontent as <-.
        simpl in Hcall |- *.
        apply elem_of_cons in Hcall as [[= -> -> ->]|Hcall];
          [|by apply list_elem_of_singleton in Hcall].
        split; [done|]. intros name' response i' Hresp.
        apply elem_of_cons in Hresp as [?|Hresp]; [done|].
        apply list_elem_of_singleton in Hresp as [= -> -> ->].
        repeat split; try done. by exists inline.
    + simpl in Hcontent. injection Hcontent as <-. simpl in Hcall.
      by apply list_elem_of_singleton in Hcall.
    + simpl in Hcontent. injection Hcontent as <-. simpl in Hcall.
      by apply list_elem_of_singleton in Hcall.
Qed.

Lemma tool_call_arguments_witness :
  assoc "tool" [("path", JStr "a.txt")] = None
  /\ forall name' response i',
       PFunctionResponse name' response i' ∈ event_parts tool_events ->
       name' = JStr "newFileCreated" /\ i' = Some "1700000000789"
       /\ assoc "content" [("path", JStr "a.txt")] = None
       /\ exists inline, response = [("content", inline)].
Proof.
  apply (tool_call_arguments toy_parse "task-1" tool_message rt0
           (EventTransformer.transformMessageEvent toy_parse "task-1"
              (Some tool_message) rt0).2
           tool_events eq_refl eq_refl eq_refl
           (JStr "newFileCreated") [("path", JStr "a.txt")]
           (Some "1700000000789")).
  vm_compute. left.
Defined.

(** ** Transformer: timestamps, kinds and the two variants *)

(** Evaluate the [case] tests on a category that is known. *)
Local Ltac decide_cases :=
  repeat match goal with
  | |- context [is_case (Some ?c) ?l] =>
      let b := eval vm_compute in (is_case (Some c) l) in
      change (is_case (Some c) l) with b
  end; cbv iota.

(** Split a membership in a list that is written out. *)
Local Ltac each_label H :=
  repeat (apply elem_of_cons in H as [->|H]);
  [..|by apply elem_of_nil in H].

Lemma transformSayMessage_with_ts (t : option Z) (m : ClineMessage) :
  is_case (say m) say_correlated = false ->
  EventTransformer.transformSayMessage (with_ts t m)
  = EventTransformer.transformSayMessage m.
Proof.
  intros Hout. unfold EventTransformer.transformSayMessage.
  change (say (with_ts t m)) with (say m).
  repeat (rewrite (is_case_false_sub _ ["command_output"] _ Hout);
          [|apply (bool_decide_unpack _); vm_compute; exact I]).
  repeat (rewrite (is_case_false_sub _ ["mcp_server_request_started"] _ Hout);
          [|apply (bool_decide_unpack _); vm_compute; exact I]).
  repeat (rewrite (is_case_false_sub _ ["mcp_server_response"] _ Hout);
          [|apply (bool_decide_unpack _); vm_compute; exact I]).
  repeat (rewrite (is_case_false_sub _ ["codebase_search_result"] _ Hout);
          [|apply (bool_decide_unpack _); vm_compute; exact I]).
  reflexivity.
Qed.

(** X5. The timestamp of a [say] message matters only as correlation id:
    outside the four categories that carry one, the array-returning
    variant returns the same result for any timestamp, present or not;
    inside them, a finalized message without a timestamp yields the single
    ["error"] event naming the failed [toString]. *)
Theorem say_timestamp_only_correlates
    (JSON_parse : string -> Completion JsValue) (taskId : string)
    (m : ClineMessage) (rt : Runtime) :
  msg_type m = "say" ->
  (is_case (say m) say_correlated = false ->
   forall t,
     EventTransformer.transformMessageEvent JSON_parse taskId
       (Some (with_ts t m)) rt
     = EventTransformer.transformMessageEvent JSON_parse taskId (Some m) rt)
  /\ (is_case (say m) say_correlated = true ->
      default false (partial m) = false ->
      ts m = None ->
      exists ev rt',
        EventTransformer.transformMessageEvent JSON_parse taskId (Some m) rt
          = (Normal (Some [ev]), rt')
        /\ type ev = Some "error"
        /\ data ev = Some (JObj [("error", JStr
             "Error transforming message: Cannot read properties of undefined (reading 'toString')")])).
Proof.
  intros Htype. split.
  - intros Hout t.
    assert (Hdispatch :
      EventTransformer.messageToGenAIContent JSON_parse (with_ts t m)
      = EventTransformer.messageToGenAIContent JSON_parse m).
    { unfold EventTransformer.messageToGenAIContent.
      change (msg_type (with_ts t m)) with (msg_type m). rewrite Htype.
      change (bool_decide ("say" = "say")) with true. cbv iota.
      by rewrite (transformSayMessage_with_ts t m Hout). }
    unfold EventTransformer.transformMessageEvent,
      EventTransformer.transformMessageEvent_try, try_catch.
    unfold bind at 1 3. unfold lift at 1 2, receiver. cbv beta iota.
    change (partial (with_ts t m)) with (partial m).
    by rewrite Hdispatch.
  - intros Hin Hfinal Hts.
    assert (Hthrow : EventTransformer.transformSayMessage m
      = Throw (ErrorObject
          "Cannot read properties of undefined (reading 'toString')")).
    { unfold EventTransformer.transformSayMessage, ts_toString.
      rewrite Hts.
      destruct (say m) as [c|]; [|done]. simpl in Hin.
      apply bool_decide_eq_true in Hin. unfold say_correlated in Hin.
      each_label Hin; decide_cases; reflexivity. }
    assert (Hdispatch : EventTransformer.messageToGenAIContent JSON_parse m rt
                        = (Throw (ErrorObject
          "Cannot read properties of undefined (reading 'toString')"), rt)).
    { unfold EventTransformer.messageToGenAIContent. rewrite Htype.
      change (bool_decide ("say" = "say")) with true. cbv iota.
      unfold lift. by rewrite Hthrow. }
    unfold EventTransformer.transformMessageEvent,
      EventTransformer.transformMessageEvent_try, try_catch.
    unfold bind at 1. unfold lift at 1, receiver. cbv beta iota.
    rewrite Hfinal. unfold bind at 1. rewrite Hdispatch.
    eexists _, _. split; [reflexivity|]. done.
Qed.

Lemma say_timestamp_only_correlates_witness :
  (forall t,
     EventTransformer.transformMessageEvent toy_parse "task-1"
       (Some (with_ts t condense_message)) rt0
     = EventTransformer.transformMessageEvent toy_parse "task-1"
         (Some condense_message) rt0)
  /\ exists ev rt',
       EventTransformer.transformMessageEvent toy_parse "task-1"
         (Some untimed_output_message) rt0 = (Normal (Some [ev]), rt')
       /\ type ev = Some "error"
       /\ data ev = Some (JObj [("error", JStr
            "Error transforming message: Cannot read properties of undefined (reading 'toString')")]).
Proof.
  split.
  - exact (proj1 (say_timestamp_only_correlates toy_parse "task-1"
                    condense_message rt0 eq_refl) eq_refl).
  - exact (proj2 (say_timestamp_only_correlates toy_parse "task-1"
                    untimed_output_message rt0 eq_refl)
             eq_refl eq_refl eq_refl).
Defined.

(** X6. The single-event variant forwards [say] messages only: any
    message of another kind, interactive requests included, yields [null]
    and leaves the runtime as it was.  The array-returning variant does the
    same for a message that is neither [say] nor [ask]. *)
Theorem only_known_kinds_are_forwarded
    (JSON_parse : string -> Completion JsValue) (taskId : string)
    (m : ClineMessage) (rt : Runtime) :
  msg_type m ≠ "say" ->
  Legacy.transformMessageEvent taskId (Some m) rt = (Normal None, rt)
  /\ (msg_type m ≠ "ask" ->
      EventTransformer.transformMessageEvent JSON_parse taskId (Some m) rt
      = (Normal None, rt)).
Proof.
  intros Hsay. split.
  - unfold Legacy.transformMessageEvent, Legacy.transformMessageEvent_try,
      Legacy.messageToGenAIContent, try_catch, bind, lift. simpl.
    rewrite bool_decide_false by done.
    by destruct (bool_decide (msg_type m = "ask")).
  - intros Hask.
    unfold EventTransformer.transformMessageEvent,
      EventTransformer.transformMessageEvent_try,
      EventTransformer.messageToGenAIContent, try_catch, bind, lift. simpl.
    rewrite !bool_decide_false by done.
    by destruct (default false (partial m)).
Qed.

Lemma only_known_kinds_are_forwarded_witness :
  Legacy.transformMessageEvent "task-1" (Some followup_message) rt0
  = (Normal None, rt0)
  /\ EventTransformer.transformMessageEvent toy_parse "task-1"
       (Some status_message) rt0
     = (Normal None, rt0).
Proof.
  split.
  - apply (only_known_kinds_are_forwarded toy_parse "task-1" followup_message
             rt0).
    simpl. discriminate.
  - apply (only_known_kinds_are_forwarded toy_parse "task-1" status_message
             rt0); simpl; discriminate.
Defined.

(** Outside the categories the variants map differently, the two
    [transformSayMessage] throw the same or return the same content, the
    array-returning one returning nothing where the other returns a content
    without parts. *)
Lemma transformSayMessage_variants (m : ClineMessage) :
  is_case (say m) variant_specific = false ->
  match EventTransformer.transformSayMessage m, Legacy.transformSayMessage m with
  | Throw e, Throw e' => e = e'
  | Normal r, Normal oc =>
      (r = empty_result /\ Legacy.no_parts oc = true)
      \/ exists c, r = mkTransformResult (Some [c]) (EventTransformer.say_data m)
                   /\ oc = Some c /\ Legacy.no_parts oc = false
  | _, _ => False
  end.
Proof.
  intros Hshared.
  unfold EventTransformer.transformSayMessage, Legacy.transformSayMessage,
    one_content.
  destruct (is_case (say m) EventTransformer.say_table) eqn:Htable.
  - destruct (say m) as [c|]; [|done]. simpl in Htable.
    apply bool_decide_eq_true in Htable.
    unfold EventTransformer.say_table, EventTransformer.say_dropped,
      EventTransformer.say_mapped in Htable. simpl in Htable.
    each_label Htable; try (vm_compute in Hshared; discriminate Hshared);
      decide_cases;
      repeat match goal with
      | |- context [match nonempty ?x with _ => _ end] => destruct (nonempty x)
      | |- context [match ts_toString ?x with _ => _ end] =>
          destruct (ts_toString x)
      | |- context [match images ?x with _ => _ end] =>
          destruct (images x) as [[|? ?]|]
      end;
      first [ reflexivity | by left | right; eexists; by repeat split ].
  - skip_cases Htable.
    right. eexists. by repeat split.
Qed.

(** X7. Outside nine [say] categories (completion results, browser
    actions and the bookkeeping categories only the array-returning variant
    drops), the two variants agree on every finalized [say] message: they
    leave the same runtime and return the same events up to the [data]
    payload, which only the array-returning variant attaches. *)
Theorem variants_agree_on_say_messages
    (JSON_parse : string -> Completion JsValue) (taskId : string)
    (m : ClineMessage) (rt : Runtime) :
  msg_type m = "say" ->
  default false (partial m) = false ->
  is_case (say m) variant_specific = false ->
  exists r2 r1 rt',
    EventTransformer.transformMessageEvent JSON_parse taskId (Some m) rt
      = (Normal r2, rt')
    /\ Legacy.transformMessageEvent taskId (Some m) rt = (Normal r1, rt')
    /\ (fmap without_data <$> r2) = ((fun ev => [without_data ev]) <$> r1).
Proof.
  intros Htype Hfinal Hshared.
  pose proof (transformSayMessage_variants m Hshared) as Hsay.
  assert (Hnew : forall c,
    EventTransformer.transformSayMessage m = c ->
    EventTransformer.transformMessageEvent JSON_parse taskId (Some m) rt
    = try_catch
        (fun st =>
           match c with
           | Normal r =>
               (if EventTransformer.no_content (tr_content r)
                   && EventTransformer.falsy_data (tr_data r)
                then ret None
                else match tr_content r with
                     | Some contents =>
                         let* streamEvents :=
                           js_map (EventTransformer.message_event taskId
                                     (tr_data r)) contents in
                         ret (Some streamEvents)
                     | None => ret None
                     end)%js st
           | Throw e => (Throw e, st)
           end)
        (fun error =>
           run console_write "Error transforming message event:"
                 (Some error) then
           let* ev := EventTransformer.error_event taskId error in
           ret (Some [ev]))%js rt).
  { intros c <-.
    unfold EventTransformer.transformMessageEvent,
      EventTransformer.transformMessageEvent_try, try_catch.
    unfold bind at 1. unfold lift at 1, receiver. cbv beta iota.
    rewrite Hfinal. unfold bind at 1.
    unfold EventTransformer.messageToGenAIContent. rewrite Htype.
    change (bool_decide ("say" = "say")) with true. cbv iota.
    unfold lift at 1. reflexivity. }
  assert (Hold : forall c,
    Legacy.transformSayMessage m = c ->
    Legacy.transformMessageEvent taskId (Some m) rt
    = try_catch
        (fun st =>
           match c with
           | Normal content =>
               (if Legacy.no_parts content then ret None
                else
                  let* id := generateEventId in
                  let* now := Date_now in
                  ret (Some (mkStreamEvent id now (Some taskId) content
                               (Some "message") None)))%js st
           | Throw e => (Throw e, st)
           end)
        (fun error =>
           run console_write "Error transforming message event:"
                 (Some error) then
           let* ev := EventTransformer.error_event taskId error in
           ret (Some ev))%js rt).
  { intros c <-.
    unfold Legacy.transformMessageEvent, Legacy.transformMessageEvent_try,
      try_catch.
    unfold bind at 1. unfold lift at 1. unfold Legacy.messageToGenAIContent.
    unfold receiver. cbv beta iota. rewrite Htype.
    change (bool_decide ("say" = "say")) with true. cbv iota.
    reflexivity. }
  destruct (EventTransformer.transformSayMessage m) as [r|e] eqn:H2,
    (Legacy.transformSayMessage m) as [oc|e'] eqn:H1; try done;
    rewrite (Hnew _ eq_refl), (Hold _ eq_refl); unfold try_catch.
  - destruct Hsay as [(-> & Hnone) | (c & -> & -> & Hsome)].
    + rewrite Hnone. by exists None, None, rt.
    + rewrite Hsome. eexists _, _, _. split; [reflexivity|].
      split; reflexivity.
  - subst e'. eexists _, _, _. split; [reflexivity|]. split; reflexivity.
Qed.

Lemma variants_agree_on_say_messages_witness :
  exists r2 r1 rt',
    EventTransformer.transformMessageEvent toy_parse "task-1"
      (Some text_message) rt0 = (Normal r2, rt')
    /\ Legacy.transformMessageEvent "task-1" (Some text_message) rt0
       = (Normal r1, rt')
    /\ (fmap without_data <$> r2) = ((fun ev => [without_data ev]) <$> r1).
Proof.
  exact (variants_agree_on_say_messages toy_parse "task-1" text_message rt0
           eq_refl eq_refl eq_refl).
Defined.

(** X8. [transformTaskEvent] returns, for every event name and every
    argument list, an event carrying that very name as its type (never
    ["error"]), the task id [args[0]] or ["unknown"] when that is missing
    or empty, no content, and the next event id; it logs nothing.  A [data]
    payload is attached for the token-usage and tool-failure names only,
    and never for the seven lifecycle names. *)
Theorem task_event_keeps_its_name
    (TaskCreated TaskStarted TaskCompleted TaskPaused TaskUnpaused
     TaskAborted TaskModeSwitched TaskTokenUsageUpdated TaskToolFailed : string)
    (eventName : string) (args : EventTransformer.TaskEventArgs)
    (rt : Runtime) :
  exists ev rt',
    EventTransformer.transformTaskEvent TaskCreated TaskStarted TaskCompleted
      TaskPaused TaskUnpaused TaskAborted TaskModeSwitched
      TaskTokenUsageUpdated TaskToolFailed eventName args rt = (Normal ev, rt')
    /\ type ev = Some eventName
    /\ task_id ev
       = Some (default "unknown" (nonempty (EventTransformer.arg0 args)))
    /\ content ev = None
    /\ event_id ev
       = "event_" +:+ pretty (clock rt (clock_reads rt)) +:+ "_"
         +:+ entropy rt (entropy_reads rt)
    /\ console rt' = console rt
    /\ (data ev = None
        \/ (eventName = TaskTokenUsageUpdated
            /\ data ev = Some (JObj [("tokenUsage", EventTransformer.arg1 args)]))
        \/ (eventName = TaskToolFailed
            /\ data ev = Some (JObj [("tool_name", EventTransformer.arg1 args);
                                     ("error", EventTransformer.arg2 args)])))
    /\ (eventName ∈ [TaskCreated; TaskStarted; TaskCompleted; TaskPaused;
                     TaskUnpaused; TaskAborted; TaskModeSwitched] ->
        data ev = None).
Proof.
  unfold EventTransformer.transformTaskEvent, try_catch,
    EventTransformer.transformTaskEvent_try, EventTransformer.task_event,
    generateEventId, bind, Date_now, Math_random_suffix, ret.
  rewrite or_else_nonempty.
  case_bool_decide as Hlife; simpl.
  { eexists _, _. split; [reflexivity|]. simpl. repeat split; by left. }
  case_bool_decide as Husage; simpl.
  { eexists _, _. split; [reflexivity|]. simpl.
    repeat split; [right; left; by split | done]. }
  case_bool_decide as Hfailed; simpl.
  { eexists _, _. split; [reflexivity|]. simpl.
    repeat split; [right; right; by split | done]. }
  eexists _, _. split; [reflexivity|]. simpl. repeat split; by left.
Qed.

(** ** Streaming server: shutdown *)

Lemma closed_idempotent (w : WebSocket) : closed (closed w) = closed w.
Proof.
  unfold closed. simpl. destruct (readyState w); reflexivity.
Qed.

Lemma ws_close_unfold (ws : nat) (s : State) :
  ws_close ws s
  = (Normal tt, set_sockets (store ws (closed (sockets s ws)) (sockets s)) s).
Proof. reflexivity. Qed.

(** The loop of [stop]: every socket an entry refers to is closed, the
    others and everything else stay as they are. *)
Lemma close_loop_spec (entries : list (string * StreamClientConnection))
    (s : State) :
  exists socks,
    for_each close_connection entries s = (Normal tt, set_sockets socks s)
    /\ forall r, socks r = if bool_decide (r ∈ handles entries)
                           then closed (sockets s r) else sockets s r.
Proof.
  revert s. induction entries as [|[k c] entries IH]; intros s.
  { exists (sockets s). split; [by destruct s|]. intros r.
    by rewrite bool_decide_false by apply not_elem_of_nil. }
  cbn [for_each]. unfold bind at 1. unfold close_connection at 1.
  unfold handles. cbn [omap list_omap snd]. fold (handles entries).
  destruct (websocket c) as [ws|].
  - rewrite ws_close_unfold.
    destruct (IH (set_sockets (store ws (closed (sockets s ws)) (sockets s)) s))
      as (socks & -> & Hsocks).
    exists socks. split; [done|]. intros r. rewrite Hsocks.
    change (sockets (set_sockets ?f s)) with f.
    unfold store.
    destruct (decide (r = ws)) as [->|Hne].
    + rewrite (bool_decide_true (ws = ws)) by done.
      rewrite (bool_decide_true (ws ∈ ws :: handles entries)) by left.
      case_bool_decide; [apply closed_idempotent | done].
    + rewrite (bool_decide_false (r = ws)) by done.
      destruct (decide (r ∈ handles entries)) as [Hin|Hnin].
      * rewrite !bool_decide_true; [done| by right | done].
      * rewrite !bool_decide_false; [done| | done].
        intros [?|?]%elem_of_cons; done.
  - unfold ret at 1. destruct (IH s) as (socks & -> & Hsocks). by exists socks.
Qed.

(** [stop], by fields. *)
Lemma stop_spec (s : State) :
  exists s',
    stop s = (Normal tt, s')
    /\ this_connections s' = ∅
    /\ bound_port s' = None
    /\ intervals s' = match this_heartbeatInterval s with
                      | Some h => intervals s ∖ {[h]}
                      | None => intervals s
                      end
    /\ this_heartbeatInterval s' = this_heartbeatInterval s
    /\ this_config s' = this_config s
    /\ this_taskCommandHandler s' = this_taskCommandHandler s
    /\ listen_calls s' = listen_calls s
    /\ emitted s' = emitted s ++ [EmitStopped]
    /\ forall r, sockets s' r
         = if bool_decide (r ∈ handles (map_to_list (this_connections s)))
           then closed (sockets s r) else sockets s r.
Proof.
  unfold stop. unfold bind at 1. unfold gets at 1. unfold bind at 1.
  set (s0 := match this_heartbeatInterval s with
             | Some h => set_timers (Some h) (intervals s ∖ {[h]})
                           (next_interval s) s
             | None => s
             end).
  assert (Hfirst :
    match this_heartbeatInterval s with
    | Some h => modify (fun s => set_timers (this_heartbeatInterval s)
                                   (intervals s ∖ {[h]}) (next_interval s) s)
    | None => ret tt
    end s = (Normal tt, s0)).
  { unfold s0. destruct (this_heartbeatInterval s) eqn:Hh; [|done].
    unfold modify. by rewrite Hh. }
  rewrite Hfirst. unfold bind at 1. unfold gets at 1. unfold bind at 1.
  destruct (close_loop_spec (map_to_list (this_connections s0)) s0)
    as (socks & -> & Hsocks).
  assert (Hsame : this_connections s0 = this_connections s
                  /\ sockets s0 = sockets s
                  /\ this_config s0 = this_config s
                  /\ this_taskCommandHandler s0 = this_taskCommandHandler s
                  /\ listen_calls s0 = listen_calls s
                  /\ emitted s0 = emitted s
                  /\ this_heartbeatInterval s0 = this_heartbeatInterval s).
  { unfold s0. by destruct (this_heartbeatInterval s) eqn:Hh. }
  destruct Hsame as (Hc & Hs & Hcfg & Hh & Hl & He & Ht).
  eexists. split; [reflexivity|]. simpl.
  rewrite Hcfg, Hh, Hl, He, Ht. repeat split; try done.
  - unfold s0. by destruct (this_heartbeatInterval s).
  - intros r. rewrite Hsocks, Hc, Hs. done.
Qed.

(** X9. [stop] resolves and leaves nothing running: the registry is
    empty, no listener is bound, the server's heartbeat interval is
    cleared, [stopped] is emitted, and every socket that was registered is
    out of the [OPEN] state with nothing written to it by the shutdown;
    sockets that no registered connection referred to are untouched, and
    the configuration is kept. *)
Theorem stop_tears_down (s : State) :
  exists s',
    stop s = (Normal tt, s')
    /\ this_connections s' = ∅
    /\ bound_port s' = None
    /\ (forall h, this_heartbeatInterval s = Some h -> h ∉ intervals s')
    /\ emitted s' = emitted s ++ [EmitStopped]
    /\ this_config s' = this_config s
    /\ (forall k c ws,
          this_connections s !! k = Some c -> websocket c = Some ws ->
          readyState (sockets s' ws) ≠ OPEN
          /\ written (sockets s' ws) = written (sockets s ws))
    /\ (forall r,
          (forall k c, this_connections s !! k = Some c ->
                       websocket c ≠ Some r) ->
          sockets s' r = sockets s r).
Proof.
  destruct (stop_spec s)
    as (s' & Hrun & Hc & Hb & Hi & _ & Hcfg & _ & _ & Hem & Hsocks).
  exists s'. split; [done|]. split; [done|]. split; [done|]. split.
  { intros h Hh. rewrite Hi, Hh. set_solver. }
  split; [done|]. split; [done|]. split.
  - intros k c ws Hk Hws. rewrite Hsocks.
    rewrite bool_decide_true.
    + unfold closed. simpl. split; [by case_bool_decide | done].
    + apply list_elem_of_omap. exists (k, c). split; [|done].
      by apply elem_of_map_to_list.
  - intros r Hfree. rewrite Hsocks. rewrite bool_decide_false; [done|].
    intros Hin. apply list_elem_of_omap in Hin as ([k c] & Hin & Hws).
    apply elem_of_map_to_list in Hin. by apply (Hfree k c).
Qed.


(** ** Streaming server: more on broadcast *)

Lemma socket_eq (w w' : WebSocket) :
  readyState w' = readyState w -> send_throws w' = send_throws w ->
  written w' = written w -> w' = w.
Proof. destruct w, w'. simpl. by intros -> -> ->. Qed.

(** X11. Whatever the registry and the sockets, [broadcastEvent] returns
    normally and emits the event once; it registers nobody (every
    connection registered afterwards was registered before, unchanged);
    it changes no ready state; and a socket that no registered connection
    refers to is left exactly as it was. *)
Theorem broadcast_touches_registered_sockets_only
    (s : State) (event : StreamEvent) :
  exists s',
    broadcastEvent event s = (Normal tt, s')
    /\ emitted s' = emitted s ++ [EmitEventBroadcast event]
    /\ this_connections s' ⊆ this_connections s
    /\ (forall r, readyState (sockets s' r) = readyState (sockets s r))
    /\ (forall r,
          (forall k c, this_connections s !! k = Some c ->
                       websocket c ≠ Some r) ->
          sockets s' r = sockets s r).
Proof.
  destruct (broadcastEvent_spec event s)
    as (s' & Hrun & Hw & Hwr & Hc & Hem & _).
  exists s'. split; [done|]. split; [done|]. split; [|split].
  - apply map_subseteq_spec. intros k c. rewrite Hc.
    destruct (this_connections s !! k) as [c0|]; [|done].
    by destruct (throws_on s c0).
  - intros r. by destruct (Hw r).
  - intros r Hfree. destruct (Hw r) as [Hrs Hst].
    apply socket_eq; [done|done|].
    rewrite Hwr, count_where_none; [by rewrite app_nil_r|].
    intros [k c] Hin. apply elem_of_map_to_list in Hin. simpl.
    unfold delivers_to. destruct (websocket c) as [ws|] eqn:Hws; [|done].
    rewrite (bool_decide_false (ws = r)); [done|].
    intros ->. by apply (Hfree k c).
Qed.

(** X12. The removal of dead connections is complete after one broadcast:
    a second [broadcastEvent], of any event, removes nobody. *)
Theorem second_broadcast_removes_nobody
    (s : State) (first second : StreamEvent) :
  this_connections (broadcastEvent second (broadcastEvent first s).2).2
  = this_connections (broadcastEvent first s).2.
Proof.
  destruct (broadcastEvent_spec first s)
    as (s1 & Hrun1 & Hw1 & _ & Hc1 & _).
  rewrite Hrun1. simpl.
  destruct (broadcastEvent_spec second s1)
    as (s2 & Hrun2 & _ & _ & Hc2 & _).
  rewrite Hrun2. simpl.
  apply map_eq. intros k. rewrite Hc2.
  destruct (this_connections s1 !! k) as [c|] eqn:Hk; [|done].
  rewrite (throws_on_wiring s s1 c Hw1).
  rewrite Hc1 in Hk.
  destruct (this_connections s !! k) as [c0|]; [|done].
  destruct (throws_on s c0) eqn:Hthrows; [done|].
  injection Hk as <-. by rewrite Hthrows.
Qed.

(** ** Streaming server: connections *)

(** X13. A client connecting is registered under a fresh-looking id built
    from the clock and the random source, with its socket and the time of
    connection; no other entry and no socket changes.  If that id was not
    in use, the socket's [close] callback restores the registry exactly. *)
Theorem connect_then_close (s : State) (ws : nat) :
  exists s' connectionId,
    on_connection ws s = (Normal tt, s')
    /\ connectionId
       = "conn_" +:+ pretty (clock (runtime s) (clock_reads (runtime s)))
         +:+ "_" +:+ entropy (runtime s) (entropy_reads (runtime s))
    /\ this_connections s'
       = <[connectionId :=
             mkConnection connectionId
               (clock (runtime s) (S (clock_reads (runtime s)))) (Some ws)]>
           (this_connections s)
    /\ sockets s' = sockets s
    /\ (this_connections s !! connectionId = None ->
        this_connections (on_loop_event (SocketClose connectionId) s').2
        = this_connections s).
Proof.
  eexists _, _. split; [reflexivity|]. split; [reflexivity|].
  split; [reflexivity|]. split; [reflexivity|].
  intros Hfresh. simpl. by rewrite delete_insert_id.
Qed.

(** *** Relations that every step of the server respects *)

Section Respects.

Variable R : State -> State -> Prop.
Hypothesis R_refl : forall s, R s s.
Hypothesis R_trans : forall s1 s2 s3, R s1 s2 -> R s2 s3 -> R s1 s3.
Hypothesis R_runtime : forall rt s, R s (set_runtime rt s).
Hypothesis R_sockets : forall f s, R s (set_sockets f s).
Hypothesis R_emitted : forall l s, R s (set_emitted l s).
Hypothesis R_config : forall c s, R s (set_config c s).
Hypothesis R_handler : forall h s, R s (set_handler h s).
Hypothesis R_listener : forall calls b s, R s (set_listener calls b s).
Hypothesis R_wss : forall b s, R s (set_wss_on_server b s).
Hypothesis R_uncaught : forall l s, R s (set_uncaught l s).
Hypothesis R_timers : forall h a n s, R s (set_timers h a n s).
Hypothesis R_delete :
  forall k s, R s (set_connections (delete k (this_connections s)) s).
Hypothesis R_clear : forall s, R s (set_connections ∅ s).

Lemma respects_ret {A} (a : A) : respects R (ret a).
Proof. intros s. apply R_refl. Qed.

Lemma respects_lift {A} (c : Completion A) : respects R (lift c).
Proof. intros s. apply R_refl. Qed.

Lemma respects_gets {A} (f : State -> A) : respects R (gets f).
Proof. intros s. apply R_refl. Qed.

Lemma respects_bind {A B} (m : SM A) (k : A -> SM B) :
  respects R m -> (forall a, respects R (k a)) -> respects R (bind m k).
Proof.
  intros Hm Hk s. unfold bind. specialize (Hm s).
  destruct (m s) as [[a|e] s1]; simpl in *; [|done].
  eapply R_trans; [exact Hm | apply Hk].
Qed.

Lemma respects_try_catch {A} (body : SM A) (handler : Exn -> SM A) :
  respects R body -> (forall e, respects R (handler e)) ->
  respects R (try_catch body handler).
Proof.
  intros Hm Hk s. unfold try_catch. specialize (Hm s).
  destruct (body s) as [[a|e] s1]; simpl in *; [done|].
  eapply R_trans; [exact Hm | apply Hk].
Qed.

Lemma respects_for_each {A} (f : A -> SM unit) (l : list A) :
  (forall a, respects R (f a)) -> respects R (for_each f l).
Proof.
  intros Hf. induction l as [|a l IH]; simpl.
  - apply respects_ret.
  - apply respects_bind; [apply Hf | intros _; apply IH].
Qed.

Lemma respects_in_runtime {A} (m : JS A) : respects R (in_runtime m).
Proof.
  intros s. unfold in_runtime. destruct (m (runtime s)). apply R_runtime.
Qed.

Lemma respects_emit e : respects R (emit e).
Proof. intros s. apply R_emitted. Qed.

Lemma respects_connections_delete k : respects R (connections_delete k).
Proof. intros s. apply R_delete. Qed.

Lemma respects_ws_close ws : respects R (ws_close ws).
Proof. intros s. apply R_sockets. Qed.

Lemma respects_sendToWebSocketClient ws frame :
  respects R (sendToWebSocketClient ws frame).
Proof.
  intros s. unfold sendToWebSocketClient, ws_send.
  case_bool_decide; [|apply R_refl].
  destruct (send_throws (sockets s ws)); [apply R_refl | apply R_sockets].
Qed.

Local Ltac respects_step known :=
  repeat first
    [ progress intros
    | known
    | apply respects_bind | apply respects_try_catch | apply respects_for_each
    | apply respects_ret | apply respects_lift | apply respects_gets
    | apply respects_in_runtime | apply respects_emit
    | apply respects_connections_delete
    | apply respects_sendToWebSocketClient | apply respects_ws_close
    | match goal with
      | |- respects R (match ?x with _ => _ end) => destruct x
      | |- respects R (let '(_, _) := ?x in _) => destruct x
      end ].

Lemma respects_broadcastEvent event : respects R (broadcastEvent event).
Proof. unfold broadcastEvent, broadcast_to, log. respects_step fail. Qed.

Lemma respects_sendAckToClient k name : respects R (sendAckToClient k name).
Proof. unfold sendAckToClient. respects_step fail. Qed.

Lemma respects_sendErrorToClient k msg : respects R (sendErrorToClient k msg).
Proof. unfold sendErrorToClient. respects_step fail. Qed.

Lemma respects_on_loop_event ev : respects R (on_loop_event ev).
Proof. unfold on_loop_event, log. respects_step fail. Qed.

Lemma respects_handleTaskCommand k message :
  respects R (handleTaskCommand k message).
Proof.
  unfold handleTaskCommand, await, log.
  respects_step ltac:(first [apply respects_sendAckToClient
                            | apply respects_sendErrorToClient
                            | apply respects_on_loop_event]).
Qed.

Lemma respects_heartbeat_callback : respects R heartbeat_callback.
Proof.
  unfold heartbeat_callback.
  respects_step ltac:(apply respects_broadcastEvent).
Qed.

Lemma respects_interval_fires h : respects R (interval_fires h).
Proof.
  intros s. unfold interval_fires. case_bool_decide; [|apply R_refl].
  apply respects_heartbeat_callback.
Qed.

Lemma respects_updateConfig newConfig : respects R (updateConfig newConfig).
Proof.
  unfold updateConfig, log. respects_step fail. intros s. apply R_config.
Qed.

Lemma respects_setTaskCommandHandler h :
  respects R (setTaskCommandHandler h).
Proof. intros s. apply R_handler. Qed.

Lemma respects_onListening p : respects R (onListening p).
Proof.
  unfold onListening, log. respects_step fail. intros s. apply R_config.
Qed.

Lemma tryPort_respects range p s : R s (tryPort range p s).2.
Proof.
  remember (attempts_left range p) as n eqn:Hn.
  revert p Hn s. induction n as [n IH] using lt_wf_ind. intros p Hn s.
  rewrite tryPort_unfold. unfold server_listen.
  destruct (listen_env s p) as [|code error].
  { eapply R_trans; [apply R_listener | apply respects_onListening]. }
  cbn [wss_on_server set_listener].
  destruct (wss_on_server s).
  { eapply R_trans; [apply R_listener | apply R_uncaught]. }
  destruct (bool_decide (code = "EADDRINUSE")); [|apply R_listener].
  destruct range as [r|]; [|apply R_listener].
  destruct (decide (p < max r)) as [Hlt|]; [|apply R_listener].
  eapply R_trans; [apply R_listener|].
  eapply R_trans; [|apply (IH (attempts_left (Some r) (p + 1))
                             ltac:(subst n; simpl; lia) (p + 1) eq_refl)].
  apply R_runtime.
Qed.

Lemma respects_call_start : respects R call_start.
Proof.
  intros s. unfold call_start, start. cbn [snd].
  destruct (bound_port s); [apply R_refl|].
  apply tryPort_respects.
Qed.

Lemma respects_stop : respects R stop.
Proof.
  unfold stop, close_connection, log.
  respects_step fail; intros s;
    first [apply R_timers | apply R_clear | apply R_wss | apply R_listener].
Qed.

(** Every action but a client connecting respects [R]. *)
Lemma respects_perform (a : Action) :
  is_connect a = false -> respects R (perform a).
Proof.
  destruct a; intros Hconn; try discriminate Hconn; cbn [perform].
  - apply respects_call_start.
  - apply respects_stop.
  - apply respects_updateConfig.
  - apply respects_setTaskCommandHandler.
  - apply respects_broadcastEvent.
  - apply respects_interval_fires.
  - apply respects_handleTaskCommand.
  - apply respects_on_loop_event.
Qed.

End Respects.

(** The registry only loses entries along a computation that respects
    [registry_shrinks]; every action but a client connecting does. *)
Lemma perform_shrinks_registry (a : Action) :
  is_connect a = false -> respects registry_shrinks (perform a).
Proof.
  intros Hconn.
  apply (respects_perform registry_shrinks); try done;
    unfold registry_shrinks; simpl; intros;
    first [ reflexivity
          | apply delete_subseteq
          | apply map_empty_subseteq
          | etrans; eassumption ].
Qed.

(** X14. Nothing but a client connecting ever adds to the registry: after
    any other action (a method call, a heartbeat, a command, a socket
    closing) every registered connection was registered before, unchanged. *)
Theorem registry_grows_only_on_connect (a : Action) (s : State) :
  is_connect a = false ->
  this_connections (perform a s).2 ⊆ this_connections s.
Proof. intros Hconn. by apply perform_shrinks_registry. Qed.

Lemma registry_grows_only_on_connect_witness :
  this_connections (perform CallStop state_K_A).2 ⊆ this_connections state_K_A.
Proof. exact (registry_grows_only_on_connect CallStop state_K_A eq_refl). Defined.

Lemma well_keyed_subseteq (m m' : gmap string StreamClientConnection) :
  m' ⊆ m -> well_keyed m -> well_keyed m'.
Proof.
  intros Hsub Hm k c Hk. apply (Hm k c).
  by apply (lookup_weaken m' m).
Qed.

(** From construction on, every entry of the registry is stored under
    its own id and has a socket. *)
Lemma registry_well_keyed config listen socks rt (actions : list Action) :
  well_keyed (this_connections
                (run_actions actions (constructor config listen socks rt))).
Proof.
  induction actions as [|a actions IH] using rev_ind.
  { apply map_Forall_empty. }
  unfold run_actions in *. rewrite foldl_snoc.
  destruct (is_connect a) eqn:Hconn.
  - destruct a; try discriminate Hconn. cbn [perform].
    apply map_Forall_insert_2; [|done]. split; [done | by eexists].
  - eapply well_keyed_subseteq; [|exact IH].
    by apply perform_shrinks_registry.
Qed.

(** X15. On a server reached from construction by any actions,
    [getConnections] lists every registered connection exactly once: its
    ids are the registry's keys, without duplicates, as many as the
    registry has entries, and no entry of the list carries a socket. *)
Theorem getConnections_lists_the_registry
    (config : PartialConfig) (listen : Z -> ListenResult)
    (socks : nat -> WebSocket) (rt : Runtime) (actions : list Action) :
  id <$> getConnections (run_actions actions
                           (constructor config listen socks rt))
  = (map_to_list (this_connections
       (run_actions actions (constructor config listen socks rt)))).*1
  /\ NoDup (id <$> getConnections (run_actions actions
                                     (constructor config listen socks rt)))
  /\ length (getConnections (run_actions actions
                               (constructor config listen socks rt)))
     = size (this_connections
               (run_actions actions (constructor config listen socks rt)))
  /\ Forall (fun c => websocket c = None)
       (getConnections (run_actions actions
                          (constructor config listen socks rt))).
Proof.
  pose proof (registry_well_keyed config listen socks rt actions) as Hkeyed.
  set (s := run_actions actions (constructor config listen socks rt)) in *.
  assert (Hids : id <$> getConnections s
                 = (map_to_list (this_connections s)).*1).
  { unfold getConnections. rewrite <- !list_fmap_compose.
    apply list_fmap_ext. intros i [k c] Hin. simpl.
    apply list_elem_of_lookup_2, elem_of_map_to_list in Hin.
    by destruct (Hkeyed k c Hin). }
  split; [done|]. split; [|split].
  - rewrite Hids. apply NoDup_fst_map_to_list.
  - unfold getConnections. by rewrite !length_fmap, length_map_to_list.
  - unfold getConnections. apply Forall_fmap, Forall_fmap.
    by apply Forall_true.
Qed.

(** ** Streaming server: more on port acquisition *)



(** ** Streaming server: more on task commands *)

(** A reply, whatever the state of the registry and of the socket. *)
Lemma reply_effect_spec (build : Z -> Frame) (sender : string -> SM unit)
    (connectionId : string) (s : State) :
  (forall st, sender connectionId st
     = (let* connection := gets (fun s => this_connections s !! connectionId) in
        match connection ≫= websocket with
        | Some ws =>
            let* now := in_runtime Date_now in
            sendToWebSocketClient ws (build now)
        | None => ret tt
        end)%js st) ->
  exists res s',
    sender connectionId s = (res, s')
    /\ this_connections s' = this_connections s
    /\ reply_effect connectionId s res s'.
Proof.
  intros ->. unfold bind, gets, in_runtime, Date_now, sendToWebSocketClient,
    ws_send, ret.
  destruct (this_connections s !! connectionId) as [c|] eqn:Hk; simpl;
    [|eexists _, _; split; [reflexivity|]; split; [done | by left]].
  destruct (websocket c) as [ws|] eqn:Hws; simpl;
    [|eexists _, _; split; [reflexivity|]; split; [done | by left]].
  case_bool_decide as Hopen;
    [|eexists _, _; split; [reflexivity|]; split; [done | by left]].
  destruct (send_throws (sockets s ws)) eqn:Hsend;
    eexists _, _; (split; [reflexivity|]); (split; [done|]);
    [by left|].
  right. eexists c, ws, _. by repeat split.
Qed.


(** ** The host side of task commands *)

(** A command whose handler rejects before anything is awaited, from a
    connection with an open socket that takes writes: the rejection comes
    back to that connection as the one [error] frame. *)
Lemma rejected_command_reply (s : State) (connectionId : string)
    (message : WebSocketTaskCommand) (h : TaskCommandHandler) (e : Exn)
    (c : StreamClientConnection) (ws : nat) :
  this_taskCommandHandler s = Some h ->
  h (commandName message) (command_data message) = Api.rejected e ->
  this_connections s !! connectionId = Some c ->
  websocket c = Some ws ->
  readyState (sockets s ws) = OPEN ->
  send_throws (sockets s ws) = None ->
  exists s',
    handleTaskCommand connectionId message s = (Normal tt, s')
    /\ written (sockets s' ws)
       = written (sockets s ws)
         ++ [ErrorFrame ("Failed to process command: " +:+ error_message e)
               (clock (runtime s) (clock_reads (runtime s)))]
    /\ (forall r, r ≠ ws -> sockets s' r = sockets s r)
    /\ this_connections s' = this_connections s.
Proof.
  intros Hh Hrej Hk Hws Hopen Hsend.
  unfold handleTaskCommand. unfold bind at 1. unfold gets at 1.
  rewrite Hh. unfold try_catch. unfold bind at 1.
  destruct (log_spec ("[Streaming Server] Processing task command from "
              +:+ connectionId +:+ ": " +:+ commandName message) None s)
    as (rt1 & -> & Hclock1 & Hreads1).
  unfold bind at 1. unfold await. rewrite Hrej.
  unfold Api.rejected. cbn [meanwhile outcome for_each].
  unfold bind at 1, ret at 1, lift at 1. unfold bind at 1.
  destruct (log_spec ("[Streaming Server] Error processing task command "
              +:+ commandName message +:+ ":") (Some e) (set_runtime rt1 s))
    as (rt2 & -> & Hclock2 & Hreads2).
  destruct (sendErrorToClient_spec
              ("Failed to process command: " +:+ error_message e)
              connectionId c ws (set_runtime rt2 (set_runtime rt1 s)))
    as (s2 & Hsend2 & Hwr & Hrest); [done..|].
  assert (Hconn : this_connections s2 = this_connections s).
  { destruct (reply_effect_spec
                (ErrorFrame ("Failed to process command: "
                             +:+ error_message e))
                (fun i => sendErrorToClient i
                   ("Failed to process command: " +:+ error_message e))
                connectionId (set_runtime rt2 (set_runtime rt1 s))
                ltac:(reflexivity)) as (res & s3 & Hrun3 & Hc3 & _).
    rewrite Hsend2 in Hrun3. by injection Hrun3 as _ <-. }
  rewrite Hsend2. exists s2. split; [done|]. simpl in *.
  rewrite Hclock2, Hreads2, Hclock1, Hreads1 in Hwr. done.
Qed.

(** X19. With the host's [handleWebSocketTaskCommand] registered as the
    handler, a command whose name is none of the three task commands is
    answered with exactly one [error] frame, "Failed to process command:
    Unknown task command: <name>", on the originating connection's open
    socket; no host operation runs, no other socket and no registry entry
    changes. *)
Theorem unknown_command_is_answered_with_error
    (StartNewTask CancelTask CloseTask : string)
    (template : JsValue -> Completion string)
    (startNewTask cancelTask : JsValue -> Settled)
    (saveFiles closeWindow : Settled)
    (s : State) (connectionId : string) (message : WebSocketTaskCommand)
    (c : StreamClientConnection) (ws : nat) :
  this_taskCommandHandler s
    = Some (Api.handleWebSocketTaskCommand StartNewTask CancelTask CloseTask
              template startNewTask cancelTask saveFiles closeWindow) ->
  commandName message ∉ [StartNewTask; CancelTask; CloseTask] ->
  this_connections s !! connectionId = Some c ->
  websocket c = Some ws ->
  readyState (sockets s ws) = OPEN ->
  send_throws (sockets s ws) = None ->
  exists s',
    handleTaskCommand connectionId message s = (Normal tt, s')
    /\ written (sockets s' ws)
       = written (sockets s ws)
         ++ [ErrorFrame ("Failed to process command: Unknown task command: "
                         +:+ commandName message)
               (clock (runtime s) (clock_reads (runtime s)))]
    /\ (forall r, r ≠ ws -> sockets s' r = sockets s r)
    /\ this_connections s' = this_connections s.
Proof.
  intros Hh Hname Hk Hws Hopen Hsend.
  eapply (rejected_command_reply s connectionId message _
            (ErrorObject ("Unknown task command: " +:+ commandName message)));
    try eassumption.
  unfold Api.handleWebSocketTaskCommand.
  rewrite !bool_decide_false; [done|..]; intros Heq; apply Hname;
    rewrite Heq; set_solver.
Qed.

Lemma unknown_command_is_answered_with_error_witness :
  exists s',
    handleTaskCommand "conn_A" reboot_command
      (set_handler (Some demo_host) state_K_A) = (Normal tt, s')
    /\ written (sockets s' 1%nat)
       = [ErrorFrame "Failed to process command: Unknown task command: Reboot"
            1700000000000]
    /\ (forall r, r ≠ 1%nat -> sockets s' r = demo_sockets r)
    /\ this_connections s' = this_connections state_K_A.
Proof.
  apply (unknown_command_is_answered_with_error
           "StartNewTask" "CancelTask" "CloseTask" demo_template
           (fun _ => mkSettled [] (Normal tt))
           (fun _ => mkSettled [] (Normal tt))
           (mkSettled [] (Normal tt)) (mkSettled [] (Normal tt))
           (set_handler (Some demo_host) state_K_A)
           "conn_A" reboot_command conn_A 1%nat).
  - reflexivity.
  - apply (bool_decide_unpack _). vm_compute. exact I.
  - reflexivity.
  - reflexivity.
  - reflexivity.
  - reflexivity.
Defined.

(** X20. A [StartNewTask] command without usable data ([null], or no
    [data] field at all) never reaches [startNewTask]: reading [data.text]
    for the log line throws, and the client gets exactly one [error] frame
    carrying that [TypeError]. *)
Theorem start_task_without_data_is_rejected
    (StartNewTask CancelTask CloseTask : string)
    (template : JsValue -> Completion string)
    (startNewTask cancelTask : JsValue -> Settled)
    (saveFiles closeWindow : Settled)
    (s : State) (connectionId : string) (data : JsValue)
    (c : StreamClientConnection) (ws : nat) :
  this_taskCommandHandler s
    = Some (Api.handleWebSocketTaskCommand StartNewTask CancelTask CloseTask
              template startNewTask cancelTask saveFiles closeWindow) ->
  data = JNull \/ data = JUndefined ->
  this_connections s !! connectionId = Some c ->
  websocket c = Some ws ->
  readyState (sockets s ws) = OPEN ->
  send_throws (sockets s ws) = None ->
  exists s',
    handleTaskCommand connectionId (mkTaskCommand StartNewTask data) s
      = (Normal tt, s')
    /\ written (sockets s' ws)
       = written (sockets s ws)
         ++ [ErrorFrame
               ("Failed to process command: Cannot read properties of "
                +:+ match data with JNull => "null" | _ => "undefined" end
                +:+ " (reading 'text')")
               (clock (runtime s) (clock_reads (runtime s)))]
    /\ (forall r, r ≠ ws -> sockets s' r = sockets s r).
Proof.
  intros Hh Hdata Hk Hws Hopen Hsend.
  destruct (rejected_command_reply s connectionId
              (mkTaskCommand StartNewTask data) _
              (ErrorObject ("Cannot read properties of "
                 +:+ match data with JNull => "null" | _ => "undefined" end
                 +:+ " (reading 'text')")) c ws Hh)
    as (s' & Hrun & Hwr & Hrest & _); try done.
  - unfold Api.handleWebSocketTaskCommand. simpl.
    rewrite bool_decide_true by done.
    destruct Hdata as [-> | ->]; reflexivity.
  - by exists s'.
Qed.

Lemma start_task_without_data_is_rejected_witness :
  exists s',
    handleTaskCommand "conn_A" (mkTaskCommand "StartNewTask" JNull)
      (set_handler (Some demo_host) state_K_A) = (Normal tt, s')
    /\ written (sockets s' 1%nat)
       = [ErrorFrame
            "Failed to process command: Cannot read properties of null (reading 'text')"
            1700000000000]
    /\ (forall r, r ≠ 1%nat -> sockets s' r = demo_sockets r).
Proof.
  apply (start_task_without_data_is_rejected
           "StartNewTask" "CancelTask" "CloseTask" demo_template
           (fun _ => mkSettled [] (Normal tt))
           (fun _ => mkSettled [] (Normal tt))
           (mkSettled [] (Normal tt)) (mkSettled [] (Normal tt))
           (set_handler (Some demo_host) state_K_A)
           "conn_A" JNull conn_A 1%nat).
  - reflexivity.
  - left. reflexivity.
  - reflexivity.
  - reflexivity.
  - reflexivity.
  - reflexivity.
Defined.

(** ** Streaming server: what a heartbeat does to the registry *)

(** X21. The heartbeat callback never throws.  Its event has no task id
    and no content; its id, its timestamp and the timestamp in its payload
    come from three successive reads of the clock.  The event goes to
    every registered connection that delivers, and afterwards no
    registered connection is left whose write would throw: a heartbeat
    purges the broken connections and keeps all the others. *)
Theorem heartbeat_purges_broken_connections (s : State) :
  exists s' hb,
    heartbeat_callback s = (Normal tt, s')
    /\ hb = mkStreamEvent
              ("event_" +:+ pretty (clock (runtime s) (clock_reads (runtime s)))
               +:+ "_" +:+ entropy (runtime s) (entropy_reads (runtime s)))
              (clock (runtime s) (S (clock_reads (runtime s))))
              None None (Some "heartbeat")
              (Some (JObj [("timestamp",
                 JNum (pretty (clock (runtime s)
                                 (S (S (clock_reads (runtime s)))))))]))
    /\ emitted s' = emitted s ++ [EmitEventBroadcast hb]
    /\ (forall r, written (sockets s' r)
          = written (sockets s r)
            ++ replicate (count_where (fun e => delivers_to s r e.2)
                            (map_to_list (this_connections s)))
                         (EventFrame hb))
    /\ (forall k c, this_connections s' !! k = Some c ->
          this_connections s !! k = Some c /\ throws_on s' c = false)
    /\ (forall k c, this_connections s !! k = Some c ->
          throws_on s c = false -> this_connections s' !! k = Some c).
Proof.
  unfold heartbeat_callback, bind, in_runtime, generateEventId, Date_now,
    Math_random_suffix, ret. simpl.
  match goal with
  | |- context [broadcastEvent ?ev ?s1] =>
      destruct (broadcastEvent_spec ev s1)
        as (s' & -> & Hw & Hwr & Hreg & Hem & _);
      exists s', ev
  end.
  simpl in *.
  split; [done|]. split; [done|]. split; [exact Hem|]. split; [exact Hwr|].
  split.
  - intros k c Hk. rewrite Hreg in Hk.
    destruct (this_connections s !! k) as [c0|]; [|done].
    match type of Hk with
    | (if throws_on ?s1 c0 then _ else _) = _ =>
        destruct (throws_on s1 c0) eqn:Hthrow; [done|];
        injection Hk as <-; split; [done|];
        by rewrite (throws_on_wiring s1 s' c0 Hw)
    end.
  - intros k c Hk Hthrow. rewrite Hreg, Hk.
    match goal with
    | |- (if throws_on ?s1 c then _ else _) = _ =>
        change (throws_on s1 c) with (throws_on s c)
    end.
    by rewrite Hthrow.
Qed.
